(** * Archive Workforce: task governance, audit trail and autonomy resolution

    A shallow embedding of [core/database.py] (class [WorkforceDB]), of the
    [promote_insight] route of [api/main.py] and of the parts of the schema
    in [migrations/001_initial_schema.py] they rely on.

    - A Python [dict] with dynamic keys (a task row, the [**updates] of
      [update_task], an audit [old_value]/[new_value], an event payload) is
      a [gmap string value].  Rows of the other tables are only ever built
      from literal keys, so they are records named after the columns.
    - The store is the list of rows of each table, in insertion order.  It
      accepts every statement: type and constraint errors of the real store
      are outside the model.
    - Every method runs in the monad [Db]: the store is threaded through,
      and an exception ends the method while keeping the writes made so far
      (nothing in the code rolls back).
    - [datetime.now] and [uuid4] are oracles: the n-th reading of the clock
      and the n-th identifier drawn are given by the environment.
    - A Python [str] is kept as the string of its UTF-8 bytes.  Equality of
      strings is equality of bytes; a slice [s[:n]] counts code points, not
      bytes.
    - [get_current_autonomy_mode] pastes the agent identifier into the
      expression it hands to [or_] without escaping it.  How the store reads
      such an expression is part of the environment; the statements fix that
      reading only for identifiers made of letters, digits, [_] and [-]. *)

From stdpp Require Import base option list gmap strings fin_maps.
From Stdlib Require Import ZArith Lia DecimalString.

Local Open Scope Z_scope.
#[local] Set Warnings "-register-all".

(** ** Python values *)

(** What a cell of a task row or a keyword argument can hold.  A timestamp
    is an ISO-8601 string in Python and a TIMESTAMPTZ in the store; it is
    kept as the instant it denotes (microseconds). *)
Inductive value : Type :=
  | VNull
  | VBool (b : bool)
  | VInt (n : Z)
  | VStr (s : string)
  | VTime (t : Z)
  | VList (l : list value)
  | VDict (kvs : list (string * value)).

Fixpoint assoc {A : Type} (k : string) (kvs : list (string * A)) : option A :=
  match kvs with
  | [] => None
  | (k', v) :: rest => if String.eqb k k' then Some v else assoc k rest
  end.

(** Python's [==].  Booleans are integers; sequences compare element by
    element; dictionaries compare key by key, whatever the order. *)
Fixpoint py_eq (a b : value) : bool :=
  match a, b with
  | VNull, VNull => true
  | VBool x, VBool y => Bool.eqb x y
  | VBool x, VInt n => Z.eqb (Z.b2z x) n
  | VInt n, VBool x => Z.eqb n (Z.b2z x)
  | VInt m, VInt n => Z.eqb m n
  | VStr s, VStr t => String.eqb s t
  | VTime s, VTime t => Z.eqb s t
  | VList l1, VList l2 =>
      (fix seq_eq (xs ys : list value) : bool :=
         match xs, ys with
         | [], [] => true
         | x :: xs', y :: ys' => py_eq x y && seq_eq xs' ys'
         | _, _ => false
         end) l1 l2
  | VDict d1, VDict d2 =>
      Nat.eqb (length d1) (length d2) &&
      (fix keys_eq (kvs : list (string * value)) : bool :=
         match kvs with
         | [] => true
         | (k, v) :: rest =>
             match assoc k d2 with
             | Some v' => py_eq v v' && keys_eq rest
             | None => false
             end
         end) d1
  | _, _ => false
  end.

(** Python's truth value: [None], [False], [0], the empty string and the
    empty containers are false. *)
Definition py_truthy (v : value) : bool :=
  match v with
  | VNull => false
  | VBool b => b
  | VInt n => negb (Z.eqb n 0)
  | VStr s => negb (String.eqb s "")
  | VTime _ => true
  | VList l => match l with [] => false | _ => true end
  | VDict d => match d with [] => false | _ => true end
  end.

(** [d.get(k)]: [None] when the key is absent. *)
Definition dict_get (d : gmap string value) (k : string) : value :=
  default VNull (d !! k).

(** An [Optional[str]] argument as a value. *)
Definition opt_str (o : option string) : value :=
  match o with Some s => VStr s | None => VNull end.

Definition opt_time (o : option Z) : value :=
  match o with Some t => VTime t | None => VNull end.

Definition opt_int (o : option Z) : value :=
  match o with Some n => VInt n | None => VNull end.

(** [x in [...]] for a string and a list of string literals. *)
Definition str_in (x : string) (l : list string) : bool :=
  existsb (String.eqb x) l.

(** A byte that continues a code point in UTF-8, [10xxxxxx]; every other
    byte starts one. *)
Definition continuation (c : Ascii.ascii) : bool :=
  let n := Ascii.nat_of_ascii c in
  ((128 <=? n) && (n <? 192))%nat.

(** [s[:n]], the first [n] code points of [s]: the cut falls before the
    byte that starts code point number [n + 1]. *)
Fixpoint str_prefix (n : nat) (s : string) : string :=
  match s with
  | EmptyString => EmptyString
  | String c s' =>
      if continuation c then String c (str_prefix n s')
      else match n with
           | O => EmptyString
           | S n' => String c (str_prefix n' s')
           end
  end.

(** [len(s)], the number of code points of [s]. *)
Fixpoint code_points (s : string) : nat :=
  match s with
  | EmptyString => O
  | String c s' => ((if continuation c then 0 else 1) + code_points s')%nat
  end.

(** ** Enumerations *)

Inductive TaskStatus : Type :=
  BACKLOG | IN_PROGRESS | NEEDS_REVIEW | DONE | BLOCKED | CANCELLED.

Module TaskStatus_.
Definition value_ (s : TaskStatus) : string :=
  match s with
  | BACKLOG => "BACKLOG"
  | IN_PROGRESS => "IN_PROGRESS"
  | NEEDS_REVIEW => "NEEDS_REVIEW"
  | DONE => "DONE"
  | BLOCKED => "BLOCKED"
  | CANCELLED => "CANCELLED"
  end.
End TaskStatus_.

Inductive EventType : Type :=
  | TASK_CREATED | TASK_UPDATED | TASK_ASSIGNED | STATUS_CHANGED
  | PRIORITY_CHANGED | INSIGHT_ADDED | DELIVERABLE_ADDED
  | AGENT_RUN_START | AGENT_RUN_END | HUMAN_APPROVED | HUMAN_REJECTED
  | AUTONOMY_MODE_CHANGED | POLICY_VIOLATION_FLAGGED | ERROR_OCCURRED.

Module EventType_.
Definition value_ (e : EventType) : string :=
  match e with
  | TASK_CREATED => "TASK_CREATED"
  | TASK_UPDATED => "TASK_UPDATED"
  | TASK_ASSIGNED => "TASK_ASSIGNED"
  | STATUS_CHANGED => "STATUS_CHANGED"
  | PRIORITY_CHANGED => "PRIORITY_CHANGED"
  | INSIGHT_ADDED => "INSIGHT_ADDED"
  | DELIVERABLE_ADDED => "DELIVERABLE_ADDED"
  | AGENT_RUN_START => "AGENT_RUN_START"
  | AGENT_RUN_END => "AGENT_RUN_END"
  | HUMAN_APPROVED => "HUMAN_APPROVED"
  | HUMAN_REJECTED => "HUMAN_REJECTED"
  | AUTONOMY_MODE_CHANGED => "AUTONOMY_MODE_CHANGED"
  | POLICY_VIOLATION_FLAGGED => "POLICY_VIOLATION_FLAGGED"
  | ERROR_OCCURRED => "ERROR_OCCURRED"
  end.
End EventType_.

(** ** Tables *)

(** [workforce_deliverables] *)
Record Deliverable : Type := {
  d_id : string;
  d_task_id : string;
  d_title : string;
  d_content : string;
  d_content_type : string;
  d_created_by : string;
  d_is_final : bool;
  d_created_at : Z
}.

(** [workforce_insights] ([expires_at], which the client never touches, is
    left out) *)
Record Insight : Type := {
  i_id : string;
  i_task_id : option string;
  i_agent : string;
  i_content : string;
  i_insight_type : string;
  i_promoted_to_task_id : value;
  i_promoted_at : option Z;
  i_created_at : Z
}.

(** [workforce_audit_log] *)
Record AuditEntry : Type := {
  a_id : string;
  a_event_type : string;
  a_entity_type : string;
  a_entity_id : string;
  a_actor : string;
  a_actor_type : string;
  a_old_value : option (gmap string value);
  a_new_value : option (gmap string value);
  a_metadata : gmap string value;
  a_created_at : Z
}.

(** [workforce_events] *)
Record Event : Type := {
  e_id : string;
  e_event_type : string;
  e_payload : gmap string value;
  e_processed : bool;
  e_processed_at : option Z;
  e_processed_by : option string;
  e_created_at : Z
}.

(** [workforce_autonomy_sessions] *)
Record AutonomySession : Type := {
  s_id : string;
  s_mode : string;
  s_granted_by : string;
  s_granted_to : option string;
  s_reason : option string;
  s_starts_at : Z;
  s_expires_at : Z;
  s_revoked_at : option Z;
  s_revoked_by : option string;
  s_created_at : Z
}.

(** The store, and how many times the clock was read and an identifier
    drawn so far. *)
Record World : Type := {
  workforce_tasks : list (gmap string value);
  workforce_deliverables : list Deliverable;
  workforce_insights : list Insight;
  workforce_audit_log : list AuditEntry;
  workforce_events : list Event;
  workforce_autonomy_sessions : list AutonomySession;
  clock_reads : nat;
  uuid_draws : nat
}.

Definition set_tasks (f : list (gmap string value) → list (gmap string value)) (w : World) : World :=
  {| workforce_tasks := f (workforce_tasks w);
     workforce_deliverables := workforce_deliverables w;
     workforce_insights := workforce_insights w;
     workforce_audit_log := workforce_audit_log w;
     workforce_events := workforce_events w;
     workforce_autonomy_sessions := workforce_autonomy_sessions w;
     clock_reads := clock_reads w;
     uuid_draws := uuid_draws w |}.

Definition set_deliverables (f : list Deliverable → list Deliverable) (w : World) : World :=
  {| workforce_tasks := workforce_tasks w;
     workforce_deliverables := f (workforce_deliverables w);
     workforce_insights := workforce_insights w;
     workforce_audit_log := workforce_audit_log w;
     workforce_events := workforce_events w;
     workforce_autonomy_sessions := workforce_autonomy_sessions w;
     clock_reads := clock_reads w;
     uuid_draws := uuid_draws w |}.

Definition set_insights (f : list Insight → list Insight) (w : World) : World :=
  {| workforce_tasks := workforce_tasks w;
     workforce_deliverables := workforce_deliverables w;
     workforce_insights := f (workforce_insights w);
     workforce_audit_log := workforce_audit_log w;
     workforce_events := workforce_events w;
     workforce_autonomy_sessions := workforce_autonomy_sessions w;
     clock_reads := clock_reads w;
     uuid_draws := uuid_draws w |}.

Definition set_audit_log (f : list AuditEntry → list AuditEntry) (w : World) : World :=
  {| workforce_tasks := workforce_tasks w;
     workforce_deliverables := workforce_deliverables w;
     workforce_insights := workforce_insights w;
     workforce_audit_log := f (workforce_audit_log w);
     workforce_events := workforce_events w;
     workforce_autonomy_sessions := workforce_autonomy_sessions w;
     clock_reads := clock_reads w;
     uuid_draws := uuid_draws w |}.

Definition set_events (f : list Event → list Event) (w : World) : World :=
  {| workforce_tasks := workforce_tasks w;
     workforce_deliverables := workforce_deliverables w;
     workforce_insights := workforce_insights w;
     workforce_audit_log := workforce_audit_log w;
     workforce_events := f (workforce_events w);
     workforce_autonomy_sessions := workforce_autonomy_sessions w;
     clock_reads := clock_reads w;
     uuid_draws := uuid_draws w |}.

Definition set_autonomy_sessions (f : list AutonomySession → list AutonomySession) (w : World) : World :=
  {| workforce_tasks := workforce_tasks w;
     workforce_deliverables := workforce_deliverables w;
     workforce_insights := workforce_insights w;
     workforce_audit_log := workforce_audit_log w;
     workforce_events := workforce_events w;
     workforce_autonomy_sessions := f (workforce_autonomy_sessions w);
     clock_reads := clock_reads w;
     uuid_draws := uuid_draws w |}.

Definition tick_clock (w : World) : World :=
  {| workforce_tasks := workforce_tasks w;
     workforce_deliverables := workforce_deliverables w;
     workforce_insights := workforce_insights w;
     workforce_audit_log := workforce_audit_log w;
     workforce_events := workforce_events w;
     workforce_autonomy_sessions := workforce_autonomy_sessions w;
     clock_reads := S (clock_reads w);
     uuid_draws := uuid_draws w |}.

Definition tick_uuid (w : World) : World :=
  {| workforce_tasks := workforce_tasks w;
     workforce_deliverables := workforce_deliverables w;
     workforce_insights := workforce_insights w;
     workforce_audit_log := workforce_audit_log w;
     workforce_events := workforce_events w;
     workforce_autonomy_sessions := workforce_autonomy_sessions w;
     clock_reads := clock_reads w;
     uuid_draws := S (uuid_draws w) |}.

(** ** Exceptions and the monad of the client *)

Inductive exn : Type :=
  | ValueError (msg : string)
  | KeyError (key : string)
  | HTTPException (status_code : Z) (detail : string)
  | APIError.

Inductive outcome (A : Type) : Type :=
  | Returns (a : A)
  | Raises (e : exn).
Arguments Returns {A} a.
Arguments Raises {A} e.

Definition Db (A : Type) : Type := World → outcome A * World.

Definition ret {A : Type} (a : A) : Db A := λ w, (Returns a, w).

Definition raise {A : Type} (e : exn) : Db A := λ w, (Raises e, w).

Definition bind {A B : Type} (m : Db A) (k : A → Db B) : Db B :=
  λ w, match m w with
       | (Returns a, w') => k a w'
       | (Raises e, w') => (Raises e, w')
       end.

(** Reading from and writing to the store. *)
Definition gets {A : Type} (f : World → A) : Db A := λ w, (Returns (f w), w).

Definition modify (f : World → World) : Db unit := λ w, (Returns tt, f w).

#[global] Instance Db_ret : MRet Db := @ret.
#[global] Instance Db_bind : MBind Db := λ A B k m, bind m k.

(** The environment: what the clock shows at its n-th reading, which
    identifier [uuid4] returns at its n-th call, and how the store reads a
    filter expression handed to [or_] on [workforce_autonomy_sessions]: the
    rows the expression selects, or nothing when the store refuses the
    expression (the client then raises APIError). *)
Record Env : Type := {
  wall_clock : nat → Z;
  uuid_stream : nat → string;
  or_ : string → option (AutonomySession → bool)
}.

(** ** Query helpers of the store *)

(** [.eq(col, v)] on a task row, for a text or uuid column *)
Definition row_eq (col v : string) (r : gmap string value) : bool :=
  match r !! col with
  | Some (VStr s) => String.eqb s v
  | _ => false
  end.

Fixpoint insert_by {A : Type} (key : A → Z) (desc : bool) (x : A) (l : list A) : list A :=
  match l with
  | [] => [x]
  | y :: l' =>
      if (if desc then key y <=? key x else key x <=? key y)
      then x :: l
      else y :: insert_by key desc x l'
  end.

(** [.order(col, desc=...)] on a timestamp column: rows with equal keys
    stay in store order. *)
Definition order_by {A : Type} (key : A → Z) (desc : bool) (l : list A) : list A :=
  foldr (insert_by key desc) [] l.

(** [.limit(n)] *)
Definition limit {A : Type} (n : nat) (l : list A) : list A := take n l.

(** Column defaults of [workforce_tasks] for the columns a client may leave
    out ([id], [created_at] and [updated_at] are always sent). *)
Definition task_column_defaults : gmap string value :=
  list_to_map
    [ ("description", VNull); ("owner_agent", VNull); ("assigned_by", VNull);
      ("status", VStr "BACKLOG"); ("priority", VStr "P2"); ("tags", VList []);
      ("source", VStr "api"); ("external_refs", VDict []);
      ("impact_score", VNull); ("effort_estimate", VNull);
      ("requires_approval", VBool false); ("approved_by", VNull);
      ("approved_at", VNull); ("parent_task_id", VNull); ("due_at", VNull) ].

(** Keyword arguments of [create_task]. *)
Module create_task_kw.
Record t : Type := {
  title : string;
  description : option string;
  owner_agent : option string;
  assigned_by : string;
  priority : string;
  tags : option (list string);
  source : string;
  requires_approval : bool;
  parent_task_id : option string;
  due_at : option Z;
  external_refs : option (list (string * value));
  impact_score : option Z;
  effort_estimate : option string
}.

(** The defaults of the signature. *)
Definition defaults (title : string) : t :=
  {| title := title; description := None; owner_agent := None;
     assigned_by := "system"; priority := "P2"; tags := None;
     source := "api"; requires_approval := false; parent_task_id := None;
     due_at := None; external_refs := None; impact_score := None;
     effort_estimate := None |}.
End create_task_kw.

Section WorkforceDB.

Variable env : Env.

(** [datetime.now(timezone.utc)], also the store's [NOW()] *)
Definition datetime_now : Db Z :=
  λ w, (Returns (wall_clock env (clock_reads w)), tick_clock w).

(** [str(uuid4())] *)
Definition uuid4 : Db string :=
  λ w, (Returns (uuid_stream env (uuid_draws w)), tick_uuid w).

(** [d[k]] *)
Definition dict_item (d : gmap string value) (k : string) : Db value :=
  match d !! k with
  | Some v => mret v
  | None => raise (KeyError k)
  end.

(** *** Audit and events (internal) *)

Definition _log_audit (event_type entity_type entity_id actor actor_type : string)
    (old_value new_value metadata : option (gmap string value)) : Db unit :=
  id ← uuid4;
  created_at ← datetime_now;
  modify (set_audit_log (λ t, t ++ [
    {| a_id := id; a_event_type := event_type;
       a_entity_type := entity_type; a_entity_id := entity_id;
       a_actor := actor; a_actor_type := actor_type;
       a_old_value := old_value; a_new_value := new_value;
       a_metadata := default ∅ metadata;
       a_created_at := created_at |}])).

Definition _create_event (event_type : string) (payload : gmap string value) : Db unit :=
  id ← uuid4;
  created_at ← datetime_now;
  modify (set_events (λ t, t ++ [
    {| e_id := id; e_event_type := event_type; e_payload := payload;
       e_processed := false; e_processed_at := None;
       e_processed_by := None; e_created_at := created_at |}])).

(** *** Tasks *)

Definition create_task (kw : create_task_kw.t) : Db (gmap string value) :=
  task_id ← uuid4;
  now ← datetime_now;
  let task_data : gmap string value :=
    list_to_map
      [ ("id", VStr task_id);
        ("title", VStr (create_task_kw.title kw));
        ("description", opt_str (create_task_kw.description kw));
        ("owner_agent", opt_str (create_task_kw.owner_agent kw));
        ("assigned_by", VStr (create_task_kw.assigned_by kw));
        ("status", VStr "BACKLOG");
        ("priority", VStr (create_task_kw.priority kw));
        ("tags", VList (VStr <$> default [] (create_task_kw.tags kw)));
        ("source", VStr (create_task_kw.source kw));
        ("requires_approval", VBool (create_task_kw.requires_approval kw));
        ("parent_task_id", opt_str (create_task_kw.parent_task_id kw));
        ("due_at", opt_time (create_task_kw.due_at kw));
        ("external_refs", VDict (default [] (create_task_kw.external_refs kw)));
        ("impact_score", opt_int (create_task_kw.impact_score kw));
        ("effort_estimate", opt_str (create_task_kw.effort_estimate kw));
        ("created_at", VTime now);
        ("updated_at", VTime now) ] in
  let row := task_data ∪ task_column_defaults in
  modify (set_tasks (λ t, t ++ [row]));;
  let result := [row] in
  _log_audit (EventType_.value_ TASK_CREATED) "task" task_id
    (create_task_kw.assigned_by kw)
    (if str_in (create_task_kw.assigned_by kw) ["jarvis"; "system"]
     then "agent" else "human")
    None (Some task_data) None;;
  _create_event (EventType_.value_ TASK_CREATED)
    {[ "task_id" := VStr task_id;
       "owner_agent" := opt_str (create_task_kw.owner_agent kw);
       "priority" := VStr (create_task_kw.priority kw) ]};;
  mret (default task_data (head result)).

Definition get_task (task_id : string) : Db (option (gmap string value)) :=
  gets (λ w, head (List.filter (row_eq "id" task_id) (workforce_tasks w))).

Definition get_deliverables (task_id : string) : Db (list Deliverable) :=
  gets (λ w, order_by d_created_at false
               (List.filter (λ d, String.eqb (d_task_id d) task_id)
                  (workforce_deliverables w))).

(** [table("workforce_tasks").update(updates).eq("id", task_id)]: the patch
    is laid over every matching row, then the trigger [tasks_updated_at]
    stamps [updated_at] with the store's [NOW()].  Returns the rows as
    written. *)
Definition tasks_update (updates : gmap string value) (task_id : string)
    : Db (list (gmap string value)) :=
  stamp ← datetime_now;
  let write (r : gmap string value) : gmap string value :=
    <["updated_at" := VTime stamp]> (updates ∪ r) in
  matched ← gets (λ w, List.filter (row_eq "id" task_id) (workforce_tasks w));
  modify (set_tasks (λ t, (λ r, if row_eq "id" task_id r then write r else r) <$> t));;
  mret (write <$> matched).

Definition update_task (task_id actor : string) (updates : gmap string value)
    : Db (option (gmap string value)) :=
  current ← get_task task_id;
  match current with
  | None => raise (ValueError ("Task " +:+ task_id +:+ " not found"))
  | Some current =>
      let old_status := dict_get current "status" in
      let new_status := dict_get updates "status" in
      (if py_eq new_status (VStr "DONE") && negb (py_eq old_status (VStr "DONE"))
       then
         deliverables ← get_deliverables task_id;
         match deliverables with
         | [] => raise (ValueError "Cannot mark task DONE without at least one deliverable")
         | _ :: _ =>
             if py_truthy (dict_get current "requires_approval")
                && negb (py_truthy (dict_get current "approved_by"))
             then raise (ValueError "Task requires approval before marking DONE")
             else mret tt
         end
       else mret tt);;
      now ← datetime_now;
      let updates := <["updated_at" := VTime now]> updates in
      result ← tasks_update updates task_id;
      _log_audit (EventType_.value_ TASK_UPDATED) "task" task_id actor
        (if str_in actor ["jarvis"; "chief_of_staff"; "ops_tracker";
                          "distribution"; "researcher"; "system"]
         then "agent" else "human")
        (Some (map_imap (λ k _, Some (dict_get current k)) updates))
        (Some updates) None;;
      (if py_truthy new_status && negb (py_eq new_status old_status)
       then _create_event (EventType_.value_ STATUS_CHANGED)
              {[ "task_id" := VStr task_id;
                 "old_status" := old_status;
                 "new_status" := new_status ]}
       else mret tt);;
      mret (head result)
  end.

(** *** Deliverables and insights *)

Definition add_deliverable (task_id title content created_by content_type : string)
    (is_final : bool) : Db Deliverable :=
  deliverable_id ← uuid4;
  now ← datetime_now;
  let data :=
    {| d_id := deliverable_id; d_task_id := task_id; d_title := title;
       d_content := content; d_content_type := content_type;
       d_created_by := created_by; d_is_final := is_final;
       d_created_at := now |} in
  modify (set_deliverables (λ t, t ++ [data]));;
  _log_audit (EventType_.value_ DELIVERABLE_ADDED) "deliverable" deliverable_id
    created_by "agent" None
    (Some {[ "task_id" := VStr task_id; "title" := VStr title ]}) None;;
  mret data.

Definition add_insight (agent content : string) (task_id : option string)
    (insight_type : string) : Db Insight :=
  insight_id ← uuid4;
  now ← datetime_now;
  let data :=
    {| i_id := insight_id; i_task_id := task_id; i_agent := agent;
       i_content := content; i_insight_type := insight_type;
       i_promoted_to_task_id := VNull; i_promoted_at := None;
       i_created_at := now |} in
  modify (set_insights (λ t, t ++ [data]));;
  _log_audit (EventType_.value_ INSIGHT_ADDED) "insight" insight_id
    agent "agent" None
    (Some {[ "task_id" := opt_str task_id; "type" := VStr insight_type ]}) None;;
  mret data.

(** The row of an insight after
    [update({"promoted_to_task_id": ..., "promoted_at": ...})]. *)
Definition mark_promoted (task_id : value) (now : Z) (i : Insight) : Insight :=
  {| i_id := i_id i; i_task_id := i_task_id i; i_agent := i_agent i;
     i_content := i_content i; i_insight_type := i_insight_type i;
     i_promoted_to_task_id := task_id; i_promoted_at := Some now;
     i_created_at := i_created_at i |}.

Definition promote_insight_to_task (insight_id promoted_by : string)
    : Db (gmap string value) :=
  insight ← gets (λ w, List.filter (λ i, String.eqb (i_id i) insight_id)
                         (workforce_insights w));
  match insight with
  | [] => raise (ValueError ("Insight " +:+ insight_id +:+ " not found"))
  | insight_data :: _ =>
      let kw := create_task_kw.defaults
                  ("[From Insight] " +:+ str_prefix 100 (i_content insight_data)) in
      task ← create_task
        {| create_task_kw.title := create_task_kw.title kw;
           create_task_kw.description := Some (i_content insight_data);
           create_task_kw.owner_agent := create_task_kw.owner_agent kw;
           create_task_kw.assigned_by := promoted_by;
           create_task_kw.priority := create_task_kw.priority kw;
           create_task_kw.tags := create_task_kw.tags kw;
           create_task_kw.source := "insight_promotion";
           create_task_kw.requires_approval := create_task_kw.requires_approval kw;
           create_task_kw.parent_task_id := create_task_kw.parent_task_id kw;
           create_task_kw.due_at := create_task_kw.due_at kw;
           create_task_kw.external_refs := create_task_kw.external_refs kw;
           create_task_kw.impact_score := create_task_kw.impact_score kw;
           create_task_kw.effort_estimate := create_task_kw.effort_estimate kw |};
      now ← datetime_now;
      new_id ← dict_item task "id";
      modify (set_insights (λ t, (λ i, if String.eqb (i_id i) insight_id
                                       then mark_promoted new_id now i else i) <$> t));;
      mret task
  end.

(** *** Autonomy *)

(** [.lt("starts_at", now).gt("expires_at", now).is_("revoked_at", "null")] *)
Definition session_running (now : Z) (s : AutonomySession) : bool :=
  (s_starts_at s <? now) && (now <? s_expires_at s)
  && match s_revoked_at s with None => true | Some _ => false end.

(** [f"granted_to.eq.{agent_id},granted_to.is.null"]: the identifier goes
    into the expression as it is. *)
Definition scope_expr (agent_id : string) : string :=
  "granted_to.eq." +:+ agent_id +:+ ",granted_to.is.null".

Definition get_current_autonomy_mode (agent_id : option string) : Db string :=
  now ← datetime_now;
  scope ← match agent_id with
          | Some a =>
              if negb (String.eqb a "")
              then match or_ env (scope_expr a) with
                   | Some selects => mret selects
                   | None => raise APIError
                   end
              else mret (λ _, true)
          | None => mret (λ _, true)
          end;
  result ← gets (λ w, limit 1 (order_by s_created_at true
                                 (List.filter scope
                                    (List.filter (session_running now)
                                       (workforce_autonomy_sessions w)))));
  match result with
  | s :: _ => mret (s_mode s)
  | [] => mret "advisory"
  end.

(** [timedelta(minutes=n)], in microseconds *)
Definition timedelta_minutes (n : Z) : Z := n * 60000000.

Definition grant_autonomy (mode granted_by : string) (duration_minutes : Z)
    (granted_to reason : option string) : Db AutonomySession :=
  now ← datetime_now;
  let expires := now + timedelta_minutes duration_minutes in
  id ← uuid4;
  let data :=
    {| s_id := id; s_mode := mode; s_granted_by := granted_by;
       s_granted_to := granted_to; s_reason := reason;
       s_starts_at := now; s_expires_at := expires;
       s_revoked_at := None; s_revoked_by := None; s_created_at := now |} in
  modify (set_autonomy_sessions (λ t, t ++ [data]));;
  _log_audit (EventType_.value_ AUTONOMY_MODE_CHANGED) "autonomy" id
    granted_by "human" None
    (Some {[ "mode" := VStr mode; "duration_minutes" := VInt duration_minutes ]})
    None;;
  mret data.

(** *** Approval *)

Definition approve_task (task_id approved_by : string) : Db (option (gmap string value)) :=
  now ← datetime_now;
  result ← update_task task_id approved_by
    {[ "approved_by" := VStr approved_by; "approved_at" := VTime now ]};
  _log_audit (EventType_.value_ HUMAN_APPROVED) "task" task_id approved_by
    "human" None (Some {[ "approved_at" := VTime now ]}) None;;
  mret result.

Definition reject_task (task_id rejected_by : string) (reason : option string)
    : Db (option (gmap string value)) :=
  result ← update_task task_id rejected_by
    {[ "status" := VStr "BACKLOG"; "approved_by" := VNull; "approved_at" := VNull ]};
  _log_audit (EventType_.value_ HUMAN_REJECTED) "task" task_id rejected_by
    "human" None None (Some {[ "reason" := opt_str reason ]});;
  mret result.

(** *** The route [POST /insights/{insight_id}/promote] of [api/main.py] *)

Definition promote_insight (insight_id actor : string) : Db (gmap string value) :=
  if negb (String.eqb actor "jarvis")
  then raise (HTTPException 403 "Only Jarvis can promote insights to tasks")
  else promote_insight_to_task insight_id actor.

End WorkforceDB.

(** ** Running a method, and what the statements below talk about *)

Definition eval {A : Type} (m : Db A) (w : World) : outcome A := fst (m w).

Definition exec {A : Type} (m : Db A) (w : World) : World := snd (m w).

(** A task row after [update_task] wrote it: the patch with the client's
    [updated_at] laid over the row, then the trigger's stamp. *)
Definition patched (updates : gmap string value) (now stamp : Z)
    (r : gmap string value) : gmap string value :=
  <["updated_at" := VTime stamp]> (<["updated_at" := VTime now]> updates ∪ r).

(** The condition under which [update_task] checks deliverables and
    approval, and the one under which it emits [STATUS_CHANGED]. *)
Definition done_gated (updates T : gmap string value) : bool :=
  py_eq (dict_get updates "status") (VStr "DONE")
  && negb (py_eq (dict_get T "status") (VStr "DONE")).

Definition status_changes (updates T : gmap string value) : bool :=
  py_truthy (dict_get updates "status")
  && negb (py_eq (dict_get updates "status") (dict_get T "status")).

Definition needs_approval (T : gmap string value) : bool :=
  py_truthy (dict_get T "requires_approval")
  && negb (py_truthy (dict_get T "approved_by")).

Definition status_event (task_id : string) (old_status new_status : value)
    (id : string) (created_at : Z) : Event :=
  {| e_id := id; e_event_type := "STATUS_CHANGED";
     e_payload := {[ "task_id" := VStr task_id; "old_status" := old_status;
                     "new_status" := new_status ]};
     e_processed := false; e_processed_at := None; e_processed_by := None;
     e_created_at := created_at |}.

(** The patches [approve_task] and [reject_task] hand to [update_task]. *)
Definition approval_patch (approved_by : string) (now : Z) : gmap string value :=
  {[ "approved_by" := VStr approved_by; "approved_at" := VTime now ]}.

Definition rejection_patch : gmap string value :=
  {[ "status" := VStr "BACKLOG"; "approved_by" := VNull; "approved_at" := VNull ]}.

Definition no_deliverable (task_id : string) (w : World) : Prop :=
  ∀ d, d ∈ workforce_deliverables w → d_task_id d ≠ task_id.

Definition has_deliverable (task_id : string) (w : World) : Prop :=
  ∃ d, d ∈ workforce_deliverables w ∧ d_task_id d = task_id.

(** The first insight carrying an identifier, which is [insight.data[0]]. *)
Definition first_insight (insight_id : string) (w : World) : option Insight :=
  head (List.filter (λ i, String.eqb (i_id i) insight_id) (workforce_insights w)).

(** An identifier without characters of the filter syntax: letters,
    digits, [_] and [-]. *)
Definition plain_char (c : Ascii.ascii) : bool :=
  let n := Ascii.nat_of_ascii c in
  (((48 <=? n) && (n <=? 57)) || ((65 <=? n) && (n <=? 90))
   || ((97 <=? n) && (n <=? 122)) || (n =? 95) || (n =? 45))%nat.

Fixpoint plain_id (s : string) : bool :=
  match s with
  | EmptyString => true
  | String c s' => plain_char c && plain_id s'
  end.

(** [granted_to] is the agent or null. *)
Definition granted_to_or_null (agent_id : string) (s : AutonomySession) : bool :=
  match s_granted_to s with
  | Some g => String.eqb g agent_id
  | None => true
  end.

(** The store reads the expression built for a plain identifier as it is
    meant: [granted_to] equal to the identifier, or null. *)
Definition store_reads_scope (env : Env) : Prop :=
  ∀ a, plain_id a = true →
       ∃ selects, or_ env (scope_expr a) = Some selects
                  ∧ ∀ s, selects s = granted_to_or_null a s.

(** What the query selects at [now] under that reading; an empty
    identifier is no identifier. *)
Definition session_counts (now : Z) (agent_id : option string) (s : AutonomySession)
    : bool :=
  session_running now s
  && match agent_id with
     | Some a => if negb (String.eqb a "") then granted_to_or_null a s else true
     | None => true
     end.

(** A session the autonomy query takes into account at instant [now],
    stated on the columns. *)
Definition considered (now : Z) (agent_id : option string) (s : AutonomySession) : Prop :=
  s_starts_at s < now < s_expires_at s ∧ s_revoked_at s = None ∧
  (∀ a, agent_id = Some a → a ≠ "" →
        s_granted_to s = None ∨ s_granted_to s = Some a).

(** *** The autonomy resolver in the words of the specification

    Sessions with [now] in [[starts_at, expires_at)], not revoked, and
    [granted_to] null or equal to the agent when one is given; the latest
    [created_at] wins; ["advisory"] when none matches. *)
Definition spec_considered (now : Z) (agent_id : option string) (s : AutonomySession) : bool :=
  (s_starts_at s <=? now) && (now <? s_expires_at s)
  && match s_revoked_at s with None => true | Some _ => false end
  && match agent_id, s_granted_to s with
     | Some a, Some g => String.eqb g a
     | _, _ => true
     end.

Definition spec_CurrentMode (now : Z) (agent_id : option string)
    (sessions : list AutonomySession) : string :=
  match order_by s_created_at true (List.filter (spec_considered now agent_id) sessions) with
  | s :: _ => s_mode s
  | [] => "advisory"
  end.

(** ** Sample data *)

Module Sample.

(** The sample store reads an [or_] expression as a disjunction of
    conditions separated by commas, each of them [granted_to.is.null],
    [granted_to.eq.<text>] or [granted_to.neq.<text>] with a plain text, and
    refuses every other expression. *)
Definition comma : Ascii.ascii := Ascii.ascii_of_nat 44.

Fixpoint split_commas (s : string) : list string :=
  match s with
  | EmptyString => [EmptyString]
  | String c s' =>
      if Ascii.eqb c comma then EmptyString :: split_commas s'
      else match split_commas s' with
           | t :: ts => String c t :: ts
           | [] => [String c EmptyString]
           end
  end.

Fixpoint strip_prefix (p s : string) : option string :=
  match p, s with
  | EmptyString, _ => Some s
  | String a p', String b s' => if Ascii.eqb a b then strip_prefix p' s' else None
  | String _ _, EmptyString => None
  end.

(** Comparisons with NULL are not true in SQL. *)
Definition granted_to_is (test : string → bool) (s : AutonomySession) : bool :=
  match s_granted_to s with
  | Some g => test g
  | None => false
  end.

Definition condition (c : string) : option (AutonomySession → bool) :=
  if String.eqb c "granted_to.is.null"
  then Some (λ s, match s_granted_to s with None => true | Some _ => false end)
  else match strip_prefix "granted_to.eq." c with
       | Some v =>
           if plain_id v then Some (granted_to_is (λ g, String.eqb g v)) else None
       | None =>
           match strip_prefix "granted_to.neq." c with
           | Some v =>
               if plain_id v
               then Some (granted_to_is (λ g, negb (String.eqb g v)))
               else None
           | None => None
           end
       end.

Definition read_or (expr : string) : option (AutonomySession → bool) :=
  match mapM condition (split_commas expr) with
  | Some conditions => Some (λ s, existsb (λ selects, selects s) conditions)
  | None => None
  end.

(** A clock that advances ten units per reading, identifiers u0, u1, ... *)
Definition env : Env :=
  {| wall_clock := λ n, 1000 + 10 * Z.of_nat n;
     uuid_stream := λ n, "u" +:+ NilZero.string_of_uint (Nat.to_uint n);
     or_ := read_or |}.

(** A clock with prescribed readings. *)
Definition env_at (readings : list Z) : Env :=
  {| wall_clock := λ n, nth n readings 0;
     uuid_stream := uuid_stream env;
     or_ := read_or |}.

Definition empty : World :=
  {| workforce_tasks := []; workforce_deliverables := [];
     workforce_insights := []; workforce_audit_log := [];
     workforce_events := []; workforce_autonomy_sessions := [];
     clock_reads := 0; uuid_draws := 0 |}.

(** One task, [u0], in BACKLOG, as [create_task] leaves it. *)
Definition one_task : World :=
  exec (create_task env (create_task_kw.defaults "write report")) empty.

(** The same with one deliverable attached. *)
Definition delivered : World :=
  exec (add_deliverable env "u0" "report" "text of the report" "researcher"
          "text" false) one_task.

(** A task that requires approval, [u0], with one deliverable. *)
Definition gated : World :=
  exec (add_deliverable env "u0" "draft" "text of the draft" "researcher"
          "text" false)
    (exec (create_task env
             {| create_task_kw.title := "publish post";
                create_task_kw.description := None;
                create_task_kw.owner_agent := Some "distribution";
                create_task_kw.assigned_by := "jarvis";
                create_task_kw.priority := "P1";
                create_task_kw.tags := None;
                create_task_kw.source := "api";
                create_task_kw.requires_approval := true;
                create_task_kw.parent_task_id := None;
                create_task_kw.due_at := None;
                create_task_kw.external_refs := None;
                create_task_kw.impact_score := None;
                create_task_kw.effort_estimate := None |}) empty).

(** One floating insight, [u0]. *)
Definition noted : World :=
  exec (add_insight env "researcher"
          "Competitor launched a referral programme this week" None
          "observation") empty.

(** One floating insight, [u0], of 136 code points in 140 bytes: the
    first hundred code points take 104 bytes. *)
Definition briefed : World :=
  exec (add_insight env "researcher"
          "Café Brûlot doubled its referral bonus to €25 on Monday; sign-ups in Lahore and Karachi rose by a third within the week, mostly students"
          None "observation") empty.

Definition session (id mode : string) (granted_to : option string)
    (starts_at expires_at created_at : Z) : AutonomySession :=
  {| s_id := id; s_mode := mode; s_granted_by := "logan";
     s_granted_to := granted_to; s_reason := None;
     s_starts_at := starts_at; s_expires_at := expires_at;
     s_revoked_at := None; s_revoked_by := None; s_created_at := created_at |}.

Definition with_sessions (l : list AutonomySession) : World :=
  set_autonomy_sessions (λ _, l) empty.

(** A global session that starts at the very instant of the next reading
    of the clock, 1000. *)
Definition just_granted : World :=
  with_sessions [session "s1" "full_autonomy" None 1000 5000 1000].

(** A session scoped to one agent. *)
Definition scoped : World :=
  with_sessions [session "s1" "full_autonomy" (Some "researcher") 500 5000 500].

(** An older global session and a newer one scoped to an agent, both
    running at 1000; and the same two once expired. *)
Definition overlapping : World :=
  with_sessions [session "s1" "advisory" None 100 5000 100;
                 session "s2" "full_autonomy" (Some "researcher") 200 5000 200].

Definition expired : World :=
  with_sessions [session "s1" "advisory" None 100 900 100;
                 session "s2" "full_autonomy" (Some "researcher") 200 1000 200].

End Sample.

(** ** Reads, events and routes *)

(** The truth value of an [Optional[str]] argument. *)
Definition str_truthy (o : option string) : bool :=
  match o with
  | Some s => negb (String.eqb s "")
  | None => false
  end.

(** *** Ordering on nullable and text columns *)

Fixpoint insert_sorted {A : Type} (le : A → A → bool) (x : A) (l : list A) : list A :=
  match l with
  | [] => [x]
  | y :: l' => if le x y then x :: l else y :: insert_sorted le x l'
  end.

(** [ORDER BY] with the comparison [le]; rows that compare equal stay in
    store order. *)
Definition sort_by {A : Type} (le : A → A → bool) (l : list A) : list A :=
  foldr (insert_sorted le) [] l.

(** A TIMESTAMPTZ cell of a task row as the store orders it: NULL sorts
    above every instant (last in ascending order, first in descending). A
    cell that holds no instant counts as NULL. *)
Definition time_cell (r : gmap string value) (col : string) : option Z :=
  match r !! col with
  | Some (VTime t) => Some t
  | _ => None
  end.

Definition cell_le (a b : option Z) : bool :=
  match a, b with
  | _, None => true
  | None, Some _ => false
  | Some x, Some y => x <=? y
  end.

(** A TEXT cell; NULL sorts above every text, and texts compare by the
    collation [collate] of the store. *)
Definition text_cell (r : gmap string value) (col : string) : option string :=
  match r !! col with
  | Some (VStr s) => Some s
  | _ => None
  end.

Definition text_le (collate : string → string → bool) (a b : option string) : bool :=
  match a, b with
  | _, None => true
  | None, Some _ => false
  | Some x, Some y => collate x y
  end.

(** [.not_.in_(col, l)]: false on NULL, as in SQL. *)
Definition row_not_in (col : string) (l : list string) (r : gmap string value) : bool :=
  match r !! col with
  | Some (VStr s) => negb (str_in s l)
  | _ => false
  end.

(** [{**d, k: v}] on a dictionary kept as an association list. *)
Fixpoint dict_set (d : list (string * value)) (k : string) (v : value)
    : list (string * value) :=
  match d with
  | [] => [(k, v)]
  | (k', v') :: rest =>
      if String.eqb k k' then (k, v) :: rest else (k', v') :: dict_set rest k v
  end.

Definition dict_merge (d extra : list (string * value)) : list (string * value) :=
  foldl (λ acc kv, dict_set acc kv.1 kv.2) d extra.

(** *** Reads *)

Definition get_tasks (status owner_agent priority : option string) (limit_ : nat)
    : Db (list (gmap string value)) :=
  gets (λ w,
    let query := workforce_tasks w in
    let query := if str_truthy status
                 then List.filter (row_eq "status" (default "" status)) query
                 else query in
    let query := if str_truthy owner_agent
                 then List.filter (row_eq "owner_agent" (default "" owner_agent)) query
                 else query in
    let query := if str_truthy priority
                 then List.filter (row_eq "priority" (default "" priority)) query
                 else query in
    limit limit_
      (sort_by (λ a b, cell_le (time_cell b "created_at") (time_cell a "created_at"))
         query)).

(** [ORDER BY priority, updated_at DESC] *)
Definition agent_run_order (collate : string → string → bool)
    (a b : gmap string value) : bool :=
  let pa := text_cell a "priority" in
  let pb := text_cell b "priority" in
  if negb (text_le collate pb pa) then true
  else if negb (text_le collate pa pb) then false
  else cell_le (time_cell b "updated_at") (time_cell a "updated_at").

Definition get_tasks_for_agent_run (collate : string → string → bool)
    (agent_id : string) (limit_ : nat) : Db (list (gmap string value)) :=
  gets (λ w,
    limit limit_
      (sort_by (agent_run_order collate)
         (List.filter (row_not_in "status" ["DONE"; "CANCELLED"])
            (List.filter (row_eq "owner_agent" agent_id) (workforce_tasks w))))).

Definition insight_matches (task_id agent : option string) (i : Insight) : bool :=
  (if str_truthy task_id
   then match i_task_id i with
        | Some t => String.eqb t (default "" task_id)
        | None => false
        end
   else true)
  && (if str_truthy agent then String.eqb (i_agent i) (default "" agent) else true).

Definition get_insights (task_id agent : option string) (limit_ : nat)
    : Db (list Insight) :=
  gets (λ w, limit limit_
               (order_by i_created_at true
                  (List.filter (insight_matches task_id agent)
                     (workforce_insights w)))).

(** *** Events *)

Definition get_unprocessed_events (limit_ : nat) : Db (list Event) :=
  gets (λ w, limit limit_
               (order_by e_created_at false
                  (List.filter (λ e, negb (e_processed e)) (workforce_events w)))).

(** The row of an event after
    [update({"processed": True, "processed_at": ..., "processed_by": ...})]. *)
Definition acked (now : Z) (processed_by : string) (e : Event) : Event :=
  {| e_id := e_id e; e_event_type := e_event_type e; e_payload := e_payload e;
     e_processed := true; e_processed_at := Some now;
     e_processed_by := Some processed_by; e_created_at := e_created_at e |}.

Section Events.

Variable env : Env.

Definition mark_event_processed (event_id processed_by : string) : Db unit :=
  now ← datetime_now env;
  modify (set_events (λ t, (λ e, if String.eqb (e_id e) event_id
                                 then acked now processed_by e else e) <$> t)).

End Events.

(** *** Routes of [api/main.py] *)

Module api.

(** The body of [PATCH /tasks/{task_id}], after validation. *)
Module TaskUpdate.
Record t : Type := {
  title : option string;
  description : option string;
  owner_agent : option string;
  status : option string;
  priority : option string;
  tags : option (list string);
  requires_approval : option bool;
  due_at : option Z
}.

(** [update.dict()] *)
Definition dict (u : t) : list (string * option value) :=
  [ ("title", VStr <$> title u);
    ("description", VStr <$> description u);
    ("owner_agent", VStr <$> owner_agent u);
    ("status", VStr <$> status u);
    ("priority", VStr <$> priority u);
    ("tags", (λ l, VList (VStr <$> l)) <$> tags u);
    ("requires_approval", VBool <$> requires_approval u);
    ("due_at", VTime <$> due_at u) ].
End TaskUpdate.

(** The body of [POST /intake], after validation. *)
Module IntakeMessage.
Record t : Type := {
  message : string;
  source : string;
  user_id : option string;
  channel_id : option string;
  metadata : option (list (string * value))
}.
End IntakeMessage.

(** What a route ends with: an exception of the client, or the TypeError
    Python raises on [**None]. *)
Inductive failure : Type :=
  | Exn (e : exn)
  | TypeError.

Section Routes.

Variable env : Env.

(** [{k: v for k, v in update.dict().items() if v is not None}] *)
Definition updates_of (update : TaskUpdate.t) : gmap string value :=
  list_to_map (omap (λ kv, (λ v, (kv.1, v)) <$> kv.2) (TaskUpdate.dict update)).

Definition update_task (task_id : string) (update : TaskUpdate.t) (actor : string)
    : Db (option (gmap string value)) :=
  λ w, match update_task env task_id actor (updates_of update) w with
       | (Raises (ValueError msg), w') => (Raises (HTTPException 400 msg), w')
       | run => run
       end.

Definition get_task (task_id : string) : Db (gmap string value) :=
  task ← get_task task_id;
  match task with
  | Some task => mret task
  | None => raise (HTTPException 404 "Task not found")
  end.

Definition approve_task (task_id : string) (action : string) (reason : option string)
    (actor : string) : Db (option (gmap string value)) :=
  if String.eqb action "approve"
  then approve_task env task_id actor
  else reject_task env task_id actor reason.

Definition intake (message : IntakeMessage.t) (actor : string)
    : World → (failure + gmap string value) * World :=
  λ w, match IntakeMessage.metadata message with
       | None => (inl TypeError, w)
       | Some metadata =>
           let kw := create_task_kw.defaults
                       (str_prefix 200 (IntakeMessage.message message)) in
           let run :=
             (task ← create_task env
                {| create_task_kw.title := create_task_kw.title kw;
                   create_task_kw.description := Some (IntakeMessage.message message);
                   create_task_kw.owner_agent := create_task_kw.owner_agent kw;
                   create_task_kw.assigned_by := actor;
                   create_task_kw.priority := create_task_kw.priority kw;
                   create_task_kw.tags := create_task_kw.tags kw;
                   create_task_kw.source := IntakeMessage.source message;
                   create_task_kw.requires_approval :=
                     create_task_kw.requires_approval kw;
                   create_task_kw.parent_task_id := create_task_kw.parent_task_id kw;
                   create_task_kw.due_at := create_task_kw.due_at kw;
                   create_task_kw.external_refs :=
                     Some (dict_merge
                             [ ("user_id", opt_str (IntakeMessage.user_id message));
                               ("channel_id", opt_str (IntakeMessage.channel_id message)) ]
                             metadata);
                   create_task_kw.impact_score := create_task_kw.impact_score kw;
                   create_task_kw.effort_estimate :=
                     create_task_kw.effort_estimate kw |};
              task_id ← dict_item task "id";
              mret ({[ "status" := VStr "received";
                       "task_id" := task_id;
                       "message" := VStr "Task created. Jarvis will route and assign." ]}
                    : gmap string value)) w in
           match run with
           | (Returns response, w') => (inr response, w')
           | (Raises e, w') => (inl (Exn e), w')
           end
       end.

End Routes.

(** [GET /events] *)
Definition get_events (processed : option bool) (limit_ : nat) : Db (list Event) :=
  match processed with
  | Some false => get_unprocessed_events limit_
  | _ => gets (λ w, limit limit_ (order_by e_created_at true (workforce_events w)))
  end.

(** [GET /audit] *)
Definition get_audit_log (entity_type entity_id event_type : option string)
    (limit_ : nat) : Db (list AuditEntry) :=
  gets (λ w,
    let query := workforce_audit_log w in
    let query := if str_truthy entity_type
                 then List.filter
                        (λ a, String.eqb (a_entity_type a) (default "" entity_type)) query
                 else query in
    let query := if str_truthy entity_id
                 then List.filter
                        (λ a, String.eqb (a_entity_id a) (default "" entity_id)) query
                 else query in
    let query := if str_truthy event_type
                 then List.filter
                        (λ a, String.eqb (a_event_type a) (default "" event_type)) query
                 else query in
    limit limit_ (order_by a_created_at true query)).

End api.

(** ** The agent registry

    [workforce_agents] and [workforce_agent_runs] sit beside the tables
    above; the methods on them run on the store extended with both. Agent
    rows are patched by keyword like task rows, so they are dictionaries
    too. *)

(** [workforce_agent_runs] *)
Record AgentRun : Type := {
  r_id : string;
  r_agent_id : string;
  r_status : string;
  r_tasks_processed : Z;
  r_insights_created : Z;
  r_duration_ms : option Z;
  r_error_message : option string;
  r_tokens_used : Z;
  r_started_at : Z;
  r_completed_at : option Z
}.

Record Registry : Type := {
  core : World;
  workforce_agents : list (gmap string value);
  workforce_agent_runs : list AgentRun
}.

Definition set_core (f : World → World) (g : Registry) : Registry :=
  {| core := f (core g);
     workforce_agents := workforce_agents g;
     workforce_agent_runs := workforce_agent_runs g |}.

Definition set_agents (f : list (gmap string value) → list (gmap string value))
    (g : Registry) : Registry :=
  {| core := core g;
     workforce_agents := f (workforce_agents g);
     workforce_agent_runs := workforce_agent_runs g |}.

Definition set_agent_runs (f : list AgentRun → list AgentRun) (g : Registry) : Registry :=
  {| core := core g;
     workforce_agents := workforce_agents g;
     workforce_agent_runs := f (workforce_agent_runs g) |}.

Definition Ag (A : Type) : Type := Registry → outcome A * Registry.

Definition ag_ret {A : Type} (a : A) : Ag A := λ g, (Returns a, g).

Definition ag_bind {A B : Type} (m : Ag A) (k : A → Ag B) : Ag B :=
  λ g, match m g with
       | (Returns a, g') => k a g'
       | (Raises e, g') => (Raises e, g')
       end.

#[global] Instance Ag_ret : MRet Ag := @ag_ret.
#[global] Instance Ag_bind : MBind Ag := λ A B k m, ag_bind m k.

(** A method of the tables above, run on the extended store. *)
Definition on_core {A : Type} (m : Db A) : Ag A :=
  λ g, let (o, w') := m (core g) in (o, set_core (λ _, w') g).

Definition ag_gets {A : Type} (f : Registry → A) : Ag A := λ g, (Returns (f g), g).

Definition ag_modify (f : Registry → Registry) : Ag unit := λ g, (Returns tt, f g).

(** [s.replace(" ", "_")] *)
Definition space : Ascii.ascii := Ascii.ascii_of_nat 32.

Definition underscore : Ascii.ascii := Ascii.ascii_of_nat 95.

Fixpoint replace_spaces (s : string) : string :=
  match s with
  | EmptyString => EmptyString
  | String c s' =>
      String (if Ascii.eqb c space then underscore else c) (replace_spaces s')
  end.

(** Column defaults of [workforce_agents] for the columns [create_agent]
    leaves out. *)
Definition agent_column_defaults : gmap string value :=
  list_to_map
    [ ("description", VNull); ("allowed_actions", VList []);
      ("schedule_interval_minutes", VInt 60); ("max_tasks_per_run", VInt 10);
      ("last_run_at", VNull); ("last_run_status", VNull) ].

Section Agents.

Variable env : Env.

(** [str.lower], which the embedding leaves uninterpreted. *)
Variable lower : string → string.

Definition get_agent (agent_id : string) : Ag (option (gmap string value)) :=
  ag_gets (λ g, head (List.filter (row_eq "id" agent_id) (workforce_agents g))).

Definition get_agents (enabled_only : bool) : Ag (list (gmap string value)) :=
  ag_gets (λ g,
    if enabled_only
    then List.filter (λ r, match r !! "enabled" with
                           | Some (VBool true) => true
                           | _ => false
                           end) (workforce_agents g)
    else workforce_agents g).

(** As for tasks, the trigger [agents_updated_at] stamps the rows written. *)
Definition update_agent (agent_id : string) (updates : gmap string value)
    : Ag (option (gmap string value)) :=
  now ← on_core (datetime_now env);
  let updates := <["updated_at" := VTime now]> updates in
  stamp ← on_core (datetime_now env);
  let write (r : gmap string value) : gmap string value :=
    <["updated_at" := VTime stamp]> (updates ∪ r) in
  matched ← ag_gets (λ g, List.filter (row_eq "id" agent_id) (workforce_agents g));
  ag_modify (set_agents (λ t, (λ r, if row_eq "id" agent_id r then write r else r) <$> t));;
  mret (head (write <$> matched)).

Definition create_agent (name role : string) (capabilities : option (list string))
    (model_config : option (list (string * value))) (enabled : bool)
    : Ag (gmap string value) :=
  let agent_id := replace_spaces (lower name) in
  now ← on_core (datetime_now env);
  let configured := match model_config with
                    | Some (_ :: _) => true
                    | _ => false
                    end in
  let model_provider :=
    if configured
    then default (VStr "openai") (assoc "provider" (default [] model_config))
    else VStr "openai" in
  let model_id :=
    if configured
    then default (VStr "gpt-4o-mini") (assoc "model" (default [] model_config))
    else VStr "gpt-4o-mini" in
  let data : gmap string value :=
    list_to_map
      [ ("id", VStr agent_id);
        ("name", VStr name);
        ("role", VStr role);
        ("capabilities", VList (VStr <$> default [] capabilities));
        ("model_provider", model_provider);
        ("model_id", model_id);
        ("enabled", VBool enabled);
        ("created_at", VTime now);
        ("updated_at", VTime now) ] in
  let row := data ∪ agent_column_defaults in
  ag_modify (set_agents (λ t, t ++ [row]));;
  mret row.

Definition log_agent_run (agent_id status : string)
    (tasks_processed insights_created : Z) (duration_ms : option Z)
    (error_message : option string) (tokens_used : Z) : Ag AgentRun :=
  run_id ← on_core (uuid4 env);
  now ← on_core (datetime_now env);
  let data :=
    {| r_id := run_id; r_agent_id := agent_id; r_status := status;
       r_tasks_processed := tasks_processed;
       r_insights_created := insights_created;
       r_duration_ms := duration_ms; r_error_message := error_message;
       r_tokens_used := tokens_used; r_started_at := now;
       r_completed_at := if negb (String.eqb status "running")
                         then Some now else None |} in
  ag_modify (set_agent_runs (λ t, t ++ [data]));;
  update_agent agent_id
    {[ "last_run_at" := VTime now; "last_run_status" := VStr status ]};;
  mret data.

End Agents.

(** ** What the further statements talk about *)


Definition ag_eval {A : Type} (m : Ag A) (g : Registry) : outcome A := fst (m g).

Definition ag_exec {A : Type} (m : Ag A) (g : Registry) : Registry := snd (m g).

(** The filters of [get_tasks] taken together. *)
Definition task_matches (status owner_agent priority : option string)
    (r : gmap string value) : bool :=
  (if str_truthy status then row_eq "status" (default "" status) r else true)
  && (if str_truthy owner_agent
      then row_eq "owner_agent" (default "" owner_agent) r else true)
  && (if str_truthy priority
      then row_eq "priority" (default "" priority) r else true).

(** The filters of [GET /audit] taken together. *)
Definition audit_matches (entity_type entity_id event_type : option string)
    (a : AuditEntry) : bool :=
  (if str_truthy entity_type
   then String.eqb (a_entity_type a) (default "" entity_type) else true)
  && (if str_truthy entity_id
      then String.eqb (a_entity_id a) (default "" entity_id) else true)
  && (if str_truthy event_type
      then String.eqb (a_event_type a) (default "" event_type) else true).

(** Newest first, on a column of a task row. *)
Definition newer_first (col : string) (a b : gmap string value) : bool :=
  cell_le (time_cell b col) (time_cell a col).

(** Texts by code unit, the order of the "C" collation. *)
Fixpoint bytes_le (a b : string) : bool :=
  match a, b with
  | EmptyString, _ => true
  | String _ _, EmptyString => false
  | String x a', String y b' =>
      let nx := Ascii.nat_of_ascii x in
      let ny := Ascii.nat_of_ascii y in
      if (nx <? ny)%nat then true
      else if (ny <? nx)%nat then false
      else bytes_le a' b'
  end.

(** No task row carries the identifier. *)
Definition no_task (task_id : string) (w : World) : Prop :=
  ∀ r, r ∈ workforce_tasks w → row_eq "id" task_id r = false.

(** Further sample data. *)
Module Fixture.

(** ASCII letters to lower case, enough for the sample names. *)
Definition lower_ascii (s : string) : string :=
  (fix go (s : string) : string :=
     match s with
     | EmptyString => EmptyString
     | String c s' =>
         let n := Ascii.nat_of_ascii c in
         String (if (65 <=? n)%nat && (n <=? 90)%nat
                 then Ascii.ascii_of_nat (n + 32) else c) (go s')
     end) s.

Definition registry (w : World) : Registry :=
  {| core := w; workforce_agents := []; workforce_agent_runs := [] |}.

(** The registry with one agent, ["ops_tracker"]. *)
Definition staffed : Registry :=
  ag_exec (create_agent Sample.env lower_ascii "Ops Tracker" "Pakistan Ops Spine"
             (Some ["track"; "report"]) None true) (registry Sample.empty).

(** Arguments of [create_task] for a task owned by an agent. *)
Definition owned (title owner priority : string) : create_task_kw.t :=
  {| create_task_kw.title := title;
     create_task_kw.description := None;
     create_task_kw.owner_agent := Some owner;
     create_task_kw.assigned_by := "jarvis";
     create_task_kw.priority := priority;
     create_task_kw.tags := None;
     create_task_kw.source := "api";
     create_task_kw.requires_approval := false;
     create_task_kw.parent_task_id := None;
     create_task_kw.due_at := None;
     create_task_kw.external_refs := None;
     create_task_kw.impact_score := None;
     create_task_kw.effort_estimate := None |}.

(** Three tasks of the researcher, [u0] (P2), [u3] (P0) and [u6] (P1), the
    last one cancelled. *)
Definition backlog : World :=
  exec (update_task Sample.env "u6" "jarvis" {[ "status" := VStr "CANCELLED" ]})
    (exec (create_task Sample.env (owned "archive footage" "researcher" "P1"))
       (exec (create_task Sample.env (owned "fix outage" "researcher" "P0"))
          (exec (create_task Sample.env (owned "trend report" "researcher" "P2"))
             Sample.empty))).

(** A body of [PATCH /tasks/{task_id}] giving at most a status and a
    priority. *)
Definition body (status priority : option string) : api.TaskUpdate.t :=
  {| api.TaskUpdate.title := None;
     api.TaskUpdate.description := None;
     api.TaskUpdate.owner_agent := None;
     api.TaskUpdate.status := status;
     api.TaskUpdate.priority := priority;
     api.TaskUpdate.tags := None;
     api.TaskUpdate.requires_approval := None;
     api.TaskUpdate.due_at := None |}.

(** A message from Discord whose metadata names a user of its own. *)
Definition ping : api.IntakeMessage.t :=
  {| api.IntakeMessage.message := "post the weekly numbers";
     api.IntakeMessage.source := "discord";
     api.IntakeMessage.user_id := Some "4411";
     api.IntakeMessage.channel_id := Some "ops";
     api.IntakeMessage.metadata :=
       Some [("guild", VStr "archive"); ("user_id", VStr "bot")] |}.

End Fixture.

(** ** Reasoning about runs *)

Ltac db_unfold :=
  cbv [mbind Db_bind bind mret Db_ret ret gets modify raise datetime_now uuid4
       tasks_update _log_audit _create_event get_task get_deliverables
       dict_item eval exec].

Ltac world_simpl :=
  cbn [fst snd workforce_tasks workforce_deliverables workforce_insights
       workforce_audit_log workforce_events workforce_autonomy_sessions
       clock_reads uuid_draws set_tasks set_deliverables set_insights
       set_audit_log set_events set_autonomy_sessions tick_clock tick_uuid].

Ltac db_run := db_unfold; world_simpl.

Lemma head_fmap_list {A B : Type} (f : A → B) (l : list A) :
  head (f <$> l) = f <$> head l.
Proof. by destruct l. Qed.

Lemma run_returns {A : Type} (m : Db A) (w : World) (a : A) :
  eval m w = Returns a → m w = (Returns a, exec m w).
Proof. unfold eval, exec. destruct (m w) as [o w0]. simpl. by intros ->. Qed.

(** *** Ordering *)

Lemma insert_by_cons {A : Type} (key : A → Z) (desc : bool) (x : A) (l : list A) :
  insert_by key desc x l ≠ [].
Proof. destruct l as [|y l]; simpl; [done|]. by destruct (if desc then _ else _). Qed.

Lemma order_by_nil {A : Type} (key : A → Z) (desc : bool) (l : list A) :
  order_by key desc l = [] ↔ l = [].
Proof.
  split; [|by intros ->].
  destruct l as [|x l]; [done|]. unfold order_by. simpl. intros H.
  by apply insert_by_cons in H.
Qed.

Lemma head_insert_by_desc {A : Type} (key : A → Z) (x : A) (l : list A) :
  head (insert_by key true x l)
  = Some (match head l with
          | Some y => if key y <=? key x then x else y
          | None => x
          end).
Proof. destruct l as [|y l]; simpl; [done|]. by destruct (key y <=? key x). Qed.

(** The head of a descending order is an element with the greatest key. *)
Lemma head_order_by_desc {A : Type} (key : A → Z) (l : list A) (s : A) :
  head (order_by key true l) = Some s →
  s ∈ l ∧ ∀ s', s' ∈ l → key s' ≤ key s.
Proof.
  revert s. induction l as [|x l IH]; intros s; [done|].
  unfold order_by in *. simpl. rewrite head_insert_by_desc.
  destruct (head (foldr (insert_by key true) [] l)) as [y|] eqn:Hy.
  - destruct (IH y eq_refl) as [Hin Hmax].
    destruct (key y <=? key x) eqn:Hle; intros [= <-].
    + apply Z.leb_le in Hle. split; [left|].
      intros s' [->|Hs']%elem_of_cons; [lia|]. specialize (Hmax _ Hs'). lia.
    + apply Z.leb_gt in Hle. split; [by right|].
      intros s' [->|Hs']%elem_of_cons; [lia|]. by apply Hmax.
  - intros [= <-]. split; [left|].
    assert (l = []) as ->.
    { apply (order_by_nil key true). unfold order_by.
      by destruct (foldr (insert_by key true) [] l). }
    intros s' [->|Hs']%elem_of_cons; [lia|]. by apply elem_of_nil in Hs'.
Qed.

Lemma filter_nil_iff {A : Type} (p : A → bool) (l : list A) :
  List.filter p l = [] ↔ ∀ x, x ∈ l → p x = false.
Proof.
  induction l as [|y l IH]; simpl.
  - split; [|done]. intros _ x Hx. by apply elem_of_nil in Hx.
  - destruct (p y) eqn:Hy.
    + split; [done|]. intros H. specialize (H y (list_elem_of_here _ _)). congruence.
    + rewrite IH. split.
      * intros H x [->|Hx]%elem_of_cons; auto.
      * intros H x Hx. apply H. by right.
Qed.

Lemma elem_of_filter_bool {A : Type} (p : A → bool) (l : list A) (x : A) :
  x ∈ List.filter p l ↔ x ∈ l ∧ p x = true.
Proof. rewrite !list_elem_of_In. apply filter_In. Qed.

Lemma filter_ext_bool {A : Type} (p q : A → bool) (l : list A) :
  (∀ x, p x = q x) → List.filter p l = List.filter q l.
Proof.
  intros H. induction l as [|x l IH]; [done|]. simpl. by rewrite H, IH.
Qed.

Lemma filter_filter_bool {A : Type} (p q : A → bool) (l : list A) :
  List.filter p (List.filter q l) = List.filter (λ x, q x && p x) l.
Proof.
  induction l as [|x l IH]; [done|]. simpl.
  destruct (q x); simpl; [|done]. destruct (p x); by rewrite IH.
Qed.

Lemma filter_true {A : Type} (l : list A) : List.filter (λ _, true) l = l.
Proof. induction l as [|x l IH]; [done|]. simpl. by rewrite IH. Qed.

(** *** Slices *)

Lemma str_prefix_code_points (n : nat) (s : string) :
  code_points (str_prefix n s) = (n `min` code_points s)%nat.
Proof.
  revert n. induction s as [|c s IH]; intros n; simpl.
  - by rewrite Nat.min_0_r.
  - destruct (continuation c) eqn:Hc; simpl.
    + by rewrite Hc, IH.
    + destruct n as [|n]; [done|]. simpl. by rewrite Hc, IH.
Qed.

Lemma str_prefix_split (n : nat) (s : string) :
  ∃ rest, s = str_prefix n s +:+ rest
          ∧ ∀ c rest', rest = String c rest' → continuation c = false.
Proof.
  revert n. induction s as [|c s IH]; intros n; simpl.
  - exists EmptyString. split; [done|]. by intros c rest' [=].
  - destruct (continuation c) eqn:Hc.
    + destruct (IH n) as (rest & Hs & Hrest). exists rest. split; [|done].
      change (String c s = String c (str_prefix n s +:+ rest)). by rewrite <- Hs.
    + destruct n as [|n].
      * exists (String c s). split; [done|]. by intros c0 rest' [= <- _].
      * destruct (IH n) as (rest & Hs & Hrest). exists rest. split; [|done].
        change (String c s = String c (str_prefix n s +:+ rest)). by rewrite <- Hs.
Qed.

(** On ASCII text code points are bytes. *)
Lemma str_prefix_ascii (n : nat) (s : string) :
  Forall (λ c, (Ascii.nat_of_ascii c < 128)%nat) (String.list_ascii_of_string s) →
  String.length (str_prefix n s) = (n `min` String.length s)%nat.
Proof.
  revert n. induction s as [|c s IH]; intros n Hs; simpl.
  - by rewrite Nat.min_0_r.
  - simpl in Hs. apply Forall_cons in Hs as [Hc Hs].
    assert (continuation c = false) as ->.
    { unfold continuation. apply andb_false_iff. left. apply Nat.leb_gt. exact Hc. }
    destruct n as [|n]; [done|]. simpl. by rewrite IH.
Qed.

(** *** Deliverables *)

Lemma get_deliverables_nil (task_id : string) (w : World) :
  eval (get_deliverables task_id) w = Returns [] ↔ no_deliverable task_id w.
Proof.
  unfold no_deliverable. db_run. split.
  - intros [= H%order_by_nil] d Hd Heq.
    rewrite filter_nil_iff in H. specialize (H d Hd).
    apply String.eqb_neq in H. done.
  - intros H. f_equal. apply order_by_nil, filter_nil_iff.
    intros d Hd. apply String.eqb_neq. by apply H.
Qed.

Lemma get_deliverables_cons (task_id : string) (w : World) :
  has_deliverable task_id w →
  ∃ d l, eval (get_deliverables task_id) w = Returns (d :: l).
Proof.
  intros (d & Hd & Heq).
  destruct (eval (get_deliverables task_id) w) as [[|d' l]|e] eqn:H.
  - apply get_deliverables_nil in H. by destruct (H d Hd).
  - eauto.
  - by db_run.
Qed.

Lemma deliverable_dichotomy (task_id : string) (w : World) :
  no_deliverable task_id w ∨ has_deliverable task_id w.
Proof.
  destruct (List.filter (λ d, String.eqb (d_task_id d) task_id)
              (workforce_deliverables w)) as [|d l] eqn:Hf.
  - left. intros d Hd. rewrite filter_nil_iff in Hf.
    apply String.eqb_neq. by apply Hf.
  - right. exists d.
    assert (d ∈ d :: l) as Hin by left. rewrite <- Hf in Hin.
    apply elem_of_filter_bool in Hin as [Hin Heq].
    split; [done|]. by apply String.eqb_eq.
Qed.

(** Both are decided by a scan of the table. *)
Lemma has_deliverable_scan (task_id : string) (w : World) :
  existsb (λ d, String.eqb (d_task_id d) task_id) (workforce_deliverables w) = true →
  has_deliverable task_id w.
Proof.
  intros (d & Hin & Heq)%existsb_exists. exists d.
  split; [by apply list_elem_of_In | by apply String.eqb_eq].
Qed.

Lemma no_deliverable_scan (task_id : string) (w : World) :
  existsb (λ d, String.eqb (d_task_id d) task_id) (workforce_deliverables w) = false →
  no_deliverable task_id w.
Proof.
  intros H d Hin Heq.
  assert (existsb (λ d, String.eqb (d_task_id d) task_id)
            (workforce_deliverables w) = true) as Ht; [|congruence].
  apply existsb_exists. exists d.
  split; [by apply list_elem_of_In | by apply String.eqb_eq].
Qed.

(** *** [update_task] *)

Section UpdateTask.

Variable env : Env.

Lemma get_task_eval (task_id : string) (w : World) (o : option (gmap string value)) :
  eval (get_task task_id) w = Returns o ↔
  head (List.filter (row_eq "id" task_id) (workforce_tasks w)) = o.
Proof. db_run. split; [by intros [= ->] | by intros ->]. Qed.

Lemma update_task_not_found (w : World) (task_id actor : string)
    (updates : gmap string value) :
  eval (get_task task_id) w = Returns None →
  update_task env task_id actor updates w
  = (Raises (ValueError ("Task " +:+ task_id +:+ " not found")), w).
Proof.
  intros HT%get_task_eval. unfold update_task. db_run. by rewrite HT.
Qed.

Lemma update_task_no_deliverable (w : World) (task_id actor : string)
    (updates T : gmap string value) :
  eval (get_task task_id) w = Returns (Some T) →
  done_gated updates T = true →
  no_deliverable task_id w →
  update_task env task_id actor updates w
  = (Raises (ValueError "Cannot mark task DONE without at least one deliverable"), w).
Proof.
  intros HT%get_task_eval Hg Hd%get_deliverables_nil.
  unfold update_task, done_gated in *. revert Hd. db_run. intros [= Hd].
  by rewrite HT, Hg, Hd.
Qed.

Lemma update_task_unapproved (w : World) (task_id actor : string)
    (updates T : gmap string value) :
  eval (get_task task_id) w = Returns (Some T) →
  done_gated updates T = true →
  has_deliverable task_id w →
  needs_approval T = true →
  update_task env task_id actor updates w
  = (Raises (ValueError "Task requires approval before marking DONE"), w).
Proof.
  intros HT%get_task_eval Hg (d & l & Hd)%get_deliverables_cons Ha.
  unfold update_task, done_gated, needs_approval in *. revert Hd. db_run.
  intros [= Hd]. by rewrite HT, Hg, Hd, Ha.
Qed.

(** What a call that passes the checks returns and writes. *)
Lemma update_task_returns (w : World) (task_id actor : string)
    (updates T : gmap string value) :
  eval (get_task task_id) w = Returns (Some T) →
  (done_gated updates T = true →
   has_deliverable task_id w ∧ needs_approval T = false) →
  let now := wall_clock env (clock_reads w) in
  let stamp := wall_clock env (S (clock_reads w)) in
  let updates' := <["updated_at" := VTime now]> updates in
  ∃ w', update_task env task_id actor updates w
        = (Returns (Some (patched updates now stamp T)), w') ∧
    workforce_tasks w'
      = (λ r, if row_eq "id" task_id r then patched updates now stamp r else r)
          <$> workforce_tasks w ∧
    workforce_audit_log w'
      = workforce_audit_log w ++ [
          {| a_id := uuid_stream env (uuid_draws w);
             a_event_type := "TASK_UPDATED"; a_entity_type := "task";
             a_entity_id := task_id; a_actor := actor;
             a_actor_type :=
               if str_in actor ["jarvis"; "chief_of_staff"; "ops_tracker";
                                "distribution"; "researcher"; "system"]
               then "agent" else "human";
             a_old_value := Some (map_imap (λ k _, Some (dict_get T k)) updates');
             a_new_value := Some updates';
             a_metadata := ∅;
             a_created_at := wall_clock env (S (S (clock_reads w))) |}] ∧
    workforce_events w'
      = workforce_events w ++
          (if status_changes updates T
           then [status_event task_id (dict_get T "status")
                   (dict_get updates "status")
                   (uuid_stream env (S (uuid_draws w)))
                   (wall_clock env (S (S (S (clock_reads w)))))]
           else []) ∧
    workforce_deliverables w' = workforce_deliverables w ∧
    workforce_insights w' = workforce_insights w ∧
    workforce_autonomy_sessions w' = workforce_autonomy_sessions w ∧
    uuid_draws w' = ((if status_changes updates T then 2 else 1) + uuid_draws w)%nat ∧
    clock_reads w' = ((if status_changes updates T then 4 else 3) + clock_reads w)%nat.
Proof.
  intros HT%get_task_eval Hgate now stamp updates'.
  assert (done_gated updates T = true →
          ∃ d l, order_by d_created_at false
                   (List.filter (λ d, String.eqb (d_task_id d) task_id)
                      (workforce_deliverables w)) = d :: l) as Hdel.
  { intros (Hd & _)%Hgate. apply get_deliverables_cons in Hd as (d & l & Hd).
    revert Hd. db_run. intros [= Hd]. eauto. }
  unfold update_task, done_gated, status_changes, needs_approval in *.
  cbv [mbind Db_bind bind mret Db_ret ret gets modify raise get_task
       get_deliverables].
  rewrite HT.
  destruct (py_eq (dict_get updates "status") (VStr "DONE")
            && negb (py_eq (dict_get T "status") (VStr "DONE"))) eqn:Hg.
  - destruct Hgate as [_ Ha]; [done|]. rewrite Ha.
    destruct Hdel as (d & l & ->); [done|].
    destruct (py_truthy (dict_get updates "status") && _) eqn:Hs.
    + eexists. split_and!;
        [db_run; rewrite head_fmap_list, HT; reflexivity | reflexivity ..].
    + eexists. split_and!;
        [db_run; rewrite head_fmap_list, HT; reflexivity
        | world_simpl; rewrite ?app_nil_r; reflexivity ..].
  - clear Hgate Hdel.
    destruct (py_truthy (dict_get updates "status") && _) eqn:Hs.
    + eexists. split_and!;
        [db_run; rewrite head_fmap_list, HT; reflexivity | reflexivity ..].
    + eexists. split_and!;
        [db_run; rewrite head_fmap_list, HT; reflexivity
        | world_simpl; rewrite ?app_nil_r; reflexivity ..].
Qed.

(** Every call falls under one of the four lemmas above. *)
Lemma update_task_cases (w : World) (task_id : string) (updates : gmap string value) :
  eval (get_task task_id) w = Returns None ∨
  ∃ T, eval (get_task task_id) w = Returns (Some T) ∧
       ((done_gated updates T = true ∧ no_deliverable task_id w) ∨
        (done_gated updates T = true ∧ has_deliverable task_id w
         ∧ needs_approval T = true) ∨
        (done_gated updates T = true →
         has_deliverable task_id w ∧ needs_approval T = false)).
Proof.
  destruct (head (List.filter (row_eq "id" task_id) (workforce_tasks w)))
    as [T|] eqn:HT; [right|left; by apply get_task_eval].
  exists T. split; [by apply get_task_eval|].
  destruct (done_gated updates T) eqn:Hg; [|right; right; done].
  destruct (deliverable_dichotomy task_id w) as [Hd|Hd]; [by left|right].
  destruct (needs_approval T) eqn:Ha; [left|right]; done.
Qed.

End UpdateTask.

(** *** The row written by an update *)

Lemma patched_lookup_patch (updates r : gmap string value) (now stamp : Z)
    (k : string) (v : value) :
  k ≠ "updated_at" → updates !! k = Some v →
  patched updates now stamp r !! k = Some v.
Proof.
  intros Hk Hv. unfold patched.
  rewrite lookup_insert_ne by done.
  apply lookup_union_Some_l. by rewrite lookup_insert_ne.
Qed.

Lemma patched_lookup_frame (updates r : gmap string value) (now stamp : Z)
    (k : string) :
  k ≠ "updated_at" → updates !! k = None →
  patched updates now stamp r !! k = r !! k.
Proof.
  intros Hk Hv. unfold patched.
  rewrite lookup_insert_ne by done.
  apply lookup_union_r. by rewrite lookup_insert_ne.
Qed.

Lemma row_eq_patched (updates r : gmap string value) (now stamp : Z) (task_id : string) :
  updates !! "id" = None →
  row_eq "id" task_id (patched updates now stamp r) = row_eq "id" task_id r.
Proof.
  intros H. unfold row_eq. by rewrite patched_lookup_frame.
Qed.

Lemma filter_fmap_stable {A : Type} (p : A → bool) (f : A → A) (l : list A) :
  (∀ x, p (f x) = p x) →
  List.filter p (f <$> l) = f <$> List.filter p l.
Proof.
  intros Hp. induction l as [|x l IH]; [done|].
  rewrite fmap_cons. cbn [List.filter]. rewrite Hp.
  destruct (p x); rewrite ?fmap_cons; by rewrite IH.
Qed.

(** A patch that leaves [id] alone: the task is read back as written. *)
Lemma get_task_patched (w w' : World) (task_id : string)
    (updates T : gmap string value) (now stamp : Z) :
  updates !! "id" = None →
  eval (get_task task_id) w = Returns (Some T) →
  workforce_tasks w'
    = (λ r, if row_eq "id" task_id r then patched updates now stamp r else r)
        <$> workforce_tasks w →
  eval (get_task task_id) w' = Returns (Some (patched updates now stamp T)).
Proof.
  intros Hid HT%get_task_eval Hw. apply get_task_eval. rewrite Hw.
  rewrite filter_fmap_stable.
  - rewrite head_fmap_list, HT. simpl.
    assert (T ∈ List.filter (row_eq "id" task_id) (workforce_tasks w)) as Hin.
    { destruct (List.filter _ _); [done|]. injection HT as ->. left. }
    apply elem_of_filter_bool in Hin as [_ ->]. done.
  - intros r. destruct (row_eq "id" task_id r) eqn:Hr; [|done].
    by rewrite row_eq_patched.
Qed.

(** ** Gating of the transition to DONE *)

(** C1. For a task whose status is not DONE, [update_task] with the patch
    [{status: DONE}] raises the ValueError of the deliverable check and
    leaves the store as it was when the task has no deliverable; with at
    least one deliverable, and approval not required or already given, the
    same call returns the task, now DONE. *)
Theorem C1_done_requires_deliverable (env : Env) (w : World)
    (task_id actor : string) (T : gmap string value) :
  eval (get_task task_id) w = Returns (Some T) →
  py_eq (dict_get T "status") (VStr "DONE") = false →
  (no_deliverable task_id w →
   update_task env task_id actor {[ "status" := VStr "DONE" ]} w
   = (Raises (ValueError "Cannot mark task DONE without at least one deliverable"), w)
   ∧ eval (get_task task_id) w = Returns (Some T))
  ∧
  (has_deliverable task_id w →
   py_truthy (dict_get T "requires_approval") = false
   ∨ py_truthy (dict_get T "approved_by") = true →
   ∃ T' w',
     update_task env task_id actor {[ "status" := VStr "DONE" ]} w
     = (Returns (Some T'), w')
     ∧ eval (get_task task_id) w' = Returns (Some T')
     ∧ T' !! "status" = Some (VStr "DONE")).
Proof.
  intros HT Hst.
  assert (done_gated {[ "status" := VStr "DONE" ]} T = true) as Hg.
  { unfold done_gated. rewrite Hst. unfold dict_get.
    by rewrite lookup_singleton_eq. }
  split.
  - intros Hd. split; [|done]. by eapply update_task_no_deliverable.
  - intros Hd Happ.
    destruct (update_task_returns env w task_id actor {[ "status" := VStr "DONE" ]} T HT)
      as (w' & Hrun & Htasks & _).
    { intros _. split; [done|]. unfold needs_approval.
      destruct Happ as [-> | ->]; [done|]. apply andb_false_r. }
    eexists _, w'. split_and!; [exact Hrun | |].
    + by eapply get_task_patched.
    + by apply patched_lookup_patch.
Qed.

(** The statement at the sample task, without and with a deliverable. *)
Lemma C1_witness :
  update_task Sample.env "u0" "ops_tracker" {[ "status" := VStr "DONE" ]} Sample.one_task
  = (Raises (ValueError "Cannot mark task DONE without at least one deliverable"),
     Sample.one_task)
  ∧ ∃ T' w',
      update_task Sample.env "u0" "ops_tracker" {[ "status" := VStr "DONE" ]} Sample.delivered
      = (Returns (Some T'), w')
      ∧ eval (get_task "u0") w' = Returns (Some T')
      ∧ T' !! "status" = Some (VStr "DONE").
Proof.
  split.
  - refine (proj1 (proj1 (C1_done_requires_deliverable Sample.env Sample.one_task
                     "u0" "ops_tracker" _ eq_refl eq_refl) _)).
    by apply no_deliverable_scan.
  - refine (proj2 (C1_done_requires_deliverable Sample.env Sample.delivered
                     "u0" "ops_tracker" _ eq_refl eq_refl) _ _).
    + by apply has_deliverable_scan.
    + left. reflexivity.
Defined.

(** The scenario of the specification: DONE is refused, a deliverable is
    added, DONE is accepted, and the audit log reads TASK_CREATED,
    DELIVERABLE_ADDED, TASK_UPDATED. *)
Example done_scenario :
  eval (update_task Sample.env "u0" "researcher" {[ "status" := VStr "DONE" ]})
    Sample.one_task
  = Raises (ValueError "Cannot mark task DONE without at least one deliverable")
  ∧ ∃ T w',
      update_task Sample.env "u0" "researcher" {[ "status" := VStr "DONE" ]}
        Sample.delivered = (Returns (Some T), w')
      ∧ T !! "status" = Some (VStr "DONE")
      ∧ a_event_type <$> workforce_audit_log w'
        = ["TASK_CREATED"; "DELIVERABLE_ADDED"; "TASK_UPDATED"].
Proof.
  split; [reflexivity|]. eexists _, _.
  split_and!; [apply run_returns; reflexivity|reflexivity ..].
Qed.

(** C8. A call of [update_task] that sets status to DONE on a task that is
    not DONE, and that misses a deliverable or a required approval, raises
    before any write: the whole store, the task row included, is the one it
    started from, so no audit entry and no event were appended. *)
Theorem C8_failed_gate_writes_nothing (env : Env) (w : World)
    (task_id actor : string) (updates T : gmap string value) :
  eval (get_task task_id) w = Returns (Some T) →
  updates !! "status" = Some (VStr "DONE") →
  py_eq (dict_get T "status") (VStr "DONE") = false →
  no_deliverable task_id w
  ∨ (py_truthy (dict_get T "requires_approval") = true
     ∧ py_truthy (dict_get T "approved_by") = false) →
  ∃ msg w',
    update_task env task_id actor updates w = (Raises (ValueError msg), w')
    ∧ w' = w
    ∧ eval (get_task task_id) w' = Returns (Some T)
    ∧ workforce_audit_log w' = workforce_audit_log w
    ∧ workforce_events w' = workforce_events w.
Proof.
  intros HT Hup Hst Hfail.
  assert (done_gated updates T = true) as Hg.
  { unfold done_gated. rewrite Hst. unfold dict_get. by rewrite Hup. }
  destruct (deliverable_dichotomy task_id w) as [Hd|Hd].
  - eexists _, w. split_and!; [by eapply update_task_no_deliverable | done ..].
  - destruct Hfail as [Hno|[Hreq Happ]].
    + destruct Hd as (d & Hin & Heq). by destruct (Hno d Hin).
    + eexists _, w. split_and!; [|done ..].
      eapply update_task_unapproved; [done ..|].
      unfold needs_approval. by rewrite Hreq, Happ.
Qed.

(** The statement at the sample task, which has no deliverable. *)
Lemma C8_witness :
  ∃ msg w',
    update_task Sample.env "u0" "jarvis"
      {[ "status" := VStr "DONE"; "priority" := VStr "P0" ]} Sample.one_task
    = (Raises (ValueError msg), w')
    ∧ w' = Sample.one_task
    ∧ eval (get_task "u0") w' = eval (get_task "u0") Sample.one_task
    ∧ workforce_audit_log w' = workforce_audit_log Sample.one_task
    ∧ workforce_events w' = workforce_events Sample.one_task.
Proof.
  refine (C8_failed_gate_writes_nothing Sample.env Sample.one_task "u0" "jarvis"
            {[ "status" := VStr "DONE"; "priority" := VStr "P0" ]} _
            eq_refl eq_refl eq_refl _).
  left. by apply no_deliverable_scan.
Defined.

(** *** [approve_task] and [reject_task] *)

Lemma bind_returns {A B : Type} (m : Db A) (k : A → Db B) (w w' : World) (a : A) :
  m w = (Returns a, w') → (m ≫= k) w = k a w'.
Proof. intros H. cbv [mbind Db_bind bind]. by rewrite H. Qed.

Lemma bind_raises {A B : Type} (m : Db A) (k : A → Db B) (w w' : World) (e : exn) :
  m w = (Raises e, w') → (m ≫= k) w = (Raises e, w').
Proof. intros H. cbv [mbind Db_bind bind]. by rewrite H. Qed.

Lemma approval_patch_lookup (approved_by : string) (now : Z) (k : string) :
  k ≠ "approved_by" → k ≠ "approved_at" →
  approval_patch approved_by now !! k = None.
Proof.
  intros H1 H2. unfold approval_patch.
  rewrite lookup_insert_ne by done. by rewrite lookup_singleton_ne.
Qed.

Section Approval.

Variable env : Env.

Lemma approve_task_returns (w : World) (task_id approved_by : string)
    (T : gmap string value) :
  eval (get_task task_id) w = Returns (Some T) →
  let now := wall_clock env (clock_reads w) in
  let patch := approval_patch approved_by now in
  let T' := patched patch (wall_clock env (S (clock_reads w)))
              (wall_clock env (S (S (clock_reads w)))) T in
  ∃ a1 a2 w',
    approve_task env task_id approved_by w = (Returns (Some T'), w') ∧
    eval (get_task task_id) w' = Returns (Some T') ∧
    workforce_audit_log w' = workforce_audit_log w ++ [a1; a2] ∧
    a_event_type a1 = "TASK_UPDATED" ∧ a_entity_id a1 = task_id ∧
    a_event_type a2 = "HUMAN_APPROVED" ∧ a_entity_id a2 = task_id ∧
    a_actor a2 = approved_by ∧
    a_new_value a2 = Some {[ "approved_at" := VTime now ]} ∧
    workforce_events w' = workforce_events w ∧
    workforce_deliverables w' = workforce_deliverables w ∧
    workforce_tasks w'
      = (λ r, if row_eq "id" task_id r
              then patched patch (wall_clock env (S (clock_reads w)))
                     (wall_clock env (S (S (clock_reads w)))) r
              else r) <$> workforce_tasks w.
Proof.
  intros HT now patch T'.
  destruct (update_task_returns env (tick_clock w) task_id approved_by patch T)
    as (w1 & Hrun & Htasks & Haudit & Hevents & Hdel & _).
  { done. }
  { unfold done_gated, dict_get, patch.
    by rewrite approval_patch_lookup. }
  assert (status_changes patch T = false) as Hs.
  { unfold status_changes, dict_get, patch.
    by rewrite approval_patch_lookup. }
  rewrite Hs, app_nil_r in Hevents.
  eexists _, _, _. split_and!.
  - unfold approve_task.
    erewrite bind_returns by reflexivity.
    erewrite bind_returns by exact Hrun.
    db_run. reflexivity.
  - eapply (get_task_patched (tick_clock w)); [|done|].
    + by apply approval_patch_lookup.
    + exact Htasks.
  - world_simpl. rewrite Haudit, <- app_assoc. reflexivity.
  - reflexivity.
  - reflexivity.
  - reflexivity.
  - reflexivity.
  - reflexivity.
  - reflexivity.
  - world_simpl. by rewrite Hevents.
  - world_simpl. by rewrite Hdel.
  - world_simpl. by rewrite Htasks.
Qed.

Lemma reject_task_returns (w : World) (task_id rejected_by : string)
    (reason : option string) (T : gmap string value) :
  eval (get_task task_id) w = Returns (Some T) →
  let T' := patched rejection_patch (wall_clock env (clock_reads w))
              (wall_clock env (S (clock_reads w))) T in
  ∃ a1 a2 w',
    reject_task env task_id rejected_by reason w = (Returns (Some T'), w') ∧
    eval (get_task task_id) w' = Returns (Some T') ∧
    workforce_audit_log w' = workforce_audit_log w ++ [a1; a2] ∧
    a_event_type a1 = "TASK_UPDATED" ∧ a_entity_id a1 = task_id ∧
    a_event_type a2 = "HUMAN_REJECTED" ∧ a_entity_id a2 = task_id ∧
    a_actor a2 = rejected_by ∧
    a_metadata a2 = {[ "reason" := opt_str reason ]} ∧
    a_old_value a2 = None ∧ a_new_value a2 = None.
Proof.
  intros HT T'.
  destruct (update_task_returns env w task_id rejected_by rejection_patch T)
    as (w1 & Hrun & Htasks & Haudit & _).
  { done. }
  { by unfold done_gated. }
  eexists _, _, _. split_and!.
  - unfold reject_task.
    erewrite bind_returns by exact Hrun.
    db_run. reflexivity.
  - eapply (get_task_patched w); [done|done|exact Htasks].
  - world_simpl. rewrite Haudit, <- app_assoc. reflexivity.
  - reflexivity.
  - reflexivity.
  - reflexivity.
  - reflexivity.
  - reflexivity.
  - reflexivity.
  - reflexivity.
  - reflexivity.
Qed.

End Approval.

(** ** Approval gating *)

(** C2, as the code has it. A task that requires approval and has none
    cannot go to DONE even with a deliverable: the call raises and writes
    nothing. After [approve_task] by a non-empty actor, which records the
    actor in [approved_by] and the time in [approved_at], the same call
    returns the task, now DONE. *)
Theorem C2_approval_gate (env : Env) (w : World)
    (task_id actor approver : string) (T : gmap string value) :
  eval (get_task task_id) w = Returns (Some T) →
  py_eq (dict_get T "status") (VStr "DONE") = false →
  py_truthy (dict_get T "requires_approval") = true →
  py_truthy (dict_get T "approved_by") = false →
  has_deliverable task_id w →
  update_task env task_id actor {[ "status" := VStr "DONE" ]} w
  = (Raises (ValueError "Task requires approval before marking DONE"), w)
  ∧ (approver ≠ "" →
     ∃ T1 w1,
       approve_task env task_id approver w = (Returns (Some T1), w1)
       ∧ eval (get_task task_id) w1 = Returns (Some T1)
       ∧ T1 !! "approved_by" = Some (VStr approver)
       ∧ T1 !! "approved_at" = Some (VTime (wall_clock env (clock_reads w)))
       ∧ ∃ T2 w2,
           update_task env task_id actor {[ "status" := VStr "DONE" ]} w1
           = (Returns (Some T2), w2)
           ∧ eval (get_task task_id) w2 = Returns (Some T2)
           ∧ T2 !! "status" = Some (VStr "DONE")).
Proof.
  intros HT Hst Hreq Happ Hd.
  assert (∀ T0, dict_get T0 "status" = dict_get T "status" →
                done_gated {[ "status" := VStr "DONE" ]} T0 = true) as Hg.
  { intros T0 E. unfold done_gated. rewrite E, Hst. unfold dict_get.
    by rewrite lookup_singleton_eq. }
  split.
  - eapply update_task_unapproved; [done|by apply Hg|done|].
    unfold needs_approval. by rewrite Hreq, Happ.
  - intros Hne.
    destruct (approve_task_returns env w task_id approver T HT)
      as (a1 & a2 & w1 & Hrun & HT1 & _ & _ & _ & _ & _ & _ & _ & _ & Hdel & _).
    set (T1 := patched _ _ _ T) in *.
    assert (T1 !! "approved_by" = Some (VStr approver)) as Hby.
    { by apply patched_lookup_patch. }
    exists T1, w1. split_and!; [done|done|done| |].
    { by apply patched_lookup_patch. }
    destruct (update_task_returns env w1 task_id actor {[ "status" := VStr "DONE" ]} T1 HT1)
      as (w2 & Hrun2 & Htasks2 & _).
    { intros _. split.
      - destruct Hd as (d & Hin & Heq). exists d. by rewrite Hdel.
      - unfold needs_approval, dict_get at 2. rewrite Hby. simpl.
        apply String.eqb_neq in Hne. rewrite Hne. apply andb_false_r. }
    eexists _, w2. split_and!; [exact Hrun2| |].
    + by eapply get_task_patched.
    + by apply patched_lookup_patch.
Qed.

(** The statement at the sample task that requires approval. *)
Lemma C2_witness :
  update_task Sample.env "u0" "distribution" {[ "status" := VStr "DONE" ]} Sample.gated
  = (Raises (ValueError "Task requires approval before marking DONE"), Sample.gated)
  ∧ ∃ T1 w1,
      approve_task Sample.env "u0" "logan" Sample.gated = (Returns (Some T1), w1)
      ∧ eval (get_task "u0") w1 = Returns (Some T1)
      ∧ T1 !! "approved_by" = Some (VStr "logan")
      ∧ T1 !! "approved_at"
        = Some (VTime (wall_clock Sample.env (clock_reads Sample.gated)))
      ∧ ∃ T2 w2,
          update_task Sample.env "u0" "distribution" {[ "status" := VStr "DONE" ]} w1
          = (Returns (Some T2), w2)
          ∧ eval (get_task "u0") w2 = Returns (Some T2)
          ∧ T2 !! "status" = Some (VStr "DONE").
Proof.
  destruct (C2_approval_gate Sample.env Sample.gated "u0" "distribution" "logan" _
              eq_refl eq_refl eq_refl eq_refl) as [Hfail Hok].
  - by apply has_deliverable_scan.
  - split; [exact Hfail|]. apply Hok. discriminate.
Defined.

(** C2 as stated fails for the empty actor: [approve_task] records the
    empty string in [approved_by], which the check reads as no approval, so
    the transition to DONE still raises. *)
Lemma C2_counterexample :
  ∃ T T1 w1,
    eval (get_task "u0") Sample.gated = Returns (Some T)
    ∧ dict_get T "requires_approval" = VBool true
    ∧ dict_get T "approved_by" = VNull
    ∧ has_deliverable "u0" Sample.gated
    ∧ approve_task Sample.env "u0" "" Sample.gated = (Returns (Some T1), w1)
    ∧ dict_get T1 "approved_by" = VStr ""
    ∧ eval (update_task Sample.env "u0" "distribution" {[ "status" := VStr "DONE" ]}) w1
      = Raises (ValueError "Task requires approval before marking DONE").
Proof.
  eexists _, _, _. split_and!; [reflexivity ..| |reflexivity|reflexivity|reflexivity].
  by apply has_deliverable_scan.
Qed.

(** ** Approval and rejection *)

(** C10. [approve_task] on an existing task returns, and the task read back
    differs from the one before only in [approved_by], [approved_at] and
    [updated_at]: every other column, [status] among them, is kept. The
    same holds row by row for the whole table. *)
Theorem C10_approve_frame (env : Env) (w : World) (task_id actor : string)
    (T : gmap string value) :
  eval (get_task task_id) w = Returns (Some T) →
  ∃ T' w',
    approve_task env task_id actor w = (Returns (Some T'), w')
    ∧ eval (get_task task_id) w' = Returns (Some T')
    ∧ (∀ k, k ≠ "approved_by" → k ≠ "approved_at" → k ≠ "updated_at" →
            T' !! k = T !! k)
    ∧ T' !! "status" = T !! "status"
    ∧ Forall2 (λ r r', ∀ k, k ≠ "approved_by" → k ≠ "approved_at" →
                            k ≠ "updated_at" → r' !! k = r !! k)
        (workforce_tasks w) (workforce_tasks w').
Proof.
  intros HT.
  destruct (approve_task_returns env w task_id actor T HT)
    as (a1 & a2 & w' & Hrun & HT' & _ & _ & _ & _ & _ & _ & _ & _ & _ & Htasks).
  assert (∀ r k, k ≠ "approved_by" → k ≠ "approved_at" → k ≠ "updated_at" →
            patched (approval_patch actor (wall_clock env (clock_reads w)))
              (wall_clock env (S (clock_reads w)))
              (wall_clock env (S (S (clock_reads w)))) r !! k = r !! k) as Hframe.
  { intros r k H1 H2 H3. apply patched_lookup_frame; [done|].
    by apply approval_patch_lookup. }
  eexists _, w'. split_and!; [exact Hrun|exact HT'| | |].
  - intros k. apply Hframe.
  - by apply Hframe.
  - rewrite Htasks. apply Forall2_fmap_r, Forall_Forall2_diag, Forall_forall.
    intros r _ k H1 H2 H3.
    destruct (row_eq "id" task_id r); [by apply Hframe|done].
Qed.

(** The statement at the sample task. *)
Lemma C10_witness :
  ∃ T' w',
    approve_task Sample.env "u0" "logan" Sample.one_task = (Returns (Some T'), w')
    ∧ eval (get_task "u0") w' = Returns (Some T')
    ∧ (∀ k, k ≠ "approved_by" → k ≠ "approved_at" → k ≠ "updated_at" →
            T' !! k = default ∅ (head (workforce_tasks Sample.one_task)) !! k)
    ∧ T' !! "status" = default ∅ (head (workforce_tasks Sample.one_task)) !! "status"
    ∧ Forall2 (λ r r', ∀ k, k ≠ "approved_by" → k ≠ "approved_at" →
                            k ≠ "updated_at" → r' !! k = r !! k)
        (workforce_tasks Sample.one_task) (workforce_tasks w').
Proof.
  exact (C10_approve_frame Sample.env Sample.one_task "u0" "logan"
           (default ∅ (head (workforce_tasks Sample.one_task))) eq_refl).
Defined.

(** C7. [reject_task] on an existing task returns; the task read back has
    status BACKLOG and null [approved_by] and [approved_at]; the last audit
    entry is HUMAN_REJECTED for that task, with the reason under [reason]
    in its metadata and neither an old nor a new value. *)
Theorem C7_reject (env : Env) (w : World) (task_id actor : string)
    (reason : option string) (T : gmap string value) :
  eval (get_task task_id) w = Returns (Some T) →
  ∃ T' w' a1 a2,
    reject_task env task_id actor reason w = (Returns (Some T'), w')
    ∧ eval (get_task task_id) w' = Returns (Some T')
    ∧ T' !! "status" = Some (VStr "BACKLOG")
    ∧ T' !! "approved_by" = Some VNull
    ∧ T' !! "approved_at" = Some VNull
    ∧ workforce_audit_log w' = workforce_audit_log w ++ [a1; a2]
    ∧ a_event_type a2 = "HUMAN_REJECTED"
    ∧ a_entity_id a2 = task_id
    ∧ a_actor a2 = actor
    ∧ a_metadata a2 = {[ "reason" := opt_str reason ]}
    ∧ a_old_value a2 = None
    ∧ a_new_value a2 = None.
Proof.
  intros HT.
  destruct (reject_task_returns env w task_id actor reason T HT)
    as (a1 & a2 & w' & Hrun & HT' & Haudit & _ & _ & H2 & H3 & H4 & H5 & H6 & H7).
  eexists _, w', a1, a2.
  split_and!; [exact Hrun|exact HT'| | | |done ..].
  - by apply patched_lookup_patch.
  - by apply patched_lookup_patch.
  - by apply patched_lookup_patch.
Qed.

(** The statement at the sample task, rejected with a reason. *)
Lemma C7_witness :
  ∃ T' w' a1 a2,
    reject_task Sample.env "u0" "logan" (Some "needs sources") Sample.delivered
    = (Returns (Some T'), w')
    ∧ eval (get_task "u0") w' = Returns (Some T')
    ∧ T' !! "status" = Some (VStr "BACKLOG")
    ∧ T' !! "approved_by" = Some VNull
    ∧ T' !! "approved_at" = Some VNull
    ∧ workforce_audit_log w' = workforce_audit_log Sample.delivered ++ [a1; a2]
    ∧ a_event_type a2 = "HUMAN_REJECTED"
    ∧ a_entity_id a2 = "u0"
    ∧ a_actor a2 = "logan"
    ∧ a_metadata a2 = {[ "reason" := VStr "needs sources" ]}
    ∧ a_old_value a2 = None
    ∧ a_new_value a2 = None.
Proof.
  exact (C7_reject Sample.env Sample.delivered "u0" "logan" (Some "needs sources")
           (default ∅ (head (workforce_tasks Sample.delivered))) eq_refl).
Defined.

(** ** Audit trail and events *)

Section Inversion.

Variable env : Env.

(** A call of [update_task] that returns passed the checks. *)
Lemma update_task_returned (w w' : World) (task_id actor : string)
    (updates : gmap string value) (r : option (gmap string value)) :
  update_task env task_id actor updates w = (Returns r, w') →
  ∃ T, eval (get_task task_id) w = Returns (Some T) ∧
       (done_gated updates T = true →
        has_deliverable task_id w ∧ needs_approval T = false).
Proof.
  intros Hrun.
  destruct (update_task_cases w task_id updates)
    as [HT|(T & HT & [[Hg Hd]|[(Hg & Hd & Ha)|Hok]])].
  - by rewrite (update_task_not_found env w task_id actor updates HT) in Hrun.
  - by rewrite (update_task_no_deliverable env w task_id actor updates T HT Hg Hd) in Hrun.
  - by rewrite (update_task_unapproved env w task_id actor updates T HT Hg Hd Ha) in Hrun.
  - eauto.
Qed.

Lemma approve_task_returned (w w' : World) (task_id approved_by : string)
    (r : option (gmap string value)) :
  approve_task env task_id approved_by w = (Returns r, w') →
  ∃ T, eval (get_task task_id) w = Returns (Some T).
Proof.
  intros Hrun.
  destruct (head (List.filter (row_eq "id" task_id) (workforce_tasks w)))
    as [T|] eqn:HT; [exists T; by apply get_task_eval|].
  exfalso. revert Hrun. unfold approve_task.
  erewrite bind_returns by reflexivity.
  erewrite bind_raises; [done|].
  apply update_task_not_found. by apply get_task_eval.
Qed.

Lemma reject_task_returned (w w' : World) (task_id rejected_by : string)
    (reason : option string) (r : option (gmap string value)) :
  reject_task env task_id rejected_by reason w = (Returns r, w') →
  ∃ T, eval (get_task task_id) w = Returns (Some T).
Proof.
  intros Hrun.
  destruct (head (List.filter (row_eq "id" task_id) (workforce_tasks w)))
    as [T|] eqn:HT; [exists T; by apply get_task_eval|].
  exfalso. revert Hrun. unfold reject_task.
  erewrite bind_raises; [done|].
  apply update_task_not_found. by apply get_task_eval.
Qed.

End Inversion.

(** What [create_task] returns and writes. *)
Lemma create_task_returns (env : Env) (w : World) (kw : create_task_kw.t) :
  ∃ task w' a e,
    create_task env kw w = (Returns task, w')
    ∧ task !! "id" = Some (VStr (uuid_stream env (uuid_draws w)))
    ∧ task !! "title" = Some (VStr (create_task_kw.title kw))
    ∧ task !! "description" = Some (opt_str (create_task_kw.description kw))
    ∧ task !! "source" = Some (VStr (create_task_kw.source kw))
    ∧ task !! "assigned_by" = Some (VStr (create_task_kw.assigned_by kw))
    ∧ task !! "status" = Some (VStr "BACKLOG")
    ∧ workforce_tasks w' = workforce_tasks w ++ [task]
    ∧ workforce_audit_log w' = workforce_audit_log w ++ [a]
    ∧ a_event_type a = "TASK_CREATED"
    ∧ a_entity_id a = uuid_stream env (uuid_draws w)
    ∧ workforce_events w' = workforce_events w ++ [e]
    ∧ e_event_type e = "TASK_CREATED"
    ∧ workforce_insights w' = workforce_insights w
    ∧ workforce_deliverables w' = workforce_deliverables w
    ∧ clock_reads w' = (3 + clock_reads w)%nat.
Proof.
  eexists _, _, _, _. split_and!.
  - unfold create_task. db_run. reflexivity.
  - reflexivity.
  - reflexivity.
  - reflexivity.
  - reflexivity.
  - reflexivity.
  - reflexivity.
  - reflexivity.
  - reflexivity.
  - reflexivity.
  - reflexivity.
  - reflexivity.
  - reflexivity.
  - reflexivity.
  - reflexivity.
  - reflexivity.
Qed.

(** C4, as the code has it. [create_task], [update_task], [add_deliverable]
    and [add_insight] append exactly one audit entry when they return, and
    [approve_task] and [reject_task] exactly two: the TASK_UPDATED entry of
    the [update_task] they call, then their own. In each case [entity_id]
    is the identifier of the row created or changed. *)
Theorem C4_audit_entries (env : Env) (w : World) :
  (∀ kw, ∃ task w' a,
     create_task env kw w = (Returns task, w')
     ∧ workforce_audit_log w' = workforce_audit_log w ++ [a]
     ∧ a_event_type a = "TASK_CREATED"
     ∧ task !! "id" = Some (VStr (a_entity_id a)))
  ∧ (∀ task_id actor updates r w',
     update_task env task_id actor updates w = (Returns r, w') →
     ∃ a, workforce_audit_log w' = workforce_audit_log w ++ [a]
          ∧ a_event_type a = "TASK_UPDATED"
          ∧ a_entity_id a = task_id)
  ∧ (∀ task_id title content created_by content_type is_final, ∃ d w' a,
     add_deliverable env task_id title content created_by content_type is_final w
     = (Returns d, w')
     ∧ workforce_audit_log w' = workforce_audit_log w ++ [a]
     ∧ a_event_type a = "DELIVERABLE_ADDED"
     ∧ a_entity_id a = d_id d)
  ∧ (∀ agent content task_id insight_type, ∃ i w' a,
     add_insight env agent content task_id insight_type w = (Returns i, w')
     ∧ workforce_audit_log w' = workforce_audit_log w ++ [a]
     ∧ a_event_type a = "INSIGHT_ADDED"
     ∧ a_entity_id a = i_id i)
  ∧ (∀ task_id actor r w',
     approve_task env task_id actor w = (Returns r, w') →
     ∃ a1 a2, workforce_audit_log w' = workforce_audit_log w ++ [a1; a2]
              ∧ a_event_type a1 = "TASK_UPDATED" ∧ a_entity_id a1 = task_id
              ∧ a_event_type a2 = "HUMAN_APPROVED" ∧ a_entity_id a2 = task_id)
  ∧ (∀ task_id actor reason r w',
     reject_task env task_id actor reason w = (Returns r, w') →
     ∃ a1 a2, workforce_audit_log w' = workforce_audit_log w ++ [a1; a2]
              ∧ a_event_type a1 = "TASK_UPDATED" ∧ a_entity_id a1 = task_id
              ∧ a_event_type a2 = "HUMAN_REJECTED" ∧ a_entity_id a2 = task_id).
Proof.
  split_and!.
  - intros kw.
    destruct (create_task_returns env w kw)
      as (task & w' & a & e & Hrun & Hid & _ & _ & _ & _ & _ & _ & Haudit & Ht & Hent & _).
    exists task, w', a. by rewrite Hent.
  - intros task_id actor updates r w' Hrun.
    destruct (update_task_returned env _ _ _ _ _ _ Hrun) as (T & HT & Hok).
    destruct (update_task_returns env w task_id actor updates T HT Hok)
      as (w'' & Hrun' & _ & Haudit & _).
    rewrite Hrun in Hrun'. injection Hrun' as _ ->.
    eexists. split_and!; [exact Haudit|reflexivity ..].
  - intros. eexists _, _, _.
    split_and!; [unfold add_deliverable; db_run; reflexivity | reflexivity ..].
  - intros. eexists _, _, _.
    split_and!; [unfold add_insight; db_run; reflexivity | reflexivity ..].
  - intros task_id actor r w' Hrun.
    destruct (approve_task_returned env _ _ _ _ _ Hrun) as (T & HT).
    destruct (approve_task_returns env w task_id actor T HT)
      as (a1 & a2 & w'' & Hrun' & _ & Haudit & H1 & H2 & H3 & H4 & _).
    rewrite Hrun in Hrun'. injection Hrun' as _ ->.
    by exists a1, a2.
  - intros task_id actor reason r w' Hrun.
    destruct (reject_task_returned env _ _ _ _ _ _ Hrun) as (T & HT).
    destruct (reject_task_returns env w task_id actor reason T HT)
      as (a1 & a2 & w'' & Hrun' & _ & Haudit & H1 & H2 & H3 & H4 & _).
    rewrite Hrun in Hrun'. injection Hrun' as _ ->.
    by exists a1, a2.
Qed.

(** The statement at the sample task: one entry for an update, two for an
    approval and for a rejection. *)
Lemma C4_witness :
  (∃ a, workforce_audit_log
          (exec (update_task Sample.env "u0" "jarvis" {[ "priority" := VStr "P0" ]})
             Sample.one_task)
        = workforce_audit_log Sample.one_task ++ [a]
        ∧ a_event_type a = "TASK_UPDATED" ∧ a_entity_id a = "u0")
  ∧ (∃ a1 a2, workforce_audit_log
                (exec (approve_task Sample.env "u0" "logan") Sample.one_task)
              = workforce_audit_log Sample.one_task ++ [a1; a2]
              ∧ a_event_type a1 = "TASK_UPDATED" ∧ a_entity_id a1 = "u0"
              ∧ a_event_type a2 = "HUMAN_APPROVED" ∧ a_entity_id a2 = "u0")
  ∧ (∃ a1 a2, workforce_audit_log
                (exec (reject_task Sample.env "u0" "logan" None) Sample.one_task)
              = workforce_audit_log Sample.one_task ++ [a1; a2]
              ∧ a_event_type a1 = "TASK_UPDATED" ∧ a_entity_id a1 = "u0"
              ∧ a_event_type a2 = "HUMAN_REJECTED" ∧ a_entity_id a2 = "u0").
Proof.
  destruct (C4_audit_entries Sample.env Sample.one_task)
    as (_ & Hupdate & _ & _ & Happrove & Hreject).
  split_and!.
  - eapply Hupdate, run_returns. reflexivity.
  - eapply Happrove, run_returns. reflexivity.
  - eapply Hreject, run_returns. reflexivity.
Defined.

(** C4 as stated fails for approvals: a returning [approve_task] leaves two
    new audit entries, not one. *)
Lemma C4_counterexample :
  ∃ r w',
    approve_task Sample.env "u0" "logan" Sample.one_task = (Returns r, w')
    ∧ length (workforce_audit_log w')
      = (2 + length (workforce_audit_log Sample.one_task))%nat
    ∧ ¬ ∃ a, workforce_audit_log w' = workforce_audit_log Sample.one_task ++ [a].
Proof.
  eexists _, _. split_and!; [reflexivity|reflexivity|].
  intros [a Ha]. apply (f_equal length) in Ha. vm_compute in Ha. discriminate.
Qed.

(** Every member of [TaskStatus] is a non-empty string: for the statuses of
    the data model the guard of the event comes down to the comparison. *)
Remark status_value_truthy (s : TaskStatus) :
  py_truthy (VStr (TaskStatus_.value_ s)) = true.
Proof. by destruct s. Qed.

(** The guard of the event, as the code has it. A returning [update_task]
    appends exactly one event, STATUS_CHANGED, unprocessed, with payload
    [{task_id, old_status, new_status}], when the patch carries a status
    that is truthy and differs from the current one; it appends no event
    otherwise. *)
Lemma update_task_events (env : Env) (w w' : World)
    (task_id actor : string) (updates : gmap string value)
    (r : option (gmap string value)) :
  update_task env task_id actor updates w = (Returns r, w') →
  ∃ T,
    eval (get_task task_id) w = Returns (Some T)
    ∧ (py_truthy (dict_get updates "status") = true →
       py_eq (dict_get updates "status") (dict_get T "status") = false →
       ∃ e, workforce_events w' = workforce_events w ++ [e]
            ∧ e_event_type e = "STATUS_CHANGED"
            ∧ e_processed e = false
            ∧ e_payload e = {[ "task_id" := VStr task_id;
                               "old_status" := dict_get T "status";
                               "new_status" := dict_get updates "status" ]})
    ∧ (py_truthy (dict_get updates "status") = false
       ∨ py_eq (dict_get updates "status") (dict_get T "status") = true →
       workforce_events w' = workforce_events w).
Proof.
  intros Hrun.
  destruct (update_task_returned env _ _ _ _ _ _ Hrun) as (T & HT & Hok).
  destruct (update_task_returns env w task_id actor updates T HT Hok)
    as (w'' & Hrun' & _ & _ & Hevents & _).
  rewrite Hrun in Hrun'. injection Hrun' as _ ->.
  exists T. unfold status_changes in Hevents. split_and!; [done| |].
  - intros Ht Hne. rewrite Ht, Hne in Hevents. eexists. split; [exact Hevents|done].
  - intros [Hf|Heq].
    + rewrite Hf in Hevents. by rewrite app_nil_r in Hevents.
    + rewrite Heq, andb_false_r in Hevents. by rewrite app_nil_r in Hevents.
Qed.

(** A text equals a cell exactly when the cell holds that text. *)
Lemma py_eq_text (t : string) (T : gmap string value) (k : string) :
  py_eq (VStr t) (dict_get T k) = true ↔ T !! k = Some (VStr t).
Proof.
  unfold dict_get. destruct (T !! k) as [[]|]; simpl; try (split; done).
  rewrite String.eqb_eq. split; [by intros ->|by intros [= ->]].
Qed.

(** C5. A returning [update_task] whose patch, if it names a status, names
    one of the enumeration, appends exactly one event when that status is
    not the one the task has: STATUS_CHANGED, unprocessed, with payload
    [{task_id, old_status, new_status}]. It appends no event when the patch
    names the status the task already has, and none when the patch names no
    status. *)
Theorem C5_status_changed_event (env : Env) (w w' : World)
    (task_id actor : string) (updates : gmap string value)
    (r : option (gmap string value)) :
  update_task env task_id actor updates w = (Returns r, w') →
  (∀ v, updates !! "status" = Some v →
        ∃ s : TaskStatus, v = VStr (TaskStatus_.value_ s)) →
  ∃ T,
    eval (get_task task_id) w = Returns (Some T)
    ∧ (∀ new, updates !! "status" = Some (VStr new) →
              T !! "status" ≠ Some (VStr new) →
       ∃ e, workforce_events w' = workforce_events w ++ [e]
            ∧ e_event_type e = "STATUS_CHANGED"
            ∧ e_processed e = false
            ∧ e_payload e = {[ "task_id" := VStr task_id;
                               "old_status" := dict_get T "status";
                               "new_status" := VStr new ]})
    ∧ (∀ new, updates !! "status" = Some (VStr new) →
              T !! "status" = Some (VStr new) →
       workforce_events w' = workforce_events w)
    ∧ (updates !! "status" = None → workforce_events w' = workforce_events w).
Proof.
  intros Hrun Henum.
  destruct (update_task_events env w w' task_id actor updates r Hrun)
    as (T & HT & Hone & Hnone).
  exists T. split_and!; [done| | |].
  - intros new Hnew Hne.
    destruct (Henum _ Hnew) as [s [= ->]].
    assert (dict_get updates "status" = VStr (TaskStatus_.value_ s)) as Hget
      by (unfold dict_get; by rewrite Hnew).
    rewrite Hget in Hone. apply Hone.
    + apply status_value_truthy.
    + destruct (py_eq _ _) eqn:Heq; [|done]. by apply py_eq_text in Heq.
  - intros new Hnew Hsame. apply Hnone. right.
    unfold dict_get at 1. rewrite Hnew. simpl. by apply py_eq_text.
  - intros Hmissing. apply Hnone. left. unfold dict_get. by rewrite Hmissing.
Qed.

(** The statement at the sample task: BACKLOG to IN_PROGRESS emits the
    event, a change of priority emits none. *)
Lemma C5_witness :
  (∃ e, workforce_events
          (exec (update_task Sample.env "u0" "jarvis" {[ "status" := VStr "IN_PROGRESS" ]})
             Sample.one_task)
        = workforce_events Sample.one_task ++ [e]
        ∧ e_event_type e = "STATUS_CHANGED"
        ∧ e_processed e = false
        ∧ e_payload e = {[ "task_id" := VStr "u0";
                           "old_status" := VStr "BACKLOG";
                           "new_status" := VStr "IN_PROGRESS" ]})
  ∧ workforce_events
      (exec (update_task Sample.env "u0" "jarvis" {[ "priority" := VStr "P0" ]})
         Sample.one_task)
    = workforce_events Sample.one_task.
Proof.
  split.
  - edestruct (C5_status_changed_event Sample.env Sample.one_task
                 (exec (update_task Sample.env "u0" "jarvis"
                          {[ "status" := VStr "IN_PROGRESS" ]}) Sample.one_task)
                 "u0" "jarvis" {[ "status" := VStr "IN_PROGRESS" ]})
      as (T & HT & Hone & _); [apply run_returns; reflexivity| |].
    { intros v [= <-]. by exists IN_PROGRESS. }
    assert (Some T = head (workforce_tasks Sample.one_task)) as HT'.
    { apply get_task_eval in HT. by rewrite <- HT. }
    injection HT' as ->. apply (Hone "IN_PROGRESS"); [reflexivity|discriminate].
  - edestruct (C5_status_changed_event Sample.env Sample.one_task
                 (exec (update_task Sample.env "u0" "jarvis"
                          {[ "priority" := VStr "P0" ]}) Sample.one_task)
                 "u0" "jarvis" {[ "priority" := VStr "P0" ]})
      as (T & _ & _ & _ & Hnone); [apply run_returns; reflexivity| |].
    { intros v [=]. }
    apply Hnone. reflexivity.
Defined.

(** ** Autonomy resolution *)

Lemma session_counts_considered (now : Z) (agent_id : option string)
    (s : AutonomySession) :
  session_counts now agent_id s = true ↔ considered now agent_id s.
Proof.
  unfold session_counts, session_running, granted_to_or_null, considered.
  rewrite !andb_true_iff, !Z.ltb_lt. split.
  - intros [[[H1 H2] H3] H4]. split_and!; [done|done| |].
    + by destruct (s_revoked_at s).
    + intros a -> Ha. apply String.eqb_neq in Ha. rewrite Ha in H4. simpl in H4.
      destruct (s_granted_to s) as [g|]; [right|by left].
      by apply String.eqb_eq in H4 as ->.
  - intros ([H1 H2] & H3 & H4). split_and!; [done|done|by rewrite H3|].
    destruct agent_id as [a|]; [|done].
    destruct (String.eqb a "") eqn:Ha; [done|]. simpl.
    apply String.eqb_neq in Ha.
    destruct (H4 a eq_refl Ha) as [-> | ->]; [done|]. apply String.eqb_refl.
Qed.

(** The whole run of the query when the store reads the expression built
    for the agent, if one is built, as it is meant. *)
Lemma get_current_autonomy_mode_run (env : Env) (w : World) (agent_id : option string) :
  (∀ a, agent_id = Some a → a ≠ "" →
        ∃ selects, or_ env (scope_expr a) = Some selects
                   ∧ ∀ s, selects s = granted_to_or_null a s) →
  get_current_autonomy_mode env agent_id w
  = (Returns
       (match head (order_by s_created_at true
                      (List.filter (session_counts (wall_clock env (clock_reads w)) agent_id)
                         (workforce_autonomy_sessions w))) with
        | Some s => s_mode s
        | None => "advisory"
        end),
     tick_clock w).
Proof.
  intros Hscope.
  assert (∀ (selects : AutonomySession → bool) l,
            (∀ s, selects s
                  = match agent_id with
                    | Some a => if negb (String.eqb a "")
                                then granted_to_or_null a s else true
                    | None => true
                    end) →
            List.filter selects
              (List.filter (session_running (wall_clock env (clock_reads w))) l)
            = List.filter (session_counts (wall_clock env (clock_reads w)) agent_id) l)
    as Hfilter.
  { intros selects l Hs. rewrite filter_filter_bool. apply filter_ext_bool.
    intros s. unfold session_counts. by rewrite Hs. }
  unfold get_current_autonomy_mode, limit.
  destruct agent_id as [a|].
  - destruct (String.eqb a "") eqn:Ha.
    + db_run. cbn [negb]. cbv beta iota. world_simpl.
      rewrite (Hfilter (λ _, true)) by done. by destruct (order_by _ _ _).
    + apply String.eqb_neq in Ha.
      destruct (Hscope a eq_refl Ha) as (selects & Hor & Hsel).
      db_run. rewrite Hor. cbn [negb]. cbv beta iota. world_simpl.
      rewrite (Hfilter selects) by done. by destruct (order_by _ _ _).
  - db_run. rewrite (Hfilter (λ _, true)) by done. by destruct (order_by _ _ _).
Qed.

(** *** The sample store *)

Lemma split_commas_head (t rest : string) :
  Sample.split_commas t = [t] →
  Sample.split_commas (t +:+ String Sample.comma rest)
  = t :: Sample.split_commas rest.
Proof.
  induction t as [|c t IH]; intros Hone.
  - change (EmptyString +:+ String Sample.comma rest) with (String Sample.comma rest).
    cbn [Sample.split_commas]. by rewrite Ascii.eqb_refl.
  - change (String c t +:+ String Sample.comma rest)
      with (String c (t +:+ String Sample.comma rest)).
    cbn [Sample.split_commas] in Hone |- *.
    destruct (Ascii.eqb c Sample.comma); [done|].
    destruct (Sample.split_commas t) as [|t' ts] eqn:Ht.
    + injection Hone as <-. by rewrite IH.
    + injection Hone as -> ->. by rewrite IH.
Qed.

Lemma split_commas_one (t a : string) :
  Sample.split_commas t = [t] → Sample.split_commas a = [a] →
  Sample.split_commas (t +:+ a) = [t +:+ a].
Proof.
  intros Ht Ha. induction t as [|c t IH]; [exact Ha|].
  change (String c t +:+ a) with (String c (t +:+ a)).
  cbn [Sample.split_commas] in Ht |- *.
  destruct (Ascii.eqb c Sample.comma); [done|].
  destruct (Sample.split_commas t) as [|t' ts] eqn:Hsplit.
  - injection Ht as <-. by rewrite IH.
  - injection Ht as -> ->. by rewrite IH.
Qed.

Lemma split_commas_plain (a : string) :
  plain_id a = true → Sample.split_commas a = [a].
Proof.
  induction a as [|c a IH]; [done|]. simpl. intros [Hc Ha]%andb_true_iff.
  destruct (Ascii.eqb c Sample.comma) eqn:Hcomma.
  - apply Ascii.eqb_eq in Hcomma as ->. discriminate.
  - by rewrite (IH Ha).
Qed.

(** The sample store reads the scope of a plain identifier as it is
    meant. *)
Lemma sample_store_reads_scope : store_reads_scope Sample.env.
Proof.
  intros a Ha. unfold scope_expr. simpl. unfold Sample.read_or.
  change ("granted_to.eq." +:+ a +:+ ",granted_to.is.null")
    with (("granted_to.eq." +:+ a) +:+ String Sample.comma "granted_to.is.null").
  rewrite split_commas_head.
  - change (Sample.split_commas "granted_to.is.null") with ["granted_to.is.null"].
    cbn [mapM].
    assert (Sample.condition ("granted_to.eq." +:+ a)
            = Some (Sample.granted_to_is (λ g, String.eqb g a))) as ->.
    { unfold Sample.condition.
      change (String.eqb ("granted_to.eq." +:+ a) "granted_to.is.null") with false.
      change (Sample.strip_prefix "granted_to.eq." ("granted_to.eq." +:+ a))
        with (Some a).
      cbv iota. by rewrite Ha. }
    eexists. split; [reflexivity|].
    intros s. simpl. unfold Sample.granted_to_is, granted_to_or_null.
    by destruct (s_granted_to s); rewrite ?orb_false_r.
  - apply split_commas_one; [reflexivity|by apply split_commas_plain].
Qed.

(** C3, as the code has it, for an agent identifier that is absent or
    made of letters, digits, [_] and [-], on a store that reads the scope
    expression of such an identifier as it is meant. At the instant [now]
    of the call the sessions taken into account are those with
    [starts_at < now < expires_at], not revoked, and, when a non-empty agent
    is given, [granted_to] null or that agent. The mode returned is that of
    one of them with the greatest [created_at]; it is ["advisory"] when
    there is none. The call only reads the clock. *)
Theorem C3_current_mode (env : Env) (w : World) (agent_id : option string) :
  store_reads_scope env →
  (∀ a, agent_id = Some a → plain_id a = true) →
  let now := wall_clock env (clock_reads w) in
  ∃ mode,
    get_current_autonomy_mode env agent_id w = (Returns mode, tick_clock w)
    ∧ ((∃ s, s ∈ workforce_autonomy_sessions w
             ∧ considered now agent_id s
             ∧ (∀ s', s' ∈ workforce_autonomy_sessions w →
                      considered now agent_id s' →
                      s_created_at s' ≤ s_created_at s)
             ∧ mode = s_mode s)
       ∨ ((∀ s, s ∈ workforce_autonomy_sessions w → ¬ considered now agent_id s)
          ∧ mode = "advisory")).
Proof.
  intros Hstore Hplain now. eexists. split.
  { apply get_current_autonomy_mode_run. intros a Ha _. by apply Hstore, Hplain. }
  fold now.
  destruct (head _) as [s|] eqn:Hhead.
  - left. apply head_order_by_desc in Hhead as [Hin Hmax].
    apply elem_of_filter_bool in Hin as [Hin Hsel].
    exists s. split_and!; [done|by apply session_counts_considered| |done].
    intros s' Hin' Hc. apply Hmax, elem_of_filter_bool.
    split; [done|by apply session_counts_considered].
  - right. split; [|done].
    assert (List.filter (session_counts now agent_id)
              (workforce_autonomy_sessions w) = []) as Hnil.
    { apply (order_by_nil s_created_at true). by destruct (order_by _ _ _). }
    intros s Hin Hc%session_counts_considered.
    rewrite filter_nil_iff in Hnil. specialize (Hnil s Hin). congruence.
Qed.

(** The statement for the agent of the newer of two running sessions. *)
Lemma C3_witness :
  let now := wall_clock Sample.env (clock_reads Sample.overlapping) in
  ∃ mode,
    get_current_autonomy_mode Sample.env (Some "researcher") Sample.overlapping
    = (Returns mode, tick_clock Sample.overlapping)
    ∧ ((∃ s, s ∈ workforce_autonomy_sessions Sample.overlapping
             ∧ considered now (Some "researcher") s
             ∧ (∀ s', s' ∈ workforce_autonomy_sessions Sample.overlapping →
                      considered now (Some "researcher") s' →
                      s_created_at s' ≤ s_created_at s)
             ∧ mode = s_mode s)
       ∨ ((∀ s, s ∈ workforce_autonomy_sessions Sample.overlapping →
                ¬ considered now (Some "researcher") s)
          ∧ mode = "advisory")).
Proof.
  apply (C3_current_mode Sample.env Sample.overlapping (Some "researcher")).
  - exact sample_store_reads_scope.
  - intros a [= <-]. reflexivity.
Defined.

(** C3 as stated fails on the bounds it gives: a session whose [starts_at]
    is the instant of the call is not yet taken into account, and an empty
    agent identifier is treated as none, so a session scoped to some agent
    decides. *)
Lemma C3_counterexample :
  (eval (get_current_autonomy_mode Sample.env None) Sample.just_granted
   = Returns "advisory"
   ∧ spec_CurrentMode (wall_clock Sample.env (clock_reads Sample.just_granted)) None
       (workforce_autonomy_sessions Sample.just_granted) = "full_autonomy")
  ∧ (eval (get_current_autonomy_mode Sample.env (Some "")) Sample.scoped
     = Returns "full_autonomy"
     ∧ spec_CurrentMode (wall_clock Sample.env (clock_reads Sample.scoped)) (Some "")
         (workforce_autonomy_sessions Sample.scoped) = "advisory").
Proof. split_and!; reflexivity. Qed.

(** The scenario of the specification: the newer session scoped to an
    agent wins for that agent, the global one for another agent, and the
    default applies once both have expired. *)
Example autonomy_precedence :
  eval (get_current_autonomy_mode Sample.env (Some "researcher")) Sample.overlapping
  = Returns "full_autonomy"
  ∧ eval (get_current_autonomy_mode Sample.env (Some "distribution")) Sample.overlapping
    = Returns "advisory"
  ∧ eval (get_current_autonomy_mode Sample.env (Some "researcher")) Sample.expired
    = Returns "advisory"
  ∧ eval (get_current_autonomy_mode Sample.env None) Sample.expired
    = Returns "advisory".
Proof. split_and!; reflexivity. Qed.

(** An identifier is pasted into the filter expression unescaped. One that
    carries a condition of its own widens the query: with
    ["x,granted_to.neq.x"] the sample store reads
    [granted_to.eq.x,granted_to.neq.x,granted_to.is.null] and the session of
    another agent decides. One that breaks the syntax, as ["a)"] does, is
    refused by the store. *)
Example unescaped_agent_id :
  eval (get_current_autonomy_mode Sample.env (Some "x")) Sample.scoped
  = Returns "advisory"
  ∧ eval (get_current_autonomy_mode Sample.env (Some "x,granted_to.neq.x")) Sample.scoped
    = Returns "full_autonomy"
  ∧ eval (get_current_autonomy_mode Sample.env (Some "a)")) Sample.scoped
    = Raises APIError.
Proof. split_and!; reflexivity. Qed.

(** A grant of sixty minutes read thirty minutes later, and sixty-one
    minutes later. *)
Example grant_then_query :
  let t0 := 1700000000000000 in
  let half := Sample.env_at [t0; t0 + 1; t0 + timedelta_minutes 30] in
  let late := Sample.env_at [t0; t0 + 1; t0 + timedelta_minutes 61] in
  eval (get_current_autonomy_mode half None)
    (exec (grant_autonomy half "full_autonomy" "logan" 60 None None) Sample.empty)
  = Returns "full_autonomy"
  ∧ eval (get_current_autonomy_mode late None)
      (exec (grant_autonomy late "full_autonomy" "logan" 60 None None) Sample.empty)
    = Returns "advisory".
Proof. split; reflexivity. Qed.

(** C9. Without an agent the query does not look at [granted_to]: a
    running, unrevoked session that is newer than every other such session
    decides the mode, whether it is global or scoped to an agent. *)
Theorem C9_unscoped_query (env : Env) (w : World) (s : AutonomySession) :
  let now := wall_clock env (clock_reads w) in
  s ∈ workforce_autonomy_sessions w →
  s_starts_at s < now < s_expires_at s →
  s_revoked_at s = None →
  (∀ s', s' ∈ workforce_autonomy_sessions w →
         s_starts_at s' < now < s_expires_at s' →
         s_revoked_at s' = None →
         s' = s ∨ s_created_at s' < s_created_at s) →
  eval (get_current_autonomy_mode env None) w = Returns (s_mode s).
Proof.
  intros now Hin Hwin Hrev Hnewest.
  assert (∀ s0, considered now None s0 ↔
                s_starts_at s0 < now < s_expires_at s0 ∧ s_revoked_at s0 = None)
    as Hc.
  { intros s0. unfold considered. split; [by intros (? & ? & _)|].
    intros [Hw0 Hr0]. split_and!; [apply Hw0|apply Hw0|done|done]. }
  unfold eval. rewrite get_current_autonomy_mode_run by done. fold now. simpl.
  destruct (head _) as [s1|] eqn:Hhead.
  - apply head_order_by_desc in Hhead as [Hin1 Hmax].
    apply elem_of_filter_bool in Hin1 as [Hin1 Hc1].
    apply session_counts_considered, Hc in Hc1 as [Hw1 Hr1].
    destruct (Hnewest s1 Hin1 Hw1 Hr1) as [-> | Hlt]; [done|].
    assert (s_created_at s ≤ s_created_at s1); [|lia].
    apply Hmax, elem_of_filter_bool. split; [done|].
    by apply session_counts_considered, Hc.
  - assert (List.filter (session_counts now None)
              (workforce_autonomy_sessions w) = []) as Hnil.
    { apply (order_by_nil s_created_at true). by destruct (order_by _ _ _). }
    rewrite filter_nil_iff in Hnil. specialize (Hnil s Hin).
    assert (session_counts now None s = true); [|congruence].
    by apply session_counts_considered, Hc.
Qed.

(** The statement for two running sessions, the newer one scoped to an
    agent. *)
Lemma C9_witness :
  eval (get_current_autonomy_mode Sample.env None) Sample.overlapping
  = Returns "full_autonomy".
Proof.
  apply (C9_unscoped_query Sample.env Sample.overlapping
           (Sample.session "s2" "full_autonomy" (Some "researcher") 200 5000 200)).
  - right. left.
  - simpl. lia.
  - reflexivity.
  - intros s' Hin _ _.
    apply elem_of_cons in Hin as [-> | Hin]; [right; simpl; lia|].
    apply elem_of_cons in Hin as [-> | Hin]; [by left|].
    by apply elem_of_nil in Hin.
Defined.

(** ** Insight promotion *)

Lemma first_insight_none (insight_id : string) (w : World) :
  first_insight insight_id w = None ↔
  ∀ i, i ∈ workforce_insights w → i_id i ≠ insight_id.
Proof.
  unfold first_insight. split.
  - intros H i Hin Heq.
    assert (List.filter (λ i, String.eqb (i_id i) insight_id)
              (workforce_insights w) = []) as Hnil by by destruct (List.filter _ _).
    rewrite filter_nil_iff in Hnil. specialize (Hnil i Hin).
    by apply String.eqb_neq in Hnil.
  - intros H.
    assert (List.filter (λ i, String.eqb (i_id i) insight_id)
              (workforce_insights w) = []) as ->; [|done].
    apply filter_nil_iff. intros i Hin. apply String.eqb_neq. by apply H.
Qed.

Section Promotion.

Variable env : Env.

Lemma promote_insight_to_task_not_found (w : World) (insight_id promoted_by : string) :
  first_insight insight_id w = None →
  promote_insight_to_task env insight_id promoted_by w
  = (Raises (ValueError ("Insight " +:+ insight_id +:+ " not found")), w).
Proof.
  unfold first_insight, promote_insight_to_task. intros H.
  erewrite bind_returns by reflexivity.
  by destruct (List.filter _ _).
Qed.

Lemma promote_insight_to_task_returns (w : World) (insight_id promoted_by : string)
    (i : Insight) :
  first_insight insight_id w = Some i →
  let new_id := uuid_stream env (uuid_draws w) in
  let promoted_at := wall_clock env (3 + clock_reads w) in
  ∃ task w',
    promote_insight_to_task env insight_id promoted_by w = (Returns task, w')
    ∧ task !! "id" = Some (VStr new_id)
    ∧ task !! "title"
      = Some (VStr ("[From Insight] " +:+ str_prefix 100 (i_content i)))
    ∧ task !! "description" = Some (VStr (i_content i))
    ∧ task !! "source" = Some (VStr "insight_promotion")
    ∧ task !! "assigned_by" = Some (VStr promoted_by)
    ∧ task !! "status" = Some (VStr "BACKLOG")
    ∧ workforce_tasks w' = workforce_tasks w ++ [task]
    ∧ workforce_insights w'
      = (λ i, if String.eqb (i_id i) insight_id
              then mark_promoted (VStr new_id) promoted_at i else i)
          <$> workforce_insights w.
Proof.
  intros Hi new_id promoted_at.
  unfold first_insight in Hi.
  destruct (List.filter (λ i, String.eqb (i_id i) insight_id) (workforce_insights w))
    as [|i0 rest] eqn:Hf; [done|]. injection Hi as ->.
  set (kw := {| create_task_kw.title :=
                  "[From Insight] " +:+ str_prefix 100 (i_content i);
                create_task_kw.description := Some (i_content i);
                create_task_kw.owner_agent := None;
                create_task_kw.assigned_by := promoted_by;
                create_task_kw.priority := "P2";
                create_task_kw.tags := None;
                create_task_kw.source := "insight_promotion";
                create_task_kw.requires_approval := false;
                create_task_kw.parent_task_id := None;
                create_task_kw.due_at := None;
                create_task_kw.external_refs := None;
                create_task_kw.impact_score := None;
                create_task_kw.effort_estimate := None |}).
  destruct (create_task_returns env w kw)
    as (task & w1 & a & e & Hrun & Hid & Htitle & Hdesc & Hsrc & Hby & Hst
        & Htasks & _ & _ & _ & _ & _ & Hins & _ & Hclock).
  exists task. eexists. split_and!; [|done ..| |].
  - unfold promote_insight_to_task.
    erewrite bind_returns by reflexivity. rewrite Hf.
    erewrite bind_returns by exact Hrun.
    erewrite bind_returns by reflexivity.
    unfold dict_item. rewrite Hid.
    erewrite bind_returns by reflexivity.
    erewrite bind_returns by reflexivity.
    reflexivity.
  - world_simpl. exact Htasks.
  - world_simpl. by rewrite Hins, Hclock.
Qed.

End Promotion.

(** C6. Promotion of an identifier that no insight carries raises the
    ValueError "Insight ... not found"; the route refuses any actor other
    than "jarvis" with 403 and writes nothing. For "jarvis" and an existing
    insight, the call returns a new task row, appended to the table, whose
    description is the content of the insight, whose source is
    "insight_promotion" and whose title is "[From Insight] " followed by a
    prefix of the content: the whole content when it has at most 100 code
    points, its first 100 code points otherwise, cut where a code point
    starts (on ASCII text, the first 100 bytes). The insight then carries
    the identifier of that task in [promoted_to_task_id] and the time read
    after the task was created in [promoted_at]. *)
Theorem C6_promote_insight (env : Env) (w : World) (insight_id actor : string) :
  ((∀ i, i ∈ workforce_insights w → i_id i ≠ insight_id) →
   promote_insight_to_task env insight_id actor w
   = (Raises (ValueError ("Insight " +:+ insight_id +:+ " not found")), w)
   ∧ (actor = "jarvis" →
      promote_insight env insight_id actor w
      = (Raises (ValueError ("Insight " +:+ insight_id +:+ " not found")), w)))
  ∧ (actor ≠ "jarvis" →
     promote_insight env insight_id actor w
     = (Raises (HTTPException 403 "Only Jarvis can promote insights to tasks"), w))
  ∧ (∀ i, actor = "jarvis" → first_insight insight_id w = Some i →
     ∃ task w' new_id cut rest,
       promote_insight env insight_id actor w = (Returns task, w')
       ∧ task !! "id" = Some (VStr new_id)
       ∧ task !! "description" = Some (VStr (i_content i))
       ∧ task !! "source" = Some (VStr "insight_promotion")
       ∧ task !! "title" = Some (VStr ("[From Insight] " +:+ cut))
       ∧ i_content i = cut +:+ rest
       ∧ code_points cut = (100 `min` code_points (i_content i))%nat
       ∧ (∀ c rest', rest = String c rest' → continuation c = false)
       ∧ (Forall (λ c, (Ascii.nat_of_ascii c < 128)%nat)
            (String.list_ascii_of_string (i_content i)) →
          String.length cut = (100 `min` String.length (i_content i))%nat)
       ∧ workforce_tasks w' = workforce_tasks w ++ [task]
       ∧ ∃ i', first_insight insight_id w' = Some i'
               ∧ i_promoted_to_task_id i' = VStr new_id
               ∧ i_promoted_at i' = Some (wall_clock env (3 + clock_reads w))
               ∧ i_content i' = i_content i).
Proof.
  split_and!.
  - intros Hnone%first_insight_none. split.
    + by apply promote_insight_to_task_not_found.
    + intros ->. unfold promote_insight. simpl.
      by apply promote_insight_to_task_not_found.
  - intros Hne%String.eqb_neq. unfold promote_insight. by rewrite Hne.
  - intros i -> Hi.
    destruct (promote_insight_to_task_returns env w insight_id "jarvis" i Hi)
      as (task & w' & Hrun & Hid & Htitle & Hdesc & Hsrc & _ & _ & Htasks & Hins).
    destruct (str_prefix_split 100 (i_content i)) as (rest & Hsplit & Hrest).
    exists task, w', (uuid_stream env (uuid_draws w)),
           (str_prefix 100 (i_content i)), rest.
    split_and!; [exact Hrun|done|done|done|done|done| |done| |done|].
    { apply str_prefix_code_points. }
    { apply str_prefix_ascii. }
    exists (mark_promoted (VStr (uuid_stream env (uuid_draws w)))
              (wall_clock env (3 + clock_reads w)) i).
    split_and!; [|done ..].
    unfold first_insight in *. rewrite Hins.
    rewrite filter_fmap_stable.
    + rewrite head_fmap_list, Hi. simpl.
      assert (i ∈ List.filter (λ i, String.eqb (i_id i) insight_id)
                    (workforce_insights w)) as Hin.
      { destruct (List.filter _ _); [done|]. injection Hi as ->. left. }
      apply elem_of_filter_bool in Hin as [_ ->]. done.
    + intros x. by destruct (String.eqb (i_id x) insight_id) eqn:Hx.
Qed.

(** The statement for an identifier no insight carries, for an intruder,
    and for the sample insight of 136 code points, whose title keeps the
    first hundred of them, 104 bytes. *)
Lemma C6_witness :
  (promote_insight_to_task Sample.env "u7" "jarvis" Sample.noted
   = (Raises (ValueError ("Insight " +:+ "u7" +:+ " not found")), Sample.noted))
  ∧ (promote_insight Sample.env "u0" "researcher" Sample.noted
     = (Raises (HTTPException 403 "Only Jarvis can promote insights to tasks"),
        Sample.noted))
  ∧ (∃ task w' new_id cut rest,
       promote_insight Sample.env "u0" "jarvis" Sample.briefed = (Returns task, w')
       ∧ task !! "id" = Some (VStr new_id)
       ∧ task !! "title" = Some (VStr ("[From Insight] " +:+ cut))
       ∧ "Café Brûlot doubled its referral bonus to €25 on Monday; sign-ups in Lahore and Karachi rose by a third within the week, mostly students"
         = cut +:+ rest
       ∧ code_points cut = 100%nat
       ∧ (∀ c rest', rest = String c rest' → continuation c = false)
       ∧ workforce_tasks w' = workforce_tasks Sample.briefed ++ [task]).
Proof.
  split_and!.
  - refine (proj1 (proj1 (C6_promote_insight Sample.env Sample.noted "u7" "jarvis") _)).
    apply first_insight_none. reflexivity.
  - refine (proj1 (proj2 (C6_promote_insight Sample.env Sample.noted "u0" "researcher")) _).
    discriminate.
  - destruct (proj2 (proj2 (C6_promote_insight Sample.env Sample.briefed "u0" "jarvis"))
                (default (Build_Insight "" None "" "" "" VNull None 0)
                   (head (workforce_insights Sample.briefed))) eq_refl eq_refl)
      as (task & w' & new_id & cut & rest & Hrun & Hid & _ & _ & Htitle & Hsplit
          & Hcount & Hrest & _ & Htasks & _).
    exists task, w', new_id, cut, rest.
    split_and!; [exact Hrun|exact Hid|exact Htitle|exact Hsplit|exact Hcount
                 |exact Hrest|exact Htasks].
Defined.

(** What the slice keeps of the sample content, and of a text of thirty
    times ["café "]: code points, not bytes. *)
Example str_prefix_code_points_not_bytes :
  str_prefix 100
    "Café Brûlot doubled its referral bonus to €25 on Monday; sign-ups in Lahore and Karachi rose by a third within the week, mostly students"
  = "Café Brûlot doubled its referral bonus to €25 on Monday; sign-ups in Lahore and Karachi rose by a th"
  ∧ String.length
      (str_prefix 100
         "Café Brûlot doubled its referral bonus to €25 on Monday; sign-ups in Lahore and Karachi rose by a third within the week, mostly students")
    = 104%nat
  ∧ str_prefix 3 "café café" = "caf"
  ∧ str_prefix 4 "café café" = "café"
  ∧ str_prefix 5 "café café" = "café "
  ∧ str_prefix 20 "café café" = "café café".
Proof. split_and!; reflexivity. Qed.

(** ** Further properties of the client *)

From Stdlib Require Import Sorted.
From stdpp Require sorting.
Local Open Scope Z_scope.

(** *** Sorting *)

Lemma insert_sorted_perm {A : Type} (le : A → A → bool) (x : A) (l : list A) :
  insert_sorted le x l ≡ₚ x :: l.
Proof.
  induction l as [|y l IH]; simpl; [done|].
  destruct (le x y); [done|]. rewrite IH. apply Permutation_swap.
Qed.

Lemma sort_by_perm {A : Type} (le : A → A → bool) (l : list A) :
  sort_by le l ≡ₚ l.
Proof.
  induction l as [|x l IH]; simpl; [done|].
  unfold sort_by in *. simpl. by rewrite insert_sorted_perm, IH.
Qed.

Lemma strongly_sorted_impl {A : Type} (R S : A → A → Prop) (l : list A) :
  (∀ a b, R a b → S a b) → StronglySorted R l → StronglySorted S l.
Proof.
  intros HRS. induction 1 as [|x l Hs IH Hx]; constructor; [done|].
  eapply Forall_impl; [exact Hx|]. auto.
Qed.

Lemma insert_sorted_sorted {A : Type} (le : A → A → bool) (x : A) (l : list A) :
  (∀ a b, le a b = false → le b a = true) →
  (∀ a b c, le a b = true → le b c = true → le a c = true) →
  StronglySorted (λ a b, le a b = true) l →
  StronglySorted (λ a b, le a b = true) (insert_sorted le x l).
Proof.
  intros Htot Htrans. induction 1 as [|y l Hs IH Hy]; simpl.
  - repeat constructor.
  - destruct (le x y) eqn:Hxy.
    + constructor; [by constructor|].
      constructor; [done|].
      eapply Forall_impl; [exact Hy|]. intros z Hz. by eapply Htrans.
    + constructor; [done|].
      rewrite insert_sorted_perm. constructor; [by apply Htot|done].
Qed.

Lemma sort_by_sorted {A : Type} (le : A → A → bool) (l : list A) :
  (∀ a b, le a b = false → le b a = true) →
  (∀ a b c, le a b = true → le b c = true → le a c = true) →
  StronglySorted (λ a b, le a b = true) (sort_by le l).
Proof.
  intros Htot Htrans. induction l as [|x l IH]; [constructor|].
  unfold sort_by in *. simpl. by apply insert_sorted_sorted.
Qed.

(** The ordering of the claims' queries is the same sort. *)
Lemma order_by_sort_by {A : Type} (key : A → Z) (desc : bool) (l : list A) :
  order_by key desc l
  = sort_by (λ a b, if desc then key b <=? key a else key a <=? key b) l.
Proof.
  unfold order_by, sort_by. induction l as [|x l IH]; [done|].
  simpl. rewrite IH. generalize (foldr (insert_sorted
    (λ a b, if desc then key b <=? key a else key a <=? key b)) [] l).
  intros l'. induction l' as [|y l' IH']; [done|].
  simpl. by rewrite IH'.
Qed.

Lemma order_by_perm {A : Type} (key : A → Z) (desc : bool) (l : list A) :
  order_by key desc l ≡ₚ l.
Proof. rewrite order_by_sort_by. apply sort_by_perm. Qed.

Lemma order_by_asc_sorted {A : Type} (key : A → Z) (l : list A) :
  StronglySorted (λ a b, key a ≤ key b) (order_by key false l).
Proof.
  rewrite order_by_sort_by.
  eapply strongly_sorted_impl; [|apply sort_by_sorted].
  - intros a b. apply Z.leb_le.
  - intros a b H%Z.leb_gt. apply Z.leb_le. lia.
  - intros a b c H1%Z.leb_le H2%Z.leb_le. apply Z.leb_le. lia.
Qed.

Lemma order_by_desc_sorted {A : Type} (key : A → Z) (l : list A) :
  StronglySorted (λ a b, key b ≤ key a) (order_by key true l).
Proof.
  rewrite order_by_sort_by.
  eapply strongly_sorted_impl; [|apply sort_by_sorted].
  - intros a b. apply Z.leb_le.
  - intros a b H%Z.leb_gt. apply Z.leb_le. lia.
  - intros a b c H1%Z.leb_le H2%Z.leb_le. apply Z.leb_le. lia.
Qed.

(** [limit] keeps a prefix: what it drops comes no earlier in the order. *)
Lemma limit_split {A : Type} (R : A → A → Prop) (n : nat) (l : list A) :
  StronglySorted R l →
  length (limit n l) = (n `min` length l)%nat
  ∧ StronglySorted R (limit n l)
  ∧ limit n l ++ drop n l = l
  ∧ ∀ a b, a ∈ limit n l → b ∈ drop n l → R a b.
Proof.
  unfold limit. intros Hs. split_and!.
  - apply length_take.
  - rewrite <- (take_drop n l) in Hs. by apply sorting.StronglySorted_app_1_l in Hs.
  - apply take_drop.
  - rewrite <- (take_drop n l) in Hs.
    intros a b Ha Hb. by eapply sorting.StronglySorted_app_1_elem_of.
Qed.

(** *** Tasks that do not exist *)

Lemma no_task_get_task (task_id : string) (w : World) :
  no_task task_id w ↔ eval (get_task task_id) w = Returns None.
Proof.
  rewrite get_task_eval. unfold no_task. split.
  - intros H. apply filter_nil_iff in H. by rewrite H.
  - intros H. apply filter_nil_iff. by destruct (List.filter _ _).
Qed.

(** X1. For an identifier that no task row carries, [update_task],
    [approve_task] and [reject_task] all raise the ValueError
    "Task <id> not found"; none of them writes to a table, so no approval
    or rejection is logged ([approve_task] has read the clock once). *)
Theorem X1_unknown_task (env : Env) (w : World) (task_id actor : string)
    (updates : gmap string value) (reason : option string) :
  no_task task_id w →
  let not_found := ValueError ("Task " +:+ task_id +:+ " not found") in
  update_task env task_id actor updates w = (Raises not_found, w)
  ∧ approve_task env task_id actor w = (Raises not_found, tick_clock w)
  ∧ reject_task env task_id actor reason w = (Raises not_found, w)
  ∧ workforce_audit_log (tick_clock w) = workforce_audit_log w
  ∧ workforce_tasks (tick_clock w) = workforce_tasks w.
Proof.
  intros Hno%no_task_get_task not_found. split_and!; [| | |done|done].
  - by apply update_task_not_found.
  - unfold approve_task. erewrite bind_returns by reflexivity.
    erewrite bind_raises; [done|]. by apply update_task_not_found.
  - unfold reject_task. erewrite bind_raises; [done|].
    by apply update_task_not_found.
Qed.

Lemma no_task_scan (task_id : string) (w : World) :
  existsb (row_eq "id" task_id) (workforce_tasks w) = false → no_task task_id w.
Proof.
  intros H r Hin. destruct (row_eq "id" task_id r) eqn:Hr; [|done].
  assert (existsb (row_eq "id" task_id) (workforce_tasks w) = true) as Ht;
    [|congruence].
  apply existsb_exists. exists r. split; [by apply list_elem_of_In|done].
Qed.

(** The statement for an identifier the sample store does not hold. *)
Lemma X1_witness :
  let not_found := ValueError ("Task " +:+ "u9" +:+ " not found") in
  update_task Sample.env "u9" "logan" {[ "priority" := VStr "P0" ]} Sample.one_task
  = (Raises not_found, Sample.one_task)
  ∧ approve_task Sample.env "u9" "logan" Sample.one_task
    = (Raises not_found, tick_clock Sample.one_task)
  ∧ reject_task Sample.env "u9" "logan" None Sample.one_task
    = (Raises not_found, Sample.one_task)
  ∧ workforce_audit_log (tick_clock Sample.one_task)
    = workforce_audit_log Sample.one_task
  ∧ workforce_tasks (tick_clock Sample.one_task) = workforce_tasks Sample.one_task.
Proof.
  apply (X1_unknown_task Sample.env Sample.one_task "u9" "logan"
           {[ "priority" := VStr "P0" ]} None).
  by apply no_task_scan.
Defined.

(** *** What [update_task] checks, logs and leaves alone *)

(** X2. The deliverable and approval checks guard only the step into DONE:
    a patch whose status is not "DONE" (CANCELLED, say, or no status at
    all), or any patch on a task that is already DONE, is applied whatever
    the deliverables and the approval of the task. *)
Theorem X2_gate_only_into_done (env : Env) (w : World) (task_id actor : string)
    (updates T : gmap string value) :
  eval (get_task task_id) w = Returns (Some T) →
  py_eq (dict_get updates "status") (VStr "DONE") = false
  ∨ py_eq (dict_get T "status") (VStr "DONE") = true →
  ∃ w',
    update_task env task_id actor updates w
    = (Returns (Some (patched updates (wall_clock env (clock_reads w))
                        (wall_clock env (S (clock_reads w))) T)), w')
    ∧ ∀ k v, k ≠ "updated_at" → updates !! k = Some v →
             patched updates (wall_clock env (clock_reads w))
               (wall_clock env (S (clock_reads w))) T !! k = Some v.
Proof.
  intros HT Hfree.
  destruct (update_task_returns env w task_id actor updates T HT)
    as (w' & Hrun & _).
  { unfold done_gated. destruct Hfree as [-> | ->]; [done|].
    by rewrite andb_false_r. }
  exists w'. split; [exact Hrun|].
  intros k v Hk Hv. by apply patched_lookup_patch.
Qed.

(** The statement at the sample task, cancelled without any deliverable. *)
Lemma X2_witness :
  ∃ w',
    update_task Sample.env "u0" "jarvis" {[ "status" := VStr "CANCELLED" ]}
      Sample.one_task
    = (Returns (Some (patched {[ "status" := VStr "CANCELLED" ]}
                        (wall_clock Sample.env (clock_reads Sample.one_task))
                        (wall_clock Sample.env (S (clock_reads Sample.one_task)))
                        (default ∅ (head (workforce_tasks Sample.one_task))))), w')
    ∧ ∀ k v, k ≠ "updated_at" →
             ({[ "status" := VStr "CANCELLED" ]} : gmap string value) !! k = Some v →
             patched {[ "status" := VStr "CANCELLED" ]}
               (wall_clock Sample.env (clock_reads Sample.one_task))
               (wall_clock Sample.env (S (clock_reads Sample.one_task)))
               (default ∅ (head (workforce_tasks Sample.one_task))) !! k = Some v.
Proof.
  apply (X2_gate_only_into_done Sample.env Sample.one_task "u0" "jarvis"
           {[ "status" := VStr "CANCELLED" ]}
           (default ∅ (head (workforce_tasks Sample.one_task))) eq_refl).
  left. reflexivity.
Defined.

(** X3. The audit entry of a returning [update_task] records the patch as
    applied, that is with the client's [updated_at], as its new value, and
    as its old value the value each of those keys had in the row before
    ([None] for a key the row lacked): both have exactly the keys of the
    patch plus [updated_at]. *)
Theorem X3_audit_diff (env : Env) (w w' : World) (task_id actor : string)
    (updates : gmap string value) (r : option (gmap string value)) :
  update_task env task_id actor updates w = (Returns r, w') →
  ∃ T a old new,
    eval (get_task task_id) w = Returns (Some T)
    ∧ workforce_audit_log w' = workforce_audit_log w ++ [a]
    ∧ a_actor a = actor
    ∧ a_old_value a = Some old
    ∧ a_new_value a = Some new
    ∧ new = <["updated_at" := VTime (wall_clock env (clock_reads w))]> updates
    ∧ dom old = dom new
    ∧ (∀ k, k ∈ dom new → old !! k = Some (dict_get T k))
    ∧ (∀ k, k ∉ dom new → old !! k = None).
Proof.
  intros Hrun.
  destruct (update_task_returned env _ _ _ _ _ _ Hrun) as (T & HT & Hok).
  destruct (update_task_returns env w task_id actor updates T HT Hok)
    as (w'' & Hrun' & _ & Haudit & _).
  rewrite Hrun in Hrun'. injection Hrun' as _ ->.
  set (new := <["updated_at" := VTime (wall_clock env (clock_reads w))]> updates) in *.
  assert (∀ k, map_imap (λ k (_ : value), Some (dict_get T k)) new !! k
               = (λ _, dict_get T k) <$> new !! k) as Hlook.
  { intros k. rewrite map_lookup_imap. by destruct (new !! k). }
  eexists T, _, _, new. split_and!; [done|exact Haudit|done|done|done|done| | |].
  - apply set_eq. intros k. rewrite !elem_of_dom, Hlook.
    by rewrite fmap_is_Some.
  - intros k [v Hv]%elem_of_dom. by rewrite Hlook, Hv.
  - intros k Hk%not_elem_of_dom. by rewrite Hlook, Hk.
Qed.

(** The statement at the sample task, for a change of priority. *)
Lemma X3_witness :
  ∃ T a old new,
    eval (get_task "u0") Sample.one_task = Returns (Some T)
    ∧ workforce_audit_log
        (exec (update_task Sample.env "u0" "jarvis" {[ "priority" := VStr "P0" ]})
           Sample.one_task)
      = workforce_audit_log Sample.one_task ++ [a]
    ∧ a_actor a = "jarvis"
    ∧ a_old_value a = Some old
    ∧ a_new_value a = Some new
    ∧ new = <["updated_at" := VTime (wall_clock Sample.env (clock_reads Sample.one_task))]>
              {[ "priority" := VStr "P0" ]}
    ∧ dom old = dom new
    ∧ (∀ k, k ∈ dom new → old !! k = Some (dict_get T k))
    ∧ (∀ k, k ∉ dom new → old !! k = None).
Proof.
  eapply X3_audit_diff, run_returns. reflexivity.
Defined.

(** X4. A returning [update_task] rewrites only the rows carrying the
    identifier, and in them only the keys of the patch and [updated_at];
    every other row and every other key is as before, no row is added or
    removed, and the deliverables, insights and autonomy sessions are not
    touched. *)
Theorem X4_update_frame (env : Env) (w w' : World) (task_id actor : string)
    (updates : gmap string value) (r : option (gmap string value)) :
  update_task env task_id actor updates w = (Returns r, w') →
  Forall2 (λ old new,
             if row_eq "id" task_id old
             then (∀ k, k ≠ "updated_at" → updates !! k = None →
                        new !! k = old !! k)
                  ∧ (∀ k v, k ≠ "updated_at" → updates !! k = Some v →
                            new !! k = Some v)
                  ∧ new !! "updated_at"
                    = Some (VTime (wall_clock env (S (clock_reads w))))
             else new = old)
    (workforce_tasks w) (workforce_tasks w')
  ∧ length (workforce_tasks w') = length (workforce_tasks w)
  ∧ workforce_deliverables w' = workforce_deliverables w
  ∧ workforce_insights w' = workforce_insights w
  ∧ workforce_autonomy_sessions w' = workforce_autonomy_sessions w.
Proof.
  intros Hrun.
  destruct (update_task_returned env _ _ _ _ _ _ Hrun) as (T & HT & Hok).
  destruct (update_task_returns env w task_id actor updates T HT Hok)
    as (w'' & Hrun' & Htasks & _ & _ & Hdel & Hins & Hses & _).
  rewrite Hrun in Hrun'. injection Hrun' as _ ->.
  split_and!; [|by rewrite Htasks, length_fmap|done ..].
  rewrite Htasks. apply Forall2_fmap_r, Forall_Forall2_diag, Forall_forall.
  intros old _. simpl. destruct (row_eq "id" task_id old); [|reflexivity].
  split_and!.
  - intros k Hk Hnone. by apply patched_lookup_frame.
  - intros k v Hk Hv. by apply patched_lookup_patch.
  - unfold patched. apply lookup_insert_eq.
Qed.

(** The statement at the sample task, for a change of owner. *)
Lemma X4_witness :
  let updates : gmap string value := {[ "owner_agent" := VStr "researcher" ]} in
  let w' := exec (update_task Sample.env "u0" "jarvis" updates) Sample.delivered in
  Forall2 (λ old new,
             if row_eq "id" "u0" old
             then (∀ k, k ≠ "updated_at" → updates !! k = None →
                        new !! k = old !! k)
                  ∧ (∀ k v, k ≠ "updated_at" → updates !! k = Some v →
                            new !! k = Some v)
                  ∧ new !! "updated_at"
                    = Some (VTime (wall_clock Sample.env (S (clock_reads Sample.delivered))))
             else new = old)
    (workforce_tasks Sample.delivered) (workforce_tasks w')
  ∧ length (workforce_tasks w') = length (workforce_tasks Sample.delivered)
  ∧ workforce_deliverables w' = workforce_deliverables Sample.delivered
  ∧ workforce_insights w' = workforce_insights Sample.delivered
  ∧ workforce_autonomy_sessions w' = workforce_autonomy_sessions Sample.delivered.
Proof.
  eapply X4_update_frame, run_returns. reflexivity.
Defined.

(** *** Creating and reading back *)

Lemma head_filter_snoc {A : Type} (p : A → bool) (l : list A) (x : A) :
  head (List.filter p (l ++ [x]))
  = match head (List.filter p l) with
    | Some y => Some y
    | None => if p x then Some x else None
    end.
Proof.
  rewrite List.filter_app. simpl.
  destruct (List.filter p l); simpl; [|done]. by destruct (p x).
Qed.

Lemma row_eq_id (r : gmap string value) (id : string) :
  r !! "id" = Some (VStr id) → row_eq "id" id r = true.
Proof. intros H. unfold row_eq. rewrite H. apply String.eqb_refl. Qed.

(** X5. [create_task] returns the row it appended, in BACKLOG and with no
    approval recorded whatever the arguments; tasks already stored are read
    back as before; when the identifier drawn is not in use, [get_task] on
    it returns that row, and while no deliverable names it, it cannot be
    moved to DONE. *)
Theorem X5_create_then_get (env : Env) (w : World) (kw : create_task_kw.t)
    (actor : string) :
  let id := uuid_stream env (uuid_draws w) in
  ∃ task w',
    create_task env kw w = (Returns task, w')
    ∧ workforce_tasks w' = workforce_tasks w ++ [task]
    ∧ task !! "id" = Some (VStr id)
    ∧ task !! "status" = Some (VStr "BACKLOG")
    ∧ task !! "approved_by" = Some VNull
    ∧ task !! "approved_at" = Some VNull
    ∧ (∀ id' T, eval (get_task id') w = Returns (Some T) →
                eval (get_task id') w' = Returns (Some T))
    ∧ (no_task id w → eval (get_task id) w' = Returns (Some task))
    ∧ (no_task id w → no_deliverable id w →
       update_task env id actor {[ "status" := VStr "DONE" ]} w'
       = (Raises (ValueError "Cannot mark task DONE without at least one deliverable"),
          w')).
Proof.
  intros id.
  destruct (create_task_returns env w kw)
    as (task & w' & a & e & Hrun & Hid & _ & _ & _ & _ & Hst & Htasks & _ & _ & _
        & _ & _ & _ & Hdel & _).
  assert (task !! "approved_by" = Some VNull ∧ task !! "approved_at" = Some VNull)
    as [Hby Hat].
  { revert Hrun. unfold create_task. db_run. intros [= <- _]. by split. }
  assert (no_task id w → eval (get_task id) w' = Returns (Some task)) as Hget.
  { intros Hno. apply get_task_eval. rewrite Htasks, head_filter_snoc.
    apply filter_nil_iff in Hno. rewrite Hno. simpl.
    by rewrite (row_eq_id task id Hid). }
  exists task, w'. split_and!; [done ..| |done|].
  - intros id' T HT%get_task_eval. apply get_task_eval.
    by rewrite Htasks, head_filter_snoc, HT.
  - intros Hno Hnd. eapply update_task_no_deliverable; [by apply Hget| |].
    + unfold done_gated, dict_get. rewrite lookup_singleton_eq, Hst. done.
    + unfold no_deliverable. by rewrite Hdel.
Qed.

(** The statement on the empty store. *)
Lemma X5_witness :
  ∃ task w',
    create_task Sample.env (create_task_kw.defaults "write report") Sample.empty
    = (Returns task, w')
    ∧ workforce_tasks w' = workforce_tasks Sample.empty ++ [task]
    ∧ task !! "id" = Some (VStr (uuid_stream Sample.env (uuid_draws Sample.empty)))
    ∧ task !! "status" = Some (VStr "BACKLOG")
    ∧ eval (get_task (uuid_stream Sample.env (uuid_draws Sample.empty))) w'
      = Returns (Some task)
    ∧ update_task Sample.env (uuid_stream Sample.env (uuid_draws Sample.empty))
        "jarvis" {[ "status" := VStr "DONE" ]} w'
      = (Raises (ValueError "Cannot mark task DONE without at least one deliverable"),
         w').
Proof.
  destruct (X5_create_then_get Sample.env Sample.empty
              (create_task_kw.defaults "write report") "jarvis")
    as (task & w' & Hrun & Htasks & Hid & Hst & _ & _ & _ & Hget & Hdone).
  assert (no_task (uuid_stream Sample.env (uuid_draws Sample.empty)) Sample.empty)
    as Hno by (by apply no_task_scan).
  assert (no_deliverable (uuid_stream Sample.env (uuid_draws Sample.empty)) Sample.empty)
    as Hnd by (by apply no_deliverable_scan).
  exists task, w'. split_and!; [done ..|by apply Hget|by apply Hdone].
Defined.

(** *** Deliverables *)

(** X6. [get_deliverables] returns exactly the deliverables whose
    [task_id] is the one asked for, each as often as it is stored, oldest
    first; it writes nothing. *)
Theorem X6_get_deliverables (w : World) (task_id : string) :
  ∃ l,
    get_deliverables task_id w = (Returns l, w)
    ∧ l ≡ₚ List.filter (λ d, String.eqb (d_task_id d) task_id)
             (workforce_deliverables w)
    ∧ (∀ d, d ∈ l ↔ d ∈ workforce_deliverables w ∧ d_task_id d = task_id)
    ∧ StronglySorted (λ a b, d_created_at a ≤ d_created_at b) l.
Proof.
  eexists. split_and!; [reflexivity|apply order_by_perm| |apply order_by_asc_sorted].
  intros d. rewrite order_by_perm, elem_of_filter_bool.
  by rewrite String.eqb_eq.
Qed.

(** X7. Attaching a deliverable is what opens the way to DONE: on a task
    that is not DONE and has no approval pending, [add_deliverable] followed
    by [update_task] with [{status: DONE}] returns the task as DONE, whether
    or not it had deliverables before; the new deliverable is among those
    [get_deliverables] lists for the task, and the task row is not touched
    by the attachment. *)
Theorem X7_deliverable_opens_done (env : Env) (w : World)
    (task_id title content created_by content_type actor : string)
    (is_final : bool) (T : gmap string value) :
  eval (get_task task_id) w = Returns (Some T) →
  py_eq (dict_get T "status") (VStr "DONE") = false →
  needs_approval T = false →
  ∃ d w1 l T' w2,
    add_deliverable env task_id title content created_by content_type is_final w
    = (Returns d, w1)
    ∧ workforce_tasks w1 = workforce_tasks w
    ∧ eval (get_deliverables task_id) w1 = Returns l
    ∧ d ∈ l
    ∧ d_task_id d = task_id ∧ d_content d = content ∧ d_is_final d = is_final
    ∧ update_task env task_id actor {[ "status" := VStr "DONE" ]} w1
      = (Returns (Some T'), w2)
    ∧ T' !! "status" = Some (VStr "DONE").
Proof.
  intros HT Hst Ha.
  set (d := {| d_id := uuid_stream env (uuid_draws w); d_task_id := task_id;
               d_title := title; d_content := content;
               d_content_type := content_type; d_created_by := created_by;
               d_is_final := is_final;
               d_created_at := wall_clock env (clock_reads w) |}).
  set (w1 := exec (add_deliverable env task_id title content created_by
                     content_type is_final) w).
  assert (workforce_deliverables w1 = workforce_deliverables w ++ [d]) as Hdel by done.
  assert (eval (get_task task_id) w1 = Returns (Some T)) as HT1 by exact HT.
  assert (has_deliverable task_id w1) as Hhas.
  { exists d. split; [|done]. rewrite Hdel. apply elem_of_app. right. left. }
  destruct (update_task_returns env w1 task_id actor {[ "status" := VStr "DONE" ]} T HT1)
    as (w2 & Hrun & _); [done|].
  exists d, w1. eexists _, _, w2.
  split_and!; [by apply run_returns|done|reflexivity| |done|done|done|exact Hrun|].
  - rewrite order_by_perm, elem_of_filter_bool, Hdel. split.
    + apply elem_of_app. right. left.
    + apply String.eqb_refl.
  - by apply patched_lookup_patch.
Qed.

(** The statement at the sample task. *)
Lemma X7_witness :
  ∃ d w1 l T' w2,
    add_deliverable Sample.env "u0" "report" "text of the report" "researcher"
      "markdown" true Sample.one_task = (Returns d, w1)
    ∧ workforce_tasks w1 = workforce_tasks Sample.one_task
    ∧ eval (get_deliverables "u0") w1 = Returns l
    ∧ d ∈ l
    ∧ d_task_id d = "u0" ∧ d_content d = "text of the report" ∧ d_is_final d = true
    ∧ update_task Sample.env "u0" "researcher" {[ "status" := VStr "DONE" ]} w1
      = (Returns (Some T'), w2)
    ∧ T' !! "status" = Some (VStr "DONE").
Proof.
  exact (X7_deliverable_opens_done Sample.env Sample.one_task "u0" "report"
           "text of the report" "researcher" "markdown" "researcher" true
           (default ∅ (head (workforce_tasks Sample.one_task)))
           eq_refl eq_refl eq_refl).
Defined.

(** *** Events *)

(** X8. [get_unprocessed_events] returns unprocessed events only, at most
    [limit] of them, oldest first, and the ones it leaves out are no older
    than any it returns; with a limit that covers them it returns every
    unprocessed event. It writes nothing, so an event stays deliverable
    until it is acknowledged. *)
Theorem X8_get_unprocessed_events (w : World) (limit_ : nat) :
  ∃ l rest,
    get_unprocessed_events limit_ w = (Returns l, w)
    ∧ length l = (limit_ `min`
                  length (List.filter (λ e, negb (e_processed e)) (workforce_events w)))%nat
    ∧ l ++ rest ≡ₚ List.filter (λ e, negb (e_processed e)) (workforce_events w)
    ∧ (∀ e, e ∈ l → e ∈ workforce_events w ∧ e_processed e = false)
    ∧ StronglySorted (λ a b, e_created_at a ≤ e_created_at b) l
    ∧ (∀ a b, a ∈ l → b ∈ rest → e_created_at a ≤ e_created_at b).
Proof.
  set (pending := List.filter (λ e, negb (e_processed e)) (workforce_events w)).
  destruct (limit_split (λ a b, e_created_at a ≤ e_created_at b) limit_
              (order_by e_created_at false pending) (order_by_asc_sorted _ _))
    as (Hlen & Hsorted & Happ & Hcut).
  exists (limit limit_ (order_by e_created_at false pending)),
         (drop limit_ (order_by e_created_at false pending)).
  split_and!; [done| |by rewrite Happ, order_by_perm| |done|done].
  - rewrite Hlen. f_equal. apply Permutation_length, order_by_perm.
  - intros e He.
    assert (e ∈ pending) as Hin.
    { rewrite <- (order_by_perm e_created_at false pending), <- Happ.
      apply elem_of_app. by left. }
    apply elem_of_filter_bool in Hin as [Hin Hp].
    split; [done|]. by destruct (e_processed e).
Qed.

Lemma filter_fmap_bool {A : Type} (p : A → bool) (f : A → A) (l : list A) :
  List.filter p (f <$> l) = f <$> List.filter (λ x, p (f x)) l.
Proof.
  induction l as [|x l IH]; [done|].
  rewrite fmap_cons. cbn [List.filter].
  destruct (p (f x)); rewrite ?fmap_cons; by rewrite IH.
Qed.

Lemma fmap_fixed {A : Type} (f : A → A) (l : list A) :
  (∀ x, x ∈ l → f x = x) → f <$> l = l.
Proof.
  induction l as [|x l IH]; [done|]. intros H.
  rewrite fmap_cons, H by left. rewrite IH; [done|].
  intros y Hy. apply H. by right.
Qed.

Lemma elem_of_take_1 {A : Type} (n : nat) (l : list A) (x : A) :
  x ∈ limit n l → x ∈ l.
Proof.
  unfold limit. intros H. rewrite <- (take_drop n l). apply elem_of_app. by left.
Qed.

(** X9. [mark_event_processed] stamps every event carrying the identifier
    as processed, by the consumer given and at the time of the call,
    whether or not it was processed before (a second acknowledgement
    overwrites the first); all other events, and the number of events, stay
    as they are, and an unknown identifier changes nothing and raises
    nothing. Afterwards [get_unprocessed_events] never returns an event with
    that identifier, and returns the other unprocessed events as before. The
    acknowledgement is not audited. *)
Theorem X9_mark_event_processed (env : Env) (w : World)
    (event_id processed_by : string) (limit_ : nat) :
  let now := wall_clock env (clock_reads w) in
  ∃ w',
    mark_event_processed env event_id processed_by w = (Returns tt, w')
    ∧ Forall2 (λ old new,
                 if String.eqb (e_id old) event_id
                 then new = acked now processed_by old
                 else new = old)
        (workforce_events w) (workforce_events w')
    ∧ ((∀ e, e ∈ workforce_events w → e_id e ≠ event_id) →
       workforce_events w' = workforce_events w)
    ∧ (∀ e, e ∈ workforce_events w' → e_id e = event_id →
            e_processed e = true ∧ e_processed_by e = Some processed_by
            ∧ e_processed_at e = Some now)
    ∧ workforce_audit_log w' = workforce_audit_log w
    ∧ workforce_tasks w' = workforce_tasks w
    ∧ ∃ l, eval (get_unprocessed_events limit_) w' = Returns l
           ∧ (∀ e, e ∈ l → e_id e ≠ event_id)
           ∧ l = limit limit_
                   (order_by e_created_at false
                      (List.filter (λ e, negb (e_processed e)
                                         && negb (String.eqb (e_id e) event_id))
                         (workforce_events w))).
Proof.
  intros now.
  set (ack := λ e, if String.eqb (e_id e) event_id
                   then acked now processed_by e else e).
  set (others := λ e, negb (e_processed e) && negb (String.eqb (e_id e) event_id)).
  assert (List.filter (λ e, negb (e_processed e)) (ack <$> workforce_events w)
          = List.filter others (workforce_events w)) as Hpending.
  { rewrite filter_fmap_bool.
    rewrite (filter_ext_bool _ others).
    - apply fmap_fixed. intros e [_ He]%elem_of_filter_bool.
      unfold others in He. apply andb_true_iff in He as [_ He].
      unfold ack. by destruct (String.eqb (e_id e) event_id).
    - intros e. unfold ack, others.
      destruct (String.eqb (e_id e) event_id); simpl.
      + by rewrite andb_false_r.
      + by rewrite andb_true_r. }
  exists (exec (mark_event_processed env event_id processed_by) w).
  split_and!; [done| | | |done|done|].
  - change (Forall2 (λ old new, if String.eqb (e_id old) event_id
                                then new = acked now processed_by old
                                else new = old)
              (workforce_events w) (ack <$> workforce_events w)).
    apply Forall2_fmap_r, Forall_Forall2_diag, Forall_forall.
    intros e _. unfold ack. simpl.
    destruct (String.eqb (e_id e) event_id); reflexivity.
  - intros Hnone.
    change (ack <$> workforce_events w = workforce_events w).
    apply fmap_fixed. intros e He. unfold ack.
    specialize (Hnone e He). apply String.eqb_neq in Hnone. by rewrite Hnone.
  - change (∀ e, e ∈ ack <$> workforce_events w → e_id e = event_id →
                 e_processed e = true ∧ e_processed_by e = Some processed_by
                 ∧ e_processed_at e = Some now).
    intros e (e0 & -> & _)%list_elem_of_fmap. unfold ack.
    destruct (String.eqb (e_id e0) event_id) eqn:He0; [done|].
    intros Heq. apply String.eqb_neq in He0. done.
  - eexists. split_and!; [reflexivity| |].
    + change (∀ e, e ∈ limit limit_ (order_by e_created_at false
                (List.filter (λ e, negb (e_processed e))
                   (ack <$> workforce_events w))) → e_id e ≠ event_id).
      rewrite Hpending. intros e He%elem_of_take_1.
      rewrite order_by_perm in He.
      apply elem_of_filter_bool in He as [_ He]. unfold others in He.
      apply andb_true_iff in He as [_ He].
      apply String.eqb_neq. by destruct (String.eqb (e_id e) event_id).
    + change (limit limit_ (order_by e_created_at false
                (List.filter (λ e, negb (e_processed e))
                   (ack <$> workforce_events w)))
              = limit limit_ (order_by e_created_at false
                  (List.filter others (workforce_events w)))).
      by rewrite Hpending.
Qed.

(** The statement at the sample store, whose only event is [u2]. *)
Lemma X9_witness :
  workforce_events (exec (mark_event_processed Sample.env "u9" "poller") Sample.one_task)
  = workforce_events Sample.one_task
  ∧ eval (get_unprocessed_events 100)
      (exec (mark_event_processed Sample.env "u2" "poller") Sample.one_task)
    = Returns [].
Proof.
  split.
  - destruct (X9_mark_event_processed Sample.env Sample.one_task "u9" "poller" 100)
      as (w' & Hrun & _ & Hnone & _).
    unfold exec. rewrite Hrun. apply Hnone.
    intros e He Heq. vm_compute in He.
    apply elem_of_cons in He as [-> | He]; [discriminate|].
    by apply elem_of_nil in He.
  - destruct (X9_mark_event_processed Sample.env Sample.one_task "u2" "poller" 100)
      as (w' & Hrun & _ & _ & _ & _ & _ & l & Hl & _ & Heq).
    unfold exec. rewrite Hrun. simpl. rewrite Hl. f_equal. rewrite Heq. reflexivity.
Defined.

Lemma limit_all {A : Type} (n : nat) (l : list A) :
  (length l ≤ n)%nat → limit n l = l.
Proof. unfold limit. apply take_ge. Qed.

(** X10. [create_task] emits exactly one event, TASK_CREATED, unprocessed,
    with payload [{task_id, owner_agent, priority}] naming the task it
    created, and leaves deliverables, insights and sessions alone; a poller
    whose limit exceeds the number of events pending before receives it. *)
Theorem X10_create_task_event (env : Env) (w : World) (kw : create_task_kw.t)
    (limit_ : nat) :
  ∃ task w' e,
    create_task env kw w = (Returns task, w')
    ∧ workforce_events w' = workforce_events w ++ [e]
    ∧ e_event_type e = "TASK_CREATED"
    ∧ e_processed e = false
    ∧ e_payload e = {[ "task_id" := dict_get task "id";
                       "owner_agent" := opt_str (create_task_kw.owner_agent kw);
                       "priority" := VStr (create_task_kw.priority kw) ]}
    ∧ workforce_deliverables w' = workforce_deliverables w
    ∧ workforce_insights w' = workforce_insights w
    ∧ workforce_autonomy_sessions w' = workforce_autonomy_sessions w
    ∧ ((length (List.filter (λ e, negb (e_processed e)) (workforce_events w))
        < limit_)%nat →
       ∃ l, eval (get_unprocessed_events limit_) w' = Returns l ∧ e ∈ l).
Proof.
  eexists _, _, _. split_and!.
  - unfold create_task. db_run. reflexivity.
  - reflexivity.
  - reflexivity.
  - reflexivity.
  - reflexivity.
  - reflexivity.
  - reflexivity.
  - reflexivity.
  - intros Hlen. eexists. split; [reflexivity|].
    world_simpl. rewrite List.filter_app. cbn [List.filter e_processed negb].
    rewrite limit_all.
    + rewrite order_by_perm. apply elem_of_app. right. left.
    + rewrite (Permutation_length (order_by_perm _ _ _)), length_app. simpl. lia.
Qed.

(** The statement on the empty store. *)
Lemma X10_witness :
  ∃ task w' e,
    create_task Sample.env (create_task_kw.defaults "write report") Sample.empty
    = (Returns task, w')
    ∧ workforce_events w' = workforce_events Sample.empty ++ [e]
    ∧ e_event_type e = "TASK_CREATED"
    ∧ e_processed e = false
    ∧ ∃ l, eval (get_unprocessed_events 100) w' = Returns l ∧ e ∈ l.
Proof.
  destruct (X10_create_task_event Sample.env Sample.empty
              (create_task_kw.defaults "write report") 100)
    as (task & w' & e & Hrun & Hev & Hty & Hpr & _ & _ & _ & _ & Hpoll).
  exists task, w', e. split_and!; [done ..|]. apply Hpoll. simpl. lia.
Defined.

(** *** Grants of autonomy *)









(** *** Insights *)

(** X13. [get_insights] returns stored insights only, at most [limit] of
    them, newest first, keeping the newest when it cuts; a task filter
    keeps the insights attached to that task (floating ones are left out)
    and an agent filter those of that agent; an empty string as filter is
    no filter. It writes nothing. *)
Theorem X13_get_insights (w : World) (task_id agent : option string) (limit_ : nat) :
  ∃ l rest,
    get_insights task_id agent limit_ w = (Returns l, w)
    ∧ (length l ≤ limit_)%nat
    ∧ l ++ rest ≡ₚ List.filter (insight_matches task_id agent) (workforce_insights w)
    ∧ (∀ i, i ∈ l →
            i ∈ workforce_insights w
            ∧ (∀ t, task_id = Some t → t ≠ "" → i_task_id i = Some t)
            ∧ (∀ a, agent = Some a → a ≠ "" → i_agent i = a))
    ∧ StronglySorted (λ a b, i_created_at b ≤ i_created_at a) l
    ∧ (∀ a b, a ∈ l → b ∈ rest → i_created_at b ≤ i_created_at a)
    ∧ get_insights (Some "") agent limit_ w = get_insights None agent limit_ w
    ∧ get_insights task_id (Some "") limit_ w = get_insights task_id None limit_ w.
Proof.
  set (found := List.filter (insight_matches task_id agent) (workforce_insights w)).
  destruct (limit_split (λ a b, i_created_at b ≤ i_created_at a) limit_
              (order_by i_created_at true found) (order_by_desc_sorted _ _))
    as (Hlen & Hsorted & Happ & Hcut).
  exists (limit limit_ (order_by i_created_at true found)),
         (drop limit_ (order_by i_created_at true found)).
  split_and!; [done|lia|by rewrite Happ, order_by_perm| |done|done|done|done].
  intros i Hi%elem_of_take_1. rewrite order_by_perm in Hi.
  apply elem_of_filter_bool in Hi as [Hin Hm]. split; [done|].
  unfold insight_matches in Hm. apply andb_true_iff in Hm as [Ht Ha]. split.
  - intros t -> Hne. apply String.eqb_neq in Hne. simpl in Ht. rewrite Hne in Ht.
    simpl in Ht. destruct (i_task_id i) as [t'|]; [|done].
    by apply String.eqb_eq in Ht as ->.
  - intros a -> Hne. apply String.eqb_neq in Hne. simpl in Ha. rewrite Hne in Ha.
    simpl in Ha. by apply String.eqb_eq in Ha.
Qed.

Section PromotionRuns.

Variable env : Env.

(** The whole effect of a promotion. *)
Lemma promote_insight_to_task_run (w : World) (insight_id promoted_by : string)
    (i : Insight) :
  first_insight insight_id w = Some i →
  let new_id := uuid_stream env (uuid_draws w) in
  ∃ task w' a e,
    promote_insight_to_task env insight_id promoted_by w = (Returns task, w')
    ∧ task !! "id" = Some (VStr new_id)
    ∧ task !! "description" = Some (VStr (i_content i))
    ∧ workforce_tasks w' = workforce_tasks w ++ [task]
    ∧ workforce_insights w'
      = (λ i, if String.eqb (i_id i) insight_id
              then mark_promoted (VStr new_id) (wall_clock env (3 + clock_reads w)) i
              else i) <$> workforce_insights w
    ∧ workforce_audit_log w' = workforce_audit_log w ++ [a]
    ∧ a_event_type a = "TASK_CREATED" ∧ a_entity_type a = "task"
    ∧ a_entity_id a = new_id ∧ a_actor a = promoted_by
    ∧ workforce_events w' = workforce_events w ++ [e]
    ∧ e_event_type e = "TASK_CREATED"
    ∧ uuid_draws w' = (3 + uuid_draws w)%nat
    ∧ clock_reads w' = (4 + clock_reads w)%nat.
Proof.
  intros Hi new_id. unfold first_insight in Hi.
  destruct (List.filter (λ i, String.eqb (i_id i) insight_id) (workforce_insights w))
    as [|i0 rest] eqn:Hf; [done|]. injection Hi as ->.
  eexists _, _, _, _. split_and!.
  - unfold promote_insight_to_task, create_task. db_run. rewrite Hf. reflexivity.
  - reflexivity.
  - reflexivity.
  - reflexivity.
  - reflexivity.
  - reflexivity.
  - reflexivity.
  - reflexivity.
  - reflexivity.
  - reflexivity.
  - reflexivity.
  - reflexivity.
  - reflexivity.
  - reflexivity.
Qed.

Lemma first_insight_promoted (w w' : World) (insight_id : string) (i : Insight)
    (new_id : value) (now : Z) :
  first_insight insight_id w = Some i →
  workforce_insights w'
  = (λ i, if String.eqb (i_id i) insight_id then mark_promoted new_id now i else i)
      <$> workforce_insights w →
  first_insight insight_id w' = Some (mark_promoted new_id now i).
Proof.
  unfold first_insight. intros Hi ->.
  rewrite filter_fmap_stable.
  - rewrite head_fmap_list, Hi. simpl.
    assert (i ∈ List.filter (λ i, String.eqb (i_id i) insight_id)
                  (workforce_insights w)) as Hin.
    { destruct (List.filter _ _); [done|]. injection Hi as ->. left. }
    apply elem_of_filter_bool in Hin as [_ ->]. done.
  - intros x. by destruct (String.eqb (i_id x) insight_id) eqn:Hx.
Qed.

End PromotionRuns.

(** X14. Nothing stops a second promotion: promoting an insight that was
    already promoted returns again, a second task with the same description
    is appended under a new identifier, and the insight then points to the
    second task only. *)
Theorem X14_promote_twice (env : Env) (w : World) (insight_id : string) (i : Insight) :
  first_insight insight_id w = Some i →
  ∃ task1 w1 task2 w2 i2,
    promote_insight env insight_id "jarvis" w = (Returns task1, w1)
    ∧ promote_insight env insight_id "jarvis" w1 = (Returns task2, w2)
    ∧ workforce_tasks w2 = workforce_tasks w ++ [task1; task2]
    ∧ task1 !! "id" = Some (VStr (uuid_stream env (uuid_draws w)))
    ∧ task2 !! "id" = Some (VStr (uuid_stream env (3 + uuid_draws w)))
    ∧ task1 !! "description" = Some (VStr (i_content i))
    ∧ task2 !! "description" = Some (VStr (i_content i))
    ∧ first_insight insight_id w2 = Some i2
    ∧ i_promoted_to_task_id i2 = VStr (uuid_stream env (3 + uuid_draws w))
    ∧ i_promoted_at i2 = Some (wall_clock env (7 + clock_reads w)).
Proof.
  intros Hi.
  destruct (promote_insight_to_task_run env w insight_id "jarvis" i Hi)
    as (t1 & w1 & a1 & e1 & Hrun1 & Hid1 & Hd1 & Htasks1 & Hins1 & _ & _ & _ & _ & _
        & _ & _ & Hu1 & Hc1).
  pose proof (first_insight_promoted w w1 insight_id i _ _ Hi Hins1) as Hi1.
  destruct (promote_insight_to_task_run env w1 insight_id "jarvis" _ Hi1)
    as (t2 & w2 & a2 & e2 & Hrun2 & Hid2 & Hd2 & Htasks2 & Hins2 & _).
  pose proof (first_insight_promoted w1 w2 insight_id _ _ _ Hi1 Hins2) as Hi2.
  rewrite Hu1 in Hid2, Hi2. rewrite Hc1 in Hi2.
  eexists t1, w1, t2, w2, _.
  split_and!; [exact Hrun1|exact Hrun2| |done|done|done|done|exact Hi2|done|done].
  by rewrite Htasks2, Htasks1, <- app_assoc.
Qed.

(** The statement at the sample insight. *)
Lemma X14_witness :
  ∃ task1 w1 task2 w2 i2,
    promote_insight Sample.env "u0" "jarvis" Sample.noted = (Returns task1, w1)
    ∧ promote_insight Sample.env "u0" "jarvis" w1 = (Returns task2, w2)
    ∧ workforce_tasks w2 = workforce_tasks Sample.noted ++ [task1; task2]
    ∧ task1 !! "id" = Some (VStr (uuid_stream Sample.env (uuid_draws Sample.noted)))
    ∧ task2 !! "id" = Some (VStr (uuid_stream Sample.env (3 + uuid_draws Sample.noted)))
    ∧ task1 !! "description"
      = Some (VStr "Competitor launched a referral programme this week")
    ∧ task2 !! "description"
      = Some (VStr "Competitor launched a referral programme this week")
    ∧ first_insight "u0" w2 = Some i2
    ∧ i_promoted_to_task_id i2
      = VStr (uuid_stream Sample.env (3 + uuid_draws Sample.noted))
    ∧ i_promoted_at i2 = Some (wall_clock Sample.env (7 + clock_reads Sample.noted)).
Proof.
  exact (X14_promote_twice Sample.env Sample.noted "u0"
           (default (Build_Insight "" None "" "" "" VNull None 0)
              (head (workforce_insights Sample.noted))) eq_refl).
Defined.

(** X15. A promotion is audited as the creation of a task and nothing
    else: it appends one audit entry, TASK_CREATED on the new task with the
    promoter as actor, and one TASK_CREATED event; the change made to the
    insight leaves no audit entry. *)
Theorem X15_promotion_audit (env : Env) (w : World) (insight_id promoted_by : string)
    (i : Insight) :
  first_insight insight_id w = Some i →
  ∃ task w' a e,
    promote_insight_to_task env insight_id promoted_by w = (Returns task, w')
    ∧ workforce_audit_log w' = workforce_audit_log w ++ [a]
    ∧ a_event_type a = "TASK_CREATED"
    ∧ a_entity_type a = "task"
    ∧ task !! "id" = Some (VStr (a_entity_id a))
    ∧ a_actor a = promoted_by
    ∧ workforce_events w' = workforce_events w ++ [e]
    ∧ e_event_type e = "TASK_CREATED"
    ∧ ∃ i', first_insight insight_id w' = Some i'
            ∧ i_promoted_to_task_id i' = VStr (a_entity_id a)
            ∧ i_id i' = i_id i.
Proof.
  intros Hi.
  destruct (promote_insight_to_task_run env w insight_id promoted_by i Hi)
    as (task & w' & a & e & Hrun & Hid & _ & _ & Hins & Haudit & Hty & Hent & Heid
        & Hact & Hev & Hety & _).
  pose proof (first_insight_promoted w w' insight_id i _ _ Hi Hins) as Hi'.
  exists task, w', a, e. rewrite Heid.
  split_and!; [done ..|].
  eexists. split_and!; [exact Hi'|done|done].
Qed.

(** The statement at the sample insight, promoted by another actor than
    the router. *)
Lemma X15_witness :
  ∃ task w' a e,
    promote_insight_to_task Sample.env "u0" "chief_of_staff" Sample.noted
    = (Returns task, w')
    ∧ workforce_audit_log w' = workforce_audit_log Sample.noted ++ [a]
    ∧ a_event_type a = "TASK_CREATED"
    ∧ a_entity_type a = "task"
    ∧ task !! "id" = Some (VStr (a_entity_id a))
    ∧ a_actor a = "chief_of_staff"
    ∧ workforce_events w' = workforce_events Sample.noted ++ [e]
    ∧ e_event_type e = "TASK_CREATED"
    ∧ ∃ i', first_insight "u0" w' = Some i'
            ∧ i_promoted_to_task_id i' = VStr (a_entity_id a)
            ∧ i_id i' = "u0".
Proof.
  exact (X15_promotion_audit Sample.env Sample.noted "u0" "chief_of_staff"
           (default (Build_Insight "" None "" "" "" VNull None 0)
              (head (workforce_insights Sample.noted))) eq_refl).
Defined.

(** *** Task queries *)

Lemma cell_le_total (a b : option Z) : cell_le a b = false → cell_le b a = true.
Proof.
  destruct a as [x|], b as [y|]; simpl; try done.
  intros H%Z.leb_gt. apply Z.leb_le. lia.
Qed.

Lemma cell_le_trans (a b c : option Z) :
  cell_le a b = true → cell_le b c = true → cell_le a c = true.
Proof.
  destruct a as [x|], b as [y|], c as [z|]; simpl; try done.
  intros H1%Z.leb_le H2%Z.leb_le. apply Z.leb_le. lia.
Qed.

Lemma row_eq_true (col v : string) (r : gmap string value) :
  row_eq col v r = true ↔ r !! col = Some (VStr v).
Proof.
  unfold row_eq. destruct (r !! col) as [[]|]; try (split; done).
  rewrite String.eqb_eq. split; [by intros ->|by intros [= ->]].
Qed.

Lemma get_tasks_run (w : World) (status owner_agent priority : option string)
    (limit_ : nat) :
  get_tasks status owner_agent priority limit_ w
  = (Returns (limit limit_
                (sort_by (newer_first "created_at")
                   (List.filter (task_matches status owner_agent priority)
                      (workforce_tasks w)))), w).
Proof.
  unfold get_tasks, gets. do 3 f_equal.
  rewrite (filter_ext_bool (task_matches status owner_agent priority)
             (λ r, ((if str_truthy status
                     then row_eq "status" (default "" status) r else true)
                    && (if str_truthy owner_agent
                        then row_eq "owner_agent" (default "" owner_agent) r
                        else true))
                   && (if str_truthy priority
                       then row_eq "priority" (default "" priority) r else true)))
    by done.
  rewrite <- !filter_filter_bool.
  destruct (str_truthy status), (str_truthy owner_agent), (str_truthy priority);
    by rewrite ?filter_true.
Qed.

(** X16. [get_tasks] returns stored task rows only, at most [limit] of
    them, newest [created_at] first with rows lacking one ahead, keeping
    the head of that order when it cuts; each filter given keeps the rows
    whose column equals it, and an empty string as filter is no filter. It
    writes nothing, so repeating the call gives the same rows. *)
Theorem X16_get_tasks (w : World) (status owner_agent priority : option string)
    (limit_ : nat) :
  ∃ l rest,
    get_tasks status owner_agent priority limit_ w = (Returns l, w)
    ∧ (length l ≤ limit_)%nat
    ∧ l ++ rest ≡ₚ List.filter (task_matches status owner_agent priority)
                    (workforce_tasks w)
    ∧ (∀ r, r ∈ l →
            r ∈ workforce_tasks w
            ∧ (∀ s, status = Some s → s ≠ "" → r !! "status" = Some (VStr s))
            ∧ (∀ a, owner_agent = Some a → a ≠ "" →
                    r !! "owner_agent" = Some (VStr a))
            ∧ (∀ p, priority = Some p → p ≠ "" → r !! "priority" = Some (VStr p)))
    ∧ StronglySorted (λ a b, newer_first "created_at" a b = true) l
    ∧ (∀ a b, a ∈ l → b ∈ rest → newer_first "created_at" a b = true)
    ∧ get_tasks (Some "") owner_agent priority limit_ w
      = get_tasks None owner_agent priority limit_ w.
Proof.
  set (found := List.filter (task_matches status owner_agent priority)
                  (workforce_tasks w)).
  assert (StronglySorted (λ a b, newer_first "created_at" a b = true)
            (sort_by (newer_first "created_at") found)) as Hs.
  { apply sort_by_sorted.
    - intros a b. apply cell_le_total.
    - intros a b c H1 H2. unfold newer_first in *. by eapply cell_le_trans. }
  destruct (limit_split _ limit_ _ Hs) as (Hlen & Hsorted & Happ & Hcut).
  exists (limit limit_ (sort_by (newer_first "created_at") found)),
         (drop limit_ (sort_by (newer_first "created_at") found)).
  split_and!; [apply get_tasks_run|lia|by rewrite Happ, sort_by_perm| |done|done|done].
  intros r Hr%elem_of_take_1. rewrite sort_by_perm in Hr.
  apply elem_of_filter_bool in Hr as [Hin Hm]. split; [done|].
  unfold task_matches in Hm.
  apply andb_true_iff in Hm as [[Hst Ho]%andb_true_iff Hp].
  split_and!.
  - intros s -> Hne. apply String.eqb_neq in Hne. simpl in Hst. rewrite Hne in Hst.
    by apply row_eq_true in Hst.
  - intros a -> Hne. apply String.eqb_neq in Hne. simpl in Ho. rewrite Hne in Ho.
    by apply row_eq_true in Ho.
  - intros p -> Hne. apply String.eqb_neq in Hne. simpl in Hp. rewrite Hne in Hp.
    by apply row_eq_true in Hp.
Qed.

Lemma row_not_in_true (col : string) (l : list string) (r : gmap string value) :
  row_not_in col l r = true ↔ ∃ s, r !! col = Some (VStr s) ∧ s ∉ l.
Proof.
  unfold row_not_in, str_in.
  destruct (r !! col) as [[| | |s| | |]|]; try (split; [done|by intros (? & [=] & _)]).
  rewrite negb_true_iff. split.
  - intros H. exists s. split; [done|]. intros Hin.
    assert (existsb (String.eqb s) l = true) as Ht; [|congruence].
    apply existsb_exists. exists s.
    split; [by apply list_elem_of_In|apply String.eqb_refl].
  - intros (s' & [= <-] & Hnot).
    destruct (existsb (String.eqb s) l) eqn:He; [|done].
    apply existsb_exists in He as (x & Hx & ->%String.eqb_eq).
    by apply list_elem_of_In in Hx.
Qed.

(** Lexicographic order on two total preorders. *)
Lemma lex_order {A : Type} (le1 le2 lex : A → A → bool) :
  (∀ a b, lex a b = if negb (le1 b a) then true
                    else if negb (le1 a b) then false else le2 a b) →
  (∀ a b, le1 a b = false → le1 b a = true) →
  (∀ a b c, le1 a b = true → le1 b c = true → le1 a c = true) →
  (∀ a b, le2 a b = false → le2 b a = true) →
  (∀ a b c, le2 a b = true → le2 b c = true → le2 a c = true) →
  (∀ a b, lex a b = false → lex b a = true)
  ∧ (∀ a b c, lex a b = true → lex b c = true → lex a c = true).
Proof.
  intros Hlex T1 R1 T2 R2. split.
  - intros a b. rewrite !Hlex.
    pose proof (T1 a b) as H1. pose proof (T1 b a) as H2. pose proof (T2 a b) as H3.
    destruct (le1 a b), (le1 b a); simpl; auto; intros; try discriminate.
    all: try (by (apply H1 || apply H2)).
  - intros a b c. rewrite !Hlex.
    pose proof (R1 a b c) as Q1. pose proof (R1 b c a) as Q2.
    pose proof (R1 c a b) as Q3. pose proof (R1 c b a) as Q4.
    pose proof (R1 b a c) as Q5. pose proof (R1 a c b) as Q6.
    pose proof (T1 a b) as P1. pose proof (T1 b c) as P2. pose proof (T1 a c) as P3.
    pose proof (R2 a b c) as S.
    destruct (le1 a b), (le1 b a), (le1 b c), (le1 c b), (le1 a c), (le1 c a);
      simpl; intros; try done; try (by auto).
    all: repeat match goal with
                | Q : ?x = ?x → ?y = ?y → _ |- _ => specialize (Q eq_refl eq_refl)
                | P : ?x = ?x → _ |- _ => specialize (P eq_refl)
                end; done.
Qed.

Lemma text_le_total (collate : string → string → bool) :
  (∀ a b, collate a b = false → collate b a = true) →
  ∀ a b, text_le collate a b = false → text_le collate b a = true.
Proof. intros H [x|] [y|]; simpl; auto. Qed.

Lemma text_le_trans (collate : string → string → bool) :
  (∀ a b c, collate a b = true → collate b c = true → collate a c = true) →
  ∀ a b c, text_le collate a b = true → text_le collate b c = true →
           text_le collate a c = true.
Proof. intros H [x|] [y|] [z|]; simpl; eauto; done. Qed.

(** X17. [get_tasks_for_agent_run] hands an agent only task rows it owns
    whose status is a text other than DONE and CANCELLED, at most [limit]
    of them (all of them when the limit allows), and writes nothing. When
    the collation of the store is a total preorder the rows come by
    priority, and within a priority most recently updated first. *)
Theorem X17_agent_run_tasks (collate : string → string → bool) (w : World)
    (agent_id : string) (limit_ : nat) :
  let eligible :=
    List.filter (row_not_in "status" ["DONE"; "CANCELLED"])
      (List.filter (row_eq "owner_agent" agent_id) (workforce_tasks w)) in
  ∃ l rest,
    get_tasks_for_agent_run collate agent_id limit_ w = (Returns l, w)
    ∧ length l = (limit_ `min` length eligible)%nat
    ∧ l ++ rest ≡ₚ eligible
    ∧ (∀ r, r ∈ l →
            r ∈ workforce_tasks w
            ∧ r !! "owner_agent" = Some (VStr agent_id)
            ∧ ∃ s, r !! "status" = Some (VStr s) ∧ s ≠ "DONE" ∧ s ≠ "CANCELLED")
    ∧ ((∀ a b, collate a b = false → collate b a = true) →
       (∀ a b c, collate a b = true → collate b c = true → collate a c = true) →
       StronglySorted (λ a b, agent_run_order collate a b = true) l
       ∧ ∀ a b, a ∈ l → b ∈ rest → agent_run_order collate a b = true).
Proof.
  intros eligible.
  exists (limit limit_ (sort_by (agent_run_order collate) eligible)),
         (drop limit_ (sort_by (agent_run_order collate) eligible)).
  split_and!; [done| | | |].
  - unfold limit. rewrite length_take. f_equal.
    apply Permutation_length, sort_by_perm.
  - unfold limit. by rewrite take_drop, sort_by_perm.
  - intros r Hr%elem_of_take_1. rewrite sort_by_perm in Hr.
    apply elem_of_filter_bool in Hr as [Hr Hst].
    apply elem_of_filter_bool in Hr as [Hin Ho].
    split_and!; [done|by apply row_eq_true|].
    apply row_not_in_true in Hst as (s & Hs & Hnot). exists s.
    split_and!; [done| |]; intros ->; apply Hnot.
    + left.
    + right. left.
  - intros Htot Htrans.
    destruct (lex_order
                (λ a b, text_le collate (text_cell a "priority") (text_cell b "priority"))
                (newer_first "updated_at") (agent_run_order collate))
      as [Hlt Hlr].
    { done. }
    { intros a b. by apply text_le_total. }
    { intros a b c. by apply text_le_trans. }
    { intros a b. apply cell_le_total. }
    { intros a b c H1 H2. unfold newer_first in *. by eapply cell_le_trans. }
    destruct (limit_split (λ a b, agent_run_order collate a b = true) limit_
                (sort_by (agent_run_order collate) eligible))
      as (_ & Hsorted & _ & Hcut); [by apply sort_by_sorted|done].
Qed.

Lemma bytes_le_total (a b : string) : bytes_le a b = false → bytes_le b a = true.
Proof.
  revert b. induction a as [|x a IH]; intros [|y b]; simpl; try done.
  destruct (Nat.ltb_spec (Ascii.nat_of_ascii x) (Ascii.nat_of_ascii y)) as [H1|H1];
    [done|].
  destruct (Nat.ltb_spec (Ascii.nat_of_ascii y) (Ascii.nat_of_ascii x)) as [H2|H2];
    [done|].
  apply IH.
Qed.

Lemma bytes_le_trans (a b c : string) :
  bytes_le a b = true → bytes_le b c = true → bytes_le a c = true.
Proof.
  revert b c. induction a as [|x a IH]; intros [|y b] [|z c]; simpl; try done.
  destruct (Nat.ltb_spec (Ascii.nat_of_ascii x) (Ascii.nat_of_ascii y)) as [H1|H1],
           (Nat.ltb_spec (Ascii.nat_of_ascii y) (Ascii.nat_of_ascii z)) as [H2|H2],
           (Nat.ltb_spec (Ascii.nat_of_ascii x) (Ascii.nat_of_ascii z)) as [H3|H3];
    try done; try lia.
  all: destruct (Nat.ltb_spec (Ascii.nat_of_ascii y) (Ascii.nat_of_ascii x)) as [H4|H4];
    try done; try lia.
  all: destruct (Nat.ltb_spec (Ascii.nat_of_ascii z) (Ascii.nat_of_ascii y)) as [H5|H5];
    try done; try lia.
  all: destruct (Nat.ltb_spec (Ascii.nat_of_ascii z) (Ascii.nat_of_ascii x)) as [H6|H6];
    try done; try lia.
  apply IH.
Qed.

(** The statement for the researcher's three sample tasks under the byte
    order. *)
Lemma X17_witness :
  ∃ (l rest : list (gmap string value)),
    get_tasks_for_agent_run bytes_le "researcher" 10 Fixture.backlog
    = (Returns l, Fixture.backlog)
    ∧ (∀ r, r ∈ l →
            r ∈ workforce_tasks Fixture.backlog
            ∧ r !! "owner_agent" = Some (VStr "researcher")
            ∧ ∃ s, r !! "status" = Some (VStr s) ∧ s ≠ "DONE" ∧ s ≠ "CANCELLED")
    ∧ StronglySorted (λ a b, agent_run_order bytes_le a b = true) l
    ∧ ∀ a b, a ∈ l → b ∈ rest → agent_run_order bytes_le a b = true.
Proof.
  destruct (X17_agent_run_tasks bytes_le Fixture.backlog "researcher" 10)
    as (l & rest & Hrun & _ & _ & Hmem & Hsorted).
  exists l, rest.
  split_and!; [exact Hrun|exact Hmem| |];
    apply Hsorted; (apply bytes_le_total || apply bytes_le_trans).
Defined.

(** There the cancelled task is left out and P0 comes before P2. *)
Example agent_run_sample :
  ∃ l, eval (get_tasks_for_agent_run bytes_le "researcher" 10) Fixture.backlog
       = Returns l
       ∧ (λ r, dict_get r "id") <$> l = [VStr "u3"; VStr "u0"].
Proof. eexists. split; reflexivity. Qed.
(** *** Routes *)

Lemma updates_of_elem (update : api.TaskUpdate.t) (k : string) (v : value) :
  api.updates_of update !! k = Some v →
  (k, Some v) ∈ api.TaskUpdate.dict update.
Proof.
  unfold api.updates_of. intros H%elem_of_list_to_map_2.
  apply list_elem_of_omap in H as ([k' o] & Hin & Hf). simpl in Hf.
  destruct o as [v'|]; [|done]. by injection Hf as <- <-.
Qed.

Lemma updates_of_not_null (update : api.TaskUpdate.t) (k : string) :
  api.updates_of update !! k ≠ Some VNull.
Proof.
  intros H%updates_of_elem. unfold api.TaskUpdate.dict in H.
  repeat (apply elem_of_cons in H as [H|H];
          [injection H as _ H;
           match type of H with
           | _ = ?f <$> ?o => by destruct o
           end|]).
  by apply elem_of_nil in H.
Qed.

Lemma updates_of_keys (update : api.TaskUpdate.t) (k : string) :
  is_Some (api.updates_of update !! k) →
  k ∈ ["title"; "description"; "owner_agent"; "status"; "priority"; "tags";
       "requires_approval"; "due_at"].
Proof.
  intros [v H%updates_of_elem]. unfold api.TaskUpdate.dict in H.
  repeat (apply elem_of_cons in H as [H|H];
          [injection H as -> _; apply list_elem_of_In; simpl; tauto|]).
  by apply elem_of_nil in H.
Qed.

(** X18. The route [PATCH /tasks/{task_id}] hands over only the fields the
    body gives, never a null, so it cannot clear a column: a column that is
    null after a patch through the route was null before. It never lets a
    ValueError out: an unknown task and a refused step to DONE both end in
    HTTPException 400 carrying the message, with the store as it was. *)
Theorem X18_patch_route (env : Env) (w : World) (task_id actor : string)
    (update : api.TaskUpdate.t) :
  (∀ k, api.updates_of update !! k ≠ Some VNull)
  ∧ (no_task task_id w →
     api.update_task env task_id update actor w
     = (Raises (HTTPException 400 ("Task " +:+ task_id +:+ " not found")), w))
  ∧ (∀ e w', api.update_task env task_id update actor w = (Raises e, w') →
             w' = w
             ∧ ∃ msg, e = HTTPException 400 msg
                      ∧ update_task env task_id actor (api.updates_of update) w
                        = (Raises (ValueError msg), w))
  ∧ (∀ r w', api.update_task env task_id update actor w = (Returns r, w') →
     ∃ T T' a,
       eval (get_task task_id) w = Returns (Some T)
       ∧ r = Some T'
       ∧ eval (get_task task_id) w' = Returns (Some T')
       ∧ (∀ k, T' !! k = Some VNull → T !! k = Some VNull)
       ∧ workforce_audit_log w' = workforce_audit_log w ++ [a]
       ∧ a_event_type a = "TASK_UPDATED").
Proof.
  split_and!.
  - apply updates_of_not_null.
  - intros Hno%no_task_get_task. unfold api.update_task.
    by rewrite (update_task_not_found env w task_id actor _ Hno).
  - intros e w' Hrun. unfold api.update_task in Hrun.
    destruct (update_task_cases w task_id (api.updates_of update))
      as [HT|(T & HT & [[Hg Hd]|[(Hg & Hd & Ha)|Hok]])].
    + rewrite (update_task_not_found env w task_id actor _ HT) in Hrun |- *.
      injection Hrun as <- <-. eauto.
    + rewrite (update_task_no_deliverable env w task_id actor _ T HT Hg Hd) in Hrun |- *.
      injection Hrun as <- <-. eauto.
    + rewrite (update_task_unapproved env w task_id actor _ T HT Hg Hd Ha) in Hrun |- *.
      injection Hrun as <- <-. eauto.
    + destruct (update_task_returns env w task_id actor _ T HT Hok) as (w1 & Hr & _).
      by rewrite Hr in Hrun.
  - intros r w' Hrun. unfold api.update_task in Hrun.
    destruct (update_task env task_id actor (api.updates_of update) w)
      as [[r0|e] w0] eqn:Hdb; [|by destruct e].
    injection Hrun as <- <-.
    destruct (update_task_returned env _ _ _ _ _ _ Hdb) as (T & HT & Hok).
    destruct (update_task_returns env w task_id actor _ T HT Hok)
      as (w1 & Hr & Htasks & Haudit & _).
    rewrite Hdb in Hr. injection Hr as -> ->.
    eexists T, _, _. split_and!; [done|done| | |exact Haudit|done].
    + eapply get_task_patched; [|done|exact Htasks].
      destruct (api.updates_of update !! "id") eqn:Hid; [|done].
      assert (is_Some (api.updates_of update !! "id")) as Hs by eauto.
      apply updates_of_keys in Hs.
      repeat (apply elem_of_cons in Hs as [Hs|Hs]; [discriminate|]).
      by apply elem_of_nil in Hs.
    + intros k Hk.
      destruct (decide (k = "updated_at")) as [->|Hne].
      { unfold patched in Hk. by rewrite lookup_insert_eq in Hk. }
      destruct (api.updates_of update !! k) as [v|] eqn:Hv.
      * rewrite (patched_lookup_patch _ _ _ _ k v Hne Hv) in Hk.
        injection Hk as ->. by destruct (updates_of_not_null update k).
      * by rewrite (patched_lookup_frame _ _ _ _ k Hne Hv) in Hk.
Qed.

Lemma run_raises {A : Type} (m : Db A) (w : World) (e : exn) :
  eval m w = Raises e → m w = (Raises e, exec m w).
Proof. unfold eval, exec. destruct (m w) as [o w0]. simpl. by intros ->. Qed.

(** The statement at the sample task: an unknown task, a refused DONE, and
    an empty body. *)
Lemma X18_witness :
  api.update_task Sample.env "u9" (Fixture.body None None) "api" Sample.one_task
  = (Raises (HTTPException 400 ("Task " +:+ "u9" +:+ " not found")), Sample.one_task)
  ∧ (exec (api.update_task Sample.env "u0" (Fixture.body (Some "DONE") None) "api")
       Sample.one_task = Sample.one_task
     ∧ ∃ msg, HTTPException 400 "Cannot mark task DONE without at least one deliverable"
              = HTTPException 400 msg
              ∧ update_task Sample.env "u0" "api"
                  (api.updates_of (Fixture.body (Some "DONE") None)) Sample.one_task
                = (Raises (ValueError msg), Sample.one_task))
  ∧ ∃ r T T' a,
      api.update_task Sample.env "u0" (Fixture.body None None) "api" Sample.one_task
      = (Returns r,
         exec (api.update_task Sample.env "u0" (Fixture.body None None) "api")
           Sample.one_task)
      ∧ eval (get_task "u0") Sample.one_task = Returns (Some T)
      ∧ r = Some T'
      ∧ (∀ k, T' !! k = Some VNull → T !! k = Some VNull)
      ∧ workforce_audit_log
          (exec (api.update_task Sample.env "u0" (Fixture.body None None) "api")
             Sample.one_task)
        = workforce_audit_log Sample.one_task ++ [a]
      ∧ a_event_type a = "TASK_UPDATED".
Proof.
  split; [|split].
  - apply (X18_patch_route Sample.env Sample.one_task "u9" "api" (Fixture.body None None)).
    by apply no_task_scan.
  - destruct (X18_patch_route Sample.env Sample.one_task "u0" "api"
                (Fixture.body (Some "DONE") None)) as (_ & _ & Hfail & _).
    apply Hfail. apply run_raises. reflexivity.
  - destruct (X18_patch_route Sample.env Sample.one_task "u0" "api"
                (Fixture.body None None)) as (_ & _ & _ & Hok).
    assert (∃ r, api.update_task Sample.env "u0" (Fixture.body None None) "api"
                   Sample.one_task
                 = (Returns r,
                    exec (api.update_task Sample.env "u0" (Fixture.body None None) "api")
                      Sample.one_task)) as [r Hrun]
      by (eexists; apply run_returns; reflexivity).
    destruct (Hok r _ Hrun) as (T & T' & a & HT & Hr & _ & Hnull & Haudit & Hty).
    exists r, T, T', a. split_and!; assumption.
Defined.

Lemma assoc_dict_set (d : list (string * value)) (k k' : string) (v : value) :
  assoc k (dict_set d k' v) = if String.eqb k k' then Some v else assoc k d.
Proof.
  induction d as [|[k0 v0] d IH]; simpl.
  - by destruct (String.eqb k k').
  - destruct (String.eqb k' k0) eqn:H0; simpl.
    + apply String.eqb_eq in H0 as ->. by destruct (String.eqb k k0).
    + destruct (String.eqb k k0) eqn:H1.
      * apply String.eqb_eq in H1 as ->.
        rewrite String.eqb_sym in H0. by rewrite H0.
      * by rewrite IH.
Qed.

Lemma assoc_dict_merge_absent (d extra : list (string * value)) (k : string) :
  assoc k extra = None → assoc k (dict_merge d extra) = assoc k d.
Proof.
  unfold dict_merge. revert d. induction extra as [|[k0 v0] extra IH]; intros d; [done|].
  simpl. destruct (String.eqb k k0) eqn:H0; [done|]. intros Hx.
  rewrite (IH _ Hx), assoc_dict_set. by rewrite H0.
Qed.

Lemma assoc_dict_merge_given (d extra : list (string * value)) (k : string) (v : value) :
  NoDup extra.*1 → (k, v) ∈ extra → assoc k (dict_merge d extra) = Some v.
Proof.
  unfold dict_merge. revert d. induction extra as [|[k0 v0] extra IH]; intros d Hnd Hin.
  - by apply elem_of_nil in Hin.
  - apply NoDup_cons in Hnd as [Hk0 Hnd]. simpl.
    apply elem_of_cons in Hin as [[= -> ->]|Hin].
    + assert (assoc k0 extra = None) as Hnone.
      { clear -Hk0. induction extra as [|[k1 v1] extra IH]; [done|]. simpl.
        destruct (String.eqb k0 k1) eqn:H1.
        - apply String.eqb_eq in H1 as ->. exfalso. apply Hk0. left.
        - apply IH. intros H. apply Hk0. by right. }
      pose proof (assoc_dict_merge_absent (dict_set d k0 v0) extra k0 Hnone) as H.
      unfold dict_merge in H. rewrite H, assoc_dict_set. by rewrite String.eqb_refl.
    + by apply IH.
Qed.

(** X19. [POST /intake] turns a message into a task in BACKLOG: the title
    is the first 200 code points of the message (the whole message when it
    has no more), the description the whole message, the source that of the
    message and the assigner the actor; the answer carries the identifier
    of the task. The task's [external_refs]
    are the user and channel of the message overlaid with its metadata, so
    a metadata key [user_id] or [channel_id] replaces the one of the
    message. With null metadata the route raises TypeError before anything
    is written. *)
Theorem X19_intake (env : Env) (w : World) (message : api.IntakeMessage.t)
    (actor : string) :
  (api.IntakeMessage.metadata message = None →
   api.intake env message actor w = (inl api.TypeError, w))
  ∧ (∀ metadata, api.IntakeMessage.metadata message = Some metadata →
     ∃ task w' response refs,
       api.intake env message actor w = (inr response, w')
       ∧ response !! "status" = Some (VStr "received")
       ∧ response !! "task_id" = task !! "id"
       ∧ task !! "id" = Some (VStr (uuid_stream env (uuid_draws w)))
       ∧ workforce_tasks w' = workforce_tasks w ++ [task]
       ∧ task !! "title"
         = Some (VStr (str_prefix 200 (api.IntakeMessage.message message)))
       ∧ code_points (str_prefix 200 (api.IntakeMessage.message message))
         = (200 `min` code_points (api.IntakeMessage.message message))%nat
       ∧ (∃ rest, api.IntakeMessage.message message
                  = str_prefix 200 (api.IntakeMessage.message message) +:+ rest
                  ∧ ∀ c rest', rest = String c rest' → continuation c = false)
       ∧ task !! "description" = Some (VStr (api.IntakeMessage.message message))
       ∧ task !! "source" = Some (VStr (api.IntakeMessage.source message))
       ∧ task !! "assigned_by" = Some (VStr actor)
       ∧ task !! "status" = Some (VStr "BACKLOG")
       ∧ task !! "external_refs" = Some (VDict refs)
       ∧ (assoc "user_id" metadata = None →
          assoc "user_id" refs = Some (opt_str (api.IntakeMessage.user_id message)))
       ∧ (assoc "channel_id" metadata = None →
          assoc "channel_id" refs
          = Some (opt_str (api.IntakeMessage.channel_id message)))
       ∧ (NoDup metadata.*1 → ∀ k v, (k, v) ∈ metadata → assoc k refs = Some v)).
Proof.
  split.
  - intros H. unfold api.intake. by rewrite H.
  - intros metadata H.
    eexists _, _, _, _. split_and!.
    1: { unfold api.intake. rewrite H. unfold create_task. db_run. reflexivity. }
    4: reflexivity.
    all: try reflexivity.
    + apply str_prefix_code_points.
    + apply str_prefix_split.
    + intros Hnone. exact (assoc_dict_merge_absent _ metadata "user_id" Hnone).
    + intros Hnone. exact (assoc_dict_merge_absent _ metadata "channel_id" Hnone).
    + intros Hnd k v Hin. exact (assoc_dict_merge_given _ metadata k v Hnd Hin).
Qed.

(** The statement for the sample message, whose metadata replaces the
    user, and for the same message with null metadata. *)
Lemma X19_witness :
  api.intake Sample.env
    {| api.IntakeMessage.message := "post the weekly numbers";
       api.IntakeMessage.source := "discord";
       api.IntakeMessage.user_id := Some "4411";
       api.IntakeMessage.channel_id := Some "ops";
       api.IntakeMessage.metadata := None |} "api" Sample.empty
  = (inl api.TypeError, Sample.empty)
  ∧ ∃ task w' response refs,
      api.intake Sample.env Fixture.ping "api" Sample.empty = (inr response, w')
      ∧ response !! "task_id" = task !! "id"
      ∧ workforce_tasks w' = workforce_tasks Sample.empty ++ [task]
      ∧ task !! "title" = Some (VStr "post the weekly numbers")
      ∧ task !! "external_refs" = Some (VDict refs)
      ∧ assoc "channel_id" refs = Some (VStr "ops")
      ∧ assoc "user_id" refs = Some (VStr "bot").
Proof.
  split.
  - by apply (X19_intake Sample.env Sample.empty).
  - destruct (X19_intake Sample.env Sample.empty Fixture.ping "api") as [_ Hok].
    destruct (Hok _ eq_refl)
      as (task & w' & response & refs & Hrun & _ & Hid & _ & Htasks & Htitle & _ & _
          & _ & _ & _ & _ & Hrefs & _ & Hch & Hmd).
    exists task, w', response, refs.
    split_and!; [done|done|done|done|done|by apply Hch|].
    apply Hmd.
    + by apply (bool_decide_unpack _).
    + right. left.
Defined.

(** *** The agent registry *)


Lemma row_eq_other (r : gmap string value) (a b : string) :
  a ≠ b → row_eq "id" a r = true → row_eq "id" b r = false.
Proof.
  unfold row_eq. destruct (r !! "id") as [[]|]; try done.
  intros Hne ->%String.eqb_eq. by apply String.eqb_neq.
Qed.

Lemma patch_agents_other (l : list (gmap string value)) (agent_id other : string)
    (updates : gmap string value) (now stamp : Z) :
  updates !! "id" = None → other ≠ agent_id →
  List.filter (row_eq "id" other)
    ((λ r, if row_eq "id" agent_id r then patched updates now stamp r else r) <$> l)
  = List.filter (row_eq "id" other) l.
Proof.
  intros Hid Hne. rewrite filter_fmap_stable.
  - apply fmap_fixed. intros x [_ Hx]%elem_of_filter_bool.
    by rewrite (row_eq_other x other agent_id Hne Hx).
  - intros x. destruct (row_eq "id" agent_id x); [|done]. by apply row_eq_patched.
Qed.

Lemma patch_agents_self (l : list (gmap string value)) (agent_id : string)
    (updates : gmap string value) (now stamp : Z) :
  updates !! "id" = None →
  List.filter (row_eq "id" agent_id)
    ((λ r, if row_eq "id" agent_id r then patched updates now stamp r else r) <$> l)
  = patched updates now stamp <$> List.filter (row_eq "id" agent_id) l.
Proof.
  intros Hid. rewrite filter_fmap_stable.
  - induction l as [|x l IH]; [done|]. simpl.
    destruct (row_eq "id" agent_id x) eqn:Hx; [|exact IH].
    rewrite !fmap_cons, Hx. by rewrite IH.
  - intros x. simpl. destruct (row_eq "id" agent_id x) eqn:Hx; [|done].
    by rewrite row_eq_patched.
Qed.



Lemma ag_run_returns {A : Type} (m : Ag A) (g : Registry) (a : A) :
  ag_eval m g = Returns a → m g = (Returns a, ag_exec m g).
Proof. unfold ag_eval, ag_exec. destruct (m g) as [o g0]. simpl. by intros ->. Qed.

Lemma log_agent_run_run (env : Env) (g : Registry) (agent_id status : string)
    (tasks_processed insights_created : Z) (duration_ms : option Z)
    (error_message : option string) (tokens_used : Z) :
  let now := wall_clock env (clock_reads (core g)) in
  let updates : gmap string value :=
    {[ "last_run_at" := VTime now; "last_run_status" := VStr status ]} in
  let data :=
    {| r_id := uuid_stream env (uuid_draws (core g)); r_agent_id := agent_id;
       r_status := status; r_tasks_processed := tasks_processed;
       r_insights_created := insights_created; r_duration_ms := duration_ms;
       r_error_message := error_message; r_tokens_used := tokens_used;
       r_started_at := now;
       r_completed_at := if negb (String.eqb status "running")
                         then Some now else None |} in
  log_agent_run env agent_id status tasks_processed insights_created duration_ms
    error_message tokens_used g
  = (Returns data,
     {| core := tick_clock (tick_clock (tick_clock (tick_uuid (core g))));
        workforce_agents :=
          (λ r, if row_eq "id" agent_id r
                then patched updates (wall_clock env (S (clock_reads (core g))))
                       (wall_clock env (S (S (clock_reads (core g))))) r
                else r) <$> workforce_agents g;
        workforce_agent_runs := workforce_agent_runs g ++ [data] |}).
Proof. reflexivity. Qed.

(** X21. [log_agent_run] for an agent of the registry appends one run,
    which it returns, under a fresh identifier. The run is complete unless
    its status is ["running"]: [completed_at] is null exactly then, and is
    the start instant otherwise. The agent then reads with the status and
    the start instant of the run as its last run, its other columns but
    [updated_at] as before; other agents read as before. A run is not
    audited and raises no event. *)
Theorem X21_log_agent_run (env : Env) (g : Registry) (agent_id status : string)
    (tasks_processed insights_created : Z) (duration_ms : option Z)
    (error_message : option string) (tokens_used : Z) (A : gmap string value) :
  ag_eval (get_agent agent_id) g = Returns (Some A) →
  ∃ run A' g',
    log_agent_run env agent_id status tasks_processed insights_created duration_ms
      error_message tokens_used g = (Returns run, g')
    ∧ workforce_agent_runs g' = workforce_agent_runs g ++ [run]
    ∧ r_id run = uuid_stream env (uuid_draws (core g))
    ∧ r_agent_id run = agent_id
    ∧ r_status run = status
    ∧ r_started_at run = wall_clock env (clock_reads (core g))
    ∧ (r_completed_at run = None ↔ status = "running")
    ∧ (status ≠ "running" → r_completed_at run = Some (r_started_at run))
    ∧ ag_eval (get_agent agent_id) g' = Returns (Some A')
    ∧ A' !! "last_run_status" = Some (VStr status)
    ∧ A' !! "last_run_at" = Some (VTime (r_started_at run))
    ∧ (∀ k, k ∉ ["last_run_at"; "last_run_status"; "updated_at"] → A' !! k = A !! k)
    ∧ (∀ other, other ≠ agent_id →
       ag_eval (get_agent other) g' = ag_eval (get_agent other) g)
    ∧ workforce_tasks (core g') = workforce_tasks (core g)
    ∧ workforce_audit_log (core g') = workforce_audit_log (core g)
    ∧ workforce_events (core g') = workforce_events (core g).
Proof.
  intros HA. unfold ag_eval, get_agent, ag_gets in HA. simpl in HA.
  injection HA as HA.
  destruct (List.filter (row_eq "id" agent_id) (workforce_agents g)) as [|x l] eqn:Hf;
    [done|]. injection HA as ->.
  set (now := wall_clock env (clock_reads (core g))).
  set (updates := ({[ "last_run_at" := VTime now; "last_run_status" := VStr status ]}
                   : gmap string value)).
  assert (updates !! "id" = None) as Hid by done.
  eexists _, (patched updates (wall_clock env (S (clock_reads (core g))))
                (wall_clock env (S (S (clock_reads (core g))))) A), _.
  split; [apply log_agent_run_run|].
  cbn [workforce_agent_runs workforce_agents core r_id r_agent_id r_status
       r_started_at r_completed_at].
  fold now. fold updates. unfold ag_eval, get_agent, ag_gets.
  cbn [fst workforce_agents].
  split_and!; try done.
  - destruct (String.eqb status "running") eqn:Hs; simpl.
    + by apply String.eqb_eq in Hs.
    + apply String.eqb_neq in Hs. split; [done|by intros ?].
  - intros Hs%String.eqb_neq. by rewrite Hs.
  - by rewrite patch_agents_self, Hf.
  - apply patched_lookup_patch; [done|]. subst updates. by simplify_map_eq.
  - apply patched_lookup_patch; [done|]. subst updates. by simplify_map_eq.
  - intros k Hk. apply patched_lookup_frame.
    + intros ->. apply Hk. apply list_elem_of_In. simpl. tauto.
    + subst updates.
      assert (k ≠ "last_run_at") by (intros ->; apply Hk, list_elem_of_In; simpl; tauto).
      assert (k ≠ "last_run_status")
        by (intros ->; apply Hk, list_elem_of_In; simpl; tauto).
      by simplify_map_eq.
  - intros other Hne. by rewrite patch_agents_other.
Qed.

(** The statement for a run of the sample agent that is still going. *)
Lemma X21_witness :
  ∃ run A' g',
    log_agent_run Sample.env "ops_tracker" "running" 0 0 None None 0 Fixture.staffed
    = (Returns run, g')
    ∧ workforce_agent_runs g' = workforce_agent_runs Fixture.staffed ++ [run]
    ∧ r_completed_at run = None
    ∧ ag_eval (get_agent "ops_tracker") g' = Returns (Some A')
    ∧ A' !! "last_run_status" = Some (VStr "running")
    ∧ A' !! "name" = Some (VStr "Ops Tracker")
    ∧ workforce_audit_log (core g') = workforce_audit_log (core Fixture.staffed).
Proof.
  edestruct (X21_log_agent_run Sample.env Fixture.staffed "ops_tracker" "running"
               0 0 None None 0)
    as (run & A' & g' & Hrun & Hruns & _ & _ & _ & _ & Hdone & _ & Hget & Hstatus & _
        & Hframe & _ & _ & Haudit & _); [reflexivity|].
  exists run, A', g'. split_and!; [done|done|by apply Hdone|done|done| |done].
  rewrite (Hframe "name"); [reflexivity|].
  intros H%list_elem_of_In. simpl in H. intuition discriminate.
Defined.

Lemma replace_spaces_get (s : string) (n : nat) :
  String.get n (replace_spaces s) ≠ Some space.
Proof.
  revert n. induction s as [|c s IH]; intros n; [done|]. simpl.
  destruct n as [|n]; [|apply IH].
  destruct (Ascii.eqb c space) eqn:Hc; [done|].
  apply Ascii.eqb_neq in Hc. by intros [= ->].
Qed.

Lemma replace_spaces_length (s : string) :
  String.length (replace_spaces s) = String.length s.
Proof. induction s as [|c s IH]; [done|]. simpl. by rewrite IH. Qed.

Lemma create_agent_run (env : Env) (lower : string → string) (g : Registry)
    (name role : string) (capabilities : option (list string))
    (model_config : option (list (string * value))) (enabled : bool) :
  let now := wall_clock env (clock_reads (core g)) in
  let configured := match model_config with
                    | Some (_ :: _) => true
                    | _ => false
                    end in
  let row : gmap string value :=
    list_to_map
      [ ("id", VStr (replace_spaces (lower name)));
        ("name", VStr name);
        ("role", VStr role);
        ("capabilities", VList (VStr <$> default [] capabilities));
        ("model_provider",
         if configured
         then default (VStr "openai") (assoc "provider" (default [] model_config))
         else VStr "openai");
        ("model_id",
         if configured
         then default (VStr "gpt-4o-mini") (assoc "model" (default [] model_config))
         else VStr "gpt-4o-mini");
        ("enabled", VBool enabled);
        ("created_at", VTime now);
        ("updated_at", VTime now) ] ∪ agent_column_defaults in
  create_agent env lower name role capabilities model_config enabled g
  = (Returns row,
     {| core := tick_clock (core g);
        workforce_agents := workforce_agents g ++ [row];
        workforce_agent_runs := workforce_agent_runs g |}).
Proof. reflexivity. Qed.

(** X22. [create_agent] files the agent under its lower-cased name with
    every space turned into an underscore, so the identifier has the length
    of the name and no space. When no agent carries that identifier yet, the
    row it returns is the one [get_agent] then finds under it, other
    identifiers read as before, and the agent is listed by
    [get_agents(enabled_only=True)] exactly when it was created enabled.
    Without a model configuration, or with an empty one, the agent runs on
    openai / gpt-4o-mini; a configuration that lacks one of the two keys
    gets that default for it. The agent starts without a last run. *)
Theorem X22_create_agent (env : Env) (lower : string → string) (g : Registry)
    (name role : string) (capabilities : option (list string))
    (model_config : option (list (string * value))) (enabled : bool) :
  ag_eval (get_agent (replace_spaces (lower name))) g = Returns None →
  ∃ row g' listed,
    create_agent env lower name role capabilities model_config enabled g
    = (Returns row, g')
    ∧ row !! "id" = Some (VStr (replace_spaces (lower name)))
    ∧ (∀ n, String.get n (replace_spaces (lower name)) ≠ Some space)
    ∧ String.length (replace_spaces (lower name)) = String.length (lower name)
    ∧ ag_eval (get_agent (replace_spaces (lower name))) g' = Returns (Some row)
    ∧ (∀ other, other ≠ replace_spaces (lower name) →
       ag_eval (get_agent other) g' = ag_eval (get_agent other) g)
    ∧ ag_eval (get_agents true) g = Returns listed
    ∧ ag_eval (get_agents true) g' = Returns (if enabled then listed ++ [row] else listed)
    ∧ ag_eval (get_agents false) g' = Returns (workforce_agents g ++ [row])
    ∧ row !! "name" = Some (VStr name)
    ∧ row !! "role" = Some (VStr role)
    ∧ (model_config = None ∨ model_config = Some [] →
       row !! "model_provider" = Some (VStr "openai")
       ∧ row !! "model_id" = Some (VStr "gpt-4o-mini"))
    ∧ (∀ config, model_config = Some config → config ≠ [] →
       row !! "model_provider" = Some (default (VStr "openai") (assoc "provider" config))
       ∧ row !! "model_id" = Some (default (VStr "gpt-4o-mini") (assoc "model" config)))
    ∧ row !! "last_run_at" = Some VNull
    ∧ row !! "last_run_status" = Some VNull
    ∧ row !! "created_at" = row !! "updated_at"
    ∧ workforce_agent_runs g' = workforce_agent_runs g
    ∧ workforce_audit_log (core g') = workforce_audit_log (core g).
Proof.
  intros Hfree. unfold ag_eval, get_agent, ag_gets in Hfree. simpl in Hfree.
  injection Hfree as Hfree.
  destruct (List.filter (row_eq "id" (replace_spaces (lower name))) (workforce_agents g))
    as [|x l] eqn:Hf; [clear Hfree|done].
  pose proof (create_agent_run env lower g name role capabilities model_config enabled)
    as Hrun. cbv zeta in Hrun.
  match type of Hrun with
  | _ = (Returns ?r, _) => set (row := r) in Hrun
  end.
  assert (row !! "id" = Some (VStr (replace_spaces (lower name)))) as Hid by reflexivity.
  assert (row !! "enabled" = Some (VBool enabled)) as Hen by reflexivity.
  eexists row, _, _. split; [exact Hrun|].
  unfold ag_eval, get_agent, get_agents, ag_gets.
  cbn [fst workforce_agents workforce_agent_runs core].
  split_and!.
  all: try reflexivity.
  - apply replace_spaces_get.
  - apply replace_spaces_length.
  - rewrite List.filter_app, Hf. simpl. by rewrite (row_eq_id row _ Hid).
  - intros other Hne. rewrite List.filter_app. simpl.
    rewrite (row_eq_other row (replace_spaces (lower name)) other
               (not_eq_sym Hne) (row_eq_id _ _ Hid)).
    by rewrite app_nil_r.
  - rewrite List.filter_app. simpl. rewrite Hen.
    destruct enabled; [reflexivity|by rewrite app_nil_r].
  - intros [->| ->]; split; reflexivity.
  - intros [|kv config] -> Hne; [by destruct Hne|]. split; reflexivity.
Qed.

(** The statement for the first agent of an empty registry, created without
    a model configuration. *)
Lemma X22_witness :
  ∃ row g',
    create_agent Sample.env Fixture.lower_ascii "Ops Tracker" "Pakistan Ops Spine"
      (Some ["track"; "report"]) None true (Fixture.registry Sample.empty)
    = (Returns row, g')
    ∧ row !! "id" = Some (VStr "ops_tracker")
    ∧ ag_eval (get_agent "ops_tracker") g' = Returns (Some row)
    ∧ ag_eval (get_agents true) g' = Returns [row]
    ∧ row !! "model_id" = Some (VStr "gpt-4o-mini").
Proof.
  destruct (X22_create_agent Sample.env Fixture.lower_ascii (Fixture.registry Sample.empty)
              "Ops Tracker" "Pakistan Ops Spine" (Some ["track"; "report"]) None true
              eq_refl)
    as (row & g' & listed & Hrun & Hid & _ & _ & Hget & _ & Hlisted & Hlist & _ & _ & _
        & Hmodel & _).
  exists row, g'. split_and!; [exact Hrun|exact Hid|exact Hget| |].
  - injection Hlisted as <-. exact Hlist.
  - apply Hmodel. by left.
Defined.

(** X23. [GET /tasks/{task_id}] writes nothing; it raises HTTPException 404
    "Task not found" exactly when no task row carries the identifier, and
    otherwise returns a row of the table carrying it. [POST
    /tasks/{task_id}/approve] does not wrap the client's errors as the PATCH
    route does: for an unknown task the ValueError "Task <id> not found"
    leaves the route as it is, whatever the action. On a task of the store,
    the action ["approve"] records the actor as approver and keeps the
    status; any other action is a rejection: the task goes back to BACKLOG
    and loses its approver. *)
Theorem X23_task_routes (env : Env) (w : World) (task_id actor : string)
    (reason : option string) :
  (∀ o w', api.get_task task_id w = (o, w') → w' = w)
  ∧ (api.get_task task_id w = (Raises (HTTPException 404 "Task not found"), w)
     ↔ no_task task_id w)
  ∧ (∀ T, api.get_task task_id w = (Returns T, w) →
          T ∈ workforce_tasks w ∧ T !! "id" = Some (VStr task_id))
  ∧ (no_task task_id w → ∀ action, ∃ w',
       api.approve_task env task_id action reason actor w
       = (Raises (ValueError ("Task " +:+ task_id +:+ " not found")), w')
       ∧ workforce_tasks w' = workforce_tasks w
       ∧ workforce_audit_log w' = workforce_audit_log w)
  ∧ (∀ T, eval (get_task task_id) w = Returns (Some T) →
     (∃ T' w',
        api.approve_task env task_id "approve" reason actor w = (Returns (Some T'), w')
        ∧ T' !! "approved_by" = Some (VStr actor)
        ∧ T' !! "status" = T !! "status")
     ∧ (∀ action, action ≠ "approve" → ∃ T' w',
        api.approve_task env task_id action reason actor w = (Returns (Some T'), w')
        ∧ T' !! "status" = Some (VStr "BACKLOG")
        ∧ T' !! "approved_by" = Some VNull)).
Proof.
  assert (∀ o w', api.get_task task_id w = (o, w') → w' = w) as Hpure.
  { intros o w'. unfold api.get_task. db_run.
    destruct (head _); by intros [= _ <-]. }
  split_and!.
  - exact Hpure.
  - rewrite no_task_get_task, get_task_eval. unfold api.get_task. db_run.
    destruct (head _); split; done.
  - intros T. unfold api.get_task. db_run.
    destruct (head _) as [T0|] eqn:Hh; [|done]. intros [= ->].
    assert (T ∈ List.filter (row_eq "id" task_id) (workforce_tasks w)) as Hin.
    { destruct (List.filter _ _); [done|]. injection Hh as ->. left. }
    apply elem_of_filter_bool in Hin as [Hin Hid]. by apply row_eq_true in Hid.
  - intros Hno%no_task_get_task action. unfold api.approve_task.
    destruct (String.eqb action "approve").
    + exists (tick_clock w). split; [|done].
      unfold approve_task. erewrite bind_returns by reflexivity.
      erewrite bind_raises; [done|]. by apply update_task_not_found.
    + exists w. split; [|done].
      unfold reject_task. erewrite bind_raises; [done|].
      by apply update_task_not_found.
  - intros T HT. split.
    + destruct (approve_task_returns env w task_id actor T HT)
        as (a1 & a2 & w' & Hrun & _).
      eexists _, w'. split; [exact Hrun|]. split.
      * by apply patched_lookup_patch.
      * apply patched_lookup_frame; [done|]. by apply approval_patch_lookup.
    + intros action Hne%String.eqb_neq.
      destruct (reject_task_returns env w task_id actor reason T HT)
        as (a1 & a2 & w' & Hrun & _).
      eexists _, w'. unfold api.approve_task. rewrite Hne. split; [exact Hrun|].
      split; by apply patched_lookup_patch.
Qed.

(** The statement at the sample task: fetched, unknown, and rejected by an
    action that is not ["approve"]. *)
Lemma X23_witness :
  (∃ T, api.get_task "u0" Sample.one_task = (Returns T, Sample.one_task)
        ∧ T !! "id" = Some (VStr "u0"))
  ∧ api.get_task "u9" Sample.one_task
    = (Raises (HTTPException 404 "Task not found"), Sample.one_task)
  ∧ (∃ w', api.approve_task Sample.env "u9" "approve" None "logan" Sample.one_task
           = (Raises (ValueError ("Task " +:+ "u9" +:+ " not found")), w'))
  ∧ (∃ T' w', api.approve_task Sample.env "u0" "reject" (Some "too vague") "logan"
                Sample.one_task = (Returns (Some T'), w')
              ∧ T' !! "status" = Some (VStr "BACKLOG")).
Proof.
  destruct (X23_task_routes Sample.env Sample.one_task "u0" "logan" (Some "too vague"))
    as (_ & _ & Hget & _ & Hknown).
  destruct (X23_task_routes Sample.env Sample.one_task "u9" "logan" None)
    as (_ & Hmiss & _ & Hfail & _).
  split_and!.
  - eexists. split; [reflexivity|]. by apply Hget.
  - apply Hmiss. by apply no_task_scan.
  - destruct (Hfail (no_task_scan "u9" Sample.one_task eq_refl) "approve") as (w' & Hrun & _).
    by exists w'.
  - edestruct Hknown as [_ Hreject]; [reflexivity|].
    destruct (Hreject "reject") as (T' & w' & Hrun & Hstatus & _); [done|].
    by exists T', w'.
Defined.

(** *** Event and audit queries *)

(** X24. [GET /events] writes nothing. With [processed=false] it answers as
    [get_unprocessed_events] does. With [processed=true] it answers exactly
    as with no [processed] at all: the flag is not a filter, and what comes
    back are the newest events, at most [limit] of them, newest first,
    processed or not; with a limit that covers the table every event is
    returned, the unprocessed ones too. *)
Theorem X24_get_events (w : World) (limit_ : nat) :
  api.get_events (Some false) limit_ w = get_unprocessed_events limit_ w
  ∧ api.get_events (Some true) limit_ w = api.get_events None limit_ w
  ∧ ∃ l rest,
      api.get_events (Some true) limit_ w = (Returns l, w)
      ∧ length l = (limit_ `min` length (workforce_events w))%nat
      ∧ l ++ rest ≡ₚ workforce_events w
      ∧ StronglySorted (λ a b, e_created_at b ≤ e_created_at a) l
      ∧ (∀ a b, a ∈ l → b ∈ rest → e_created_at b ≤ e_created_at a)
      ∧ ((length (workforce_events w) ≤ limit_)%nat →
         ∀ e, e ∈ workforce_events w → e ∈ l).
Proof.
  split; [done|]. split; [done|].
  destruct (limit_split (λ a b, e_created_at b ≤ e_created_at a) limit_
              (order_by e_created_at true (workforce_events w))
              (order_by_desc_sorted _ _))
    as (Hlen & Hsorted & Happ & Hcut).
  exists (limit limit_ (order_by e_created_at true (workforce_events w))),
         (drop limit_ (order_by e_created_at true (workforce_events w))).
  split_and!; [done| |by rewrite Happ, order_by_perm|done|done|].
  - rewrite Hlen. f_equal. apply Permutation_length, order_by_perm.
  - intros Hall e He. rewrite limit_all.
    + by rewrite order_by_perm.
    + by rewrite (Permutation_length (order_by_perm _ _ _)).
Qed.

Lemma get_audit_log_run (w : World) (entity_type entity_id event_type : option string)
    (limit_ : nat) :
  api.get_audit_log entity_type entity_id event_type limit_ w
  = (Returns (limit limit_
                (order_by a_created_at true
                   (List.filter (audit_matches entity_type entity_id event_type)
                      (workforce_audit_log w)))), w).
Proof.
  unfold api.get_audit_log, gets. do 3 f_equal.
  rewrite (filter_ext_bool (audit_matches entity_type entity_id event_type)
             (λ a, ((if str_truthy entity_type
                     then String.eqb (a_entity_type a) (default "" entity_type)
                     else true)
                    && (if str_truthy entity_id
                        then String.eqb (a_entity_id a) (default "" entity_id)
                        else true))
                   && (if str_truthy event_type
                       then String.eqb (a_event_type a) (default "" event_type)
                       else true)))
    by done.
  rewrite <- !filter_filter_bool.
  destruct (str_truthy entity_type), (str_truthy entity_id), (str_truthy event_type);
    by rewrite ?filter_true.
Qed.

(** X25. [GET /audit] only reads: the store is the same after the query.
    It returns entries of the log, at most [limit] of them, newest first,
    keeping the newest when it cuts; each filter given keeps the entries
    whose field equals it, and an empty string as filter is no filter. *)
Theorem X25_get_audit_log (w : World) (entity_type entity_id event_type : option string)
    (limit_ : nat) :
  ∃ l rest,
    api.get_audit_log entity_type entity_id event_type limit_ w = (Returns l, w)
    ∧ (length l ≤ limit_)%nat
    ∧ l ++ rest ≡ₚ List.filter (audit_matches entity_type entity_id event_type)
                    (workforce_audit_log w)
    ∧ (∀ a, a ∈ l →
            a ∈ workforce_audit_log w
            ∧ (∀ t, entity_type = Some t → t ≠ "" → a_entity_type a = t)
            ∧ (∀ i, entity_id = Some i → i ≠ "" → a_entity_id a = i)
            ∧ (∀ t, event_type = Some t → t ≠ "" → a_event_type a = t))
    ∧ StronglySorted (λ a b, a_created_at b ≤ a_created_at a) l
    ∧ (∀ a b, a ∈ l → b ∈ rest → a_created_at b ≤ a_created_at a)
    ∧ api.get_audit_log (Some "") entity_id event_type limit_ w
      = api.get_audit_log None entity_id event_type limit_ w.
Proof.
  set (found := List.filter (audit_matches entity_type entity_id event_type)
                  (workforce_audit_log w)).
  destruct (limit_split (λ a b, a_created_at b ≤ a_created_at a) limit_
              (order_by a_created_at true found) (order_by_desc_sorted _ _))
    as (Hlen & Hsorted & Happ & Hcut).
  exists (limit limit_ (order_by a_created_at true found)),
         (drop limit_ (order_by a_created_at true found)).
  split_and!; [apply get_audit_log_run|lia|by rewrite Happ, order_by_perm| |done|done|done].
  intros a Ha%elem_of_take_1. rewrite order_by_perm in Ha.
  apply elem_of_filter_bool in Ha as [Hin Hm]. split; [done|].
  unfold audit_matches in Hm.
  apply andb_true_iff in Hm as [[Het Hei]%andb_true_iff Hev].
  split_and!.
  - intros t -> Hne. apply String.eqb_neq in Hne. simpl in Het. rewrite Hne in Het.
    simpl in Het. by apply String.eqb_eq in Het.
  - intros i -> Hne. apply String.eqb_neq in Hne. simpl in Hei. rewrite Hne in Hei.
    simpl in Hei. by apply String.eqb_eq in Hei.
  - intros t -> Hne. apply String.eqb_neq in Hne. simpl in Hev. rewrite Hne in Hev.
    simpl in Hev. by apply String.eqb_eq in Hev.
Qed.
